(** * AWS-Cost-Canceler: a shallow embedding of the cost analysis, usage-type
    resolver, cancellation dispatcher and cancellation ledger, with the
    properties of the design specification checked against the Python code.

    Conventions of the embedding:
    - a Python [float] is a kernel binary64 float ([PrimFloat.float]), with the
      comparisons and the addition of IEEE 754, as CPython has them;
    - a Python [str] is a [string]; [x in s], [s.startswith], [s.split(c)[0]]
      are the functions of module [Py] below;
    - a Python [dict] used as a record of results is an association list in
      insertion order ([PyVal]); the ledger, a dict keyed by service name, is
      a [gmap string _];
    - code that can raise returns in [Exn + A]; calls to AWS go through an
      oracle (the "world") and are logged, so that a theorem can speak about
      the requests a function issued. *)

From Stdlib Require Import String Ascii List Bool.
From Stdlib Require Import Floats.PrimFloat Floats.SpecFloat Floats.FloatOps Floats.FloatAxioms.
From Stdlib Require Import Sorting.Permutation Sorting.Sorted.
From stdpp Require Import gmap strings pretty.

Local Open Scope string_scope.
Import ListNotations.
Set Warnings "-inexact-float,-register-all".

(* ===================================================================== *)
(** ** Python strings and truthiness *)
(* ===================================================================== *)

Module Py.

(** [s.startswith(p)] *)
Fixpoint startswith (p s : string) : bool :=
  match p, s with
  | EmptyString, _ => true
  | String a p', String b s' => Ascii.eqb a b && startswith p' s'
  | String _ _, EmptyString => false
  end.

(** [p in s] on strings: some suffix of [s] starts with [p]. *)
Fixpoint str_in (p s : string) : bool :=
  startswith p s ||
  match s with
  | EmptyString => false
  | String _ s' => str_in p s'
  end.

(** [s.split(sep)[0]] for a one-character separator: the characters before
    the first occurrence of [sep] (the whole string when there is none). *)
Fixpoint split_head (sep : ascii) (s : string) : string :=
  match s with
  | EmptyString => EmptyString
  | String c s' => if Ascii.eqb c sep then EmptyString else String c (split_head sep s')
  end.

(** Truthiness of a string, and of an optional string ([None] or the empty string are
    falsy): [if x:] and [not x]. *)
Definition truthy (s : string) : bool :=
  match s with EmptyString => false | String _ _ => true end.

Definition truthy_opt (o : option string) : bool :=
  match o with None => false | Some s => truthy s end.

(** [d.get(k)] on a dict literal written as an association list. *)
Fixpoint dict_get {V : Type} (k : string) (d : list (string * V)) : option V :=
  match d with
  | [] => None
  | (k', v) :: d' => if String.eqb k' k then Some v else dict_get k d'
  end.

(** [cost > threshold] on floats. *)
Definition gt (x y : float) : bool := PrimFloat.ltb y x.

End Py.

(* ===================================================================== *)
(** ** Exceptions *)
(* ===================================================================== *)

(** The exceptions the modelled code distinguishes: botocore's [ClientError]
    (with the error code, the message and the operation of its response), a
    [KeyError] of a subscript, and every other [Exception]. *)
Inductive Exn : Type :=
| ClientError (code message operation : string)
| KeyError (key : string)
| OtherError (text : string).

(** [str(e)] *)
Definition exn_str (e : Exn) : string :=
  match e with
  | ClientError code message operation =>
      "An error occurred (" +:+ code +:+ ") when calling the " +:+ operation
        +:+ " operation: " +:+ message
  | KeyError key => "'" +:+ key +:+ "'"
  | OtherError text => text
  end.

Definition is_client_error (e : Exn) : bool :=
  match e with ClientError _ _ _ => true | _ => false end.

(* ===================================================================== *)
(** ** Region / usage-type resolver
    [AWSResourceScanner.find_exact_opensearch_billing_source]
    (src/nova_cost/utils/aws_resource_scanner.py) *)
(* ===================================================================== *)

Module Resolver.
Import Py.

(** One group of the Cost Explorer response grouped by SERVICE and
    USAGE_TYPE: [group['Keys'][0]], [group['Keys'][1]] and
    [float(group['Metrics']['BlendedCost']['Amount'])]. *)
Record Group : Type := mkGroup {
  service : string;
  usage_type : string;
  cost : float
}.

(** The [region_map] dict literal. *)
Definition region_map : list (string * string) :=
  [ ("USE1", "us-east-1");
    ("USE2", "us-east-2");
    ("USW1", "us-west-1");
    ("USW2", "us-west-2");
    ("EUW1", "eu-west-1");
    ("EUW2", "eu-west-2");
    ("EUC1", "eu-central-1") ].

(** The local variables of the loop. *)
Record Scan : Type := mkScan {
  opensearch_usage_types : list string;
  primary_region : option string;
  is_serverless : bool
}.

Definition scan_init : Scan :=
  {| opensearch_usage_types := []; primary_region := None; is_serverless := false |}.

(** The guard of the loop body: ['OpenSearch' in service and cost > 0.01]. *)
Definition analysed (g : Group) : bool :=
  str_in "OpenSearch" (service g) && gt (cost g) 0.01%float.

(** [usage_type.split('-')[0] if '-' in usage_type else None] *)
Definition region_code (u : string) : option string :=
  if str_in "-" u then Some (split_head "-"%char u) else None.

(** One iteration of the [for group in ...] loop. *)
Definition scan_step (st : Scan) (g : Group) : Scan :=
  if analysed g then
    let u := usage_type g in
    let serverless' :=
      if str_in "Serverless" u || str_in "ServerlessOCU" u then true
      else is_serverless st in
    let region' :=
      match region_code u with
      | Some rc =>
          if truthy rc then
            match dict_get rc region_map with
            | Some r => if negb (truthy_opt (primary_region st)) then Some r
                        else primary_region st
            | None => primary_region st
            end
          else primary_region st
      | None => primary_region st
      end in
    {| opensearch_usage_types := (opensearch_usage_types st ++ [u])%list;
       primary_region := region';
       is_serverless := serverless' |}
  else st.

Definition scan (groups : list Group) : Scan :=
  fold_left scan_step groups scan_init.

(** [if not primary_region: primary_region = 'us-east-1'] *)
Definition default_region (o : option string) : string :=
  if negb (truthy_opt o) then "us-east-1"
  else match o with Some r => r | None => "us-east-1" end.

(** The region and the serverless flag the function goes on with. *)
Definition resolved_region (groups : list Group) : string :=
  default_region (primary_region (scan groups)).

Definition resolved_serverless (groups : list Group) : bool :=
  is_serverless (scan groups).

(** [generate_direct_console_url] *)
Definition resource_paths : list (string * string) :=
  [ ("opensearch", "opensearch/home");
    ("bedrock", "bedrock/home");
    ("billing", "billing/home");
    ("cloudtrail", "cloudtrail/home") ].

Definition generate_direct_console_url (region resource_type resource_id : string) : string :=
  let base_path :=
    match dict_get resource_type resource_paths with
    | Some p => p
    | None => resource_type +:+ "/home"
    end in
  let url := "https://console.aws.amazon.com/" +:+ base_path +:+ "?region=" +:+ region in
  if truthy resource_id && negb (String.eqb resource_id "*")
  then url +:+ "#/" +:+ resource_id
  else url.

(** What the function reads from outside: the groups of the first result
    of [ce.get_cost_and_usage] (or the exception raised on the way to
    them), and the answer of [_find_recent_opensearch_domain], which
    catches its own exceptions and returns [None] then. *)
Record World : Type := mkWorld {
  ce_groups : Exn + list Group;
  find_recent_opensearch_domain : string -> option string
}.

(** The returned dict: keys ["name"], ["url"], ["instructions"]. *)
Definition Link : Type := list (string * string).

Definition link_for (w : World) (groups : list Group) : Link :=
  let region := resolved_region groups in
  if resolved_serverless groups then
    [ ("name", "DIRECT LINK: OpenSearch Serverless in " +:+ region);
      ("url", generate_direct_console_url region "opensearch-serverless" "collections");
      ("instructions",
        "This direct link will take you to the OpenSearch Serverless Collections in "
          +:+ region +:+ " that are incurring charges.") ]
  else
    match find_recent_opensearch_domain w region with
    | Some domain_name =>
        if truthy domain_name then
          [ ("name", "DIRECT LINK: OpenSearch Domain '" +:+ domain_name +:+ "' in " +:+ region);
            ("url", generate_direct_console_url region "opensearch" domain_name);
            ("instructions",
              "This direct link will take you to the specific OpenSearch domain '"
                +:+ domain_name +:+ "' in " +:+ region +:+ ".") ]
        else
          [ ("name", "DIRECT LINK: OpenSearch Domains in " +:+ region);
            ("url", generate_direct_console_url region "opensearch" "domains");
            ("instructions",
              "This direct link will take you to all OpenSearch domains in " +:+ region +:+ ".") ]
    | None =>
        [ ("name", "DIRECT LINK: OpenSearch Domains in " +:+ region);
          ("url", generate_direct_console_url region "opensearch" "domains");
          ("instructions",
            "This direct link will take you to all OpenSearch domains in " +:+ region +:+ ".") ]
    end.

(** The whole function: [None] when anything raised. *)
Definition find_exact_opensearch_billing_source (w : World) : option Link :=
  match ce_groups w with
  | inl _ => None
  | inr groups => Some (link_for w groups)
  end.

(** *** Specification-side notions *)

(** The region a single usage type stands for, as the loop reads it. *)
Definition region_of_usage (u : string) : option string :=
  match region_code u with
  | Some rc => if truthy rc then dict_get rc region_map else None
  | None => None
  end.

(** The first analysed group, in response order, with a known region. *)
Fixpoint first_known_region (groups : list Group) : option string :=
  match groups with
  | [] => None
  | g :: rest =>
      if analysed g then
        match region_of_usage (usage_type g) with
        | Some r => Some r
        | None => first_known_region rest
        end
      else first_known_region rest
  end.

(** The cost the analysed groups of region [r] add up to. *)
Definition region_cost (groups : list Group) (r : string) : float :=
  fold_left
    (fun acc g =>
       if analysed g then
         match region_of_usage (usage_type g) with
         | Some r' => if String.eqb r' r then PrimFloat.add acc (cost g) else acc
         | None => acc
         end
       else acc)
    groups 0%float.

(** [r] accounts for the largest share: no region has a larger cost. *)
Definition largest_share (groups : list Group) (r : string) : Prop :=
  forall r', PrimFloat.leb (region_cost groups r') (region_cost groups r) = true.

End Resolver.

(* ===================================================================== *)
(** ** Cost queries and cost analysis
    src/nova_cost/services/aws_cost_monitor.py, src/nova_cost/api.py,
    src/nova_cost/domain/ports.py, src/nova_cost/domain/services.py,
    src/nova_cost/adapters/aws_cost_adapter.py *)
(* ===================================================================== *)

Module Cost.
Import Py.

(** A [try: body except Exception: handler] block whose handler returns. *)
Definition try_except {A : Type} (body : Exn + A) (handler : Exn -> A) : A :=
  match body with
  | inl e => handler e
  | inr a => a
  end.

(** Sequencing of code that can raise. *)
Definition bind {A B : Type} (m : Exn + A) (k : A -> Exn + B) : Exn + B :=
  match m with
  | inl e => inl e
  | inr a => k a
  end.

(** A service group of a response grouped by one dimension:
    [(group['Keys'][0], float(group['Metrics']['BlendedCost']['Amount']))]. *)
Definition ServiceGroup : Type := (string * float)%type.

(** The dict [AWSCostMonitor.get_service_costs] builds per service. *)
Record ServiceEntry : Type := mkEntry {
  service : string;
  cost : float;
  details : string;
  status : string
}.

(** *** [AWSCostMonitor] (services/aws_cost_monitor.py) *)

(** The chain of [if ... in service_name] tests that chooses the details. *)
Definition monitor_details (service_name : string) : string :=
  if str_in "OpenSearch" service_name then "Search/OUs, Indexing/DUs, Storage"
  else if str_in "Skill Builder" service_name then "Subscription"
  else if str_in "Cost Explorer" service_name then "API usage charges"
  else if str_in "Bedrock" service_name then "Model inference, tokens, API usage"
  else if str_in "Claude" service_name then "Usage charges"
  else "Usage charges".

(** The loop over the groups: groups under 0.01 are skipped. *)
Fixpoint monitor_entries (groups : list ServiceGroup) : list ServiceEntry :=
  match groups with
  | [] => []
  | (service_name, c) :: rest =>
      if PrimFloat.ltb c 0.01%float then monitor_entries rest
      else {| service := service_name; cost := c;
              details := monitor_details service_name; status := "Active" |}
           :: monitor_entries rest
  end.

(** [list.sort(key=..., reverse=True)] is a stable sort into descending
    key order: a stable insertion sort, each element going behind the
    elements that are not smaller. The two agree when no key is NaN; the
    order Python leaves among NaN keys is not modelled. *)
Fixpoint insert_desc {A : Type} (key : A -> float) (x : A) (l : list A) : list A :=
  match l with
  | [] => [x]
  | y :: l' =>
      if PrimFloat.ltb (key y) (key x) then x :: y :: l'
      else y :: insert_desc key x l'
  end.

Definition sort_desc {A : Type} (key : A -> float) (l : list A) : list A :=
  fold_left (fun acc x => insert_desc key x acc) l [].

(** A list in descending order of [key]: every element is at least as
    large as all the elements behind it. *)
Definition descending {A : Type} (key : A -> float) (l : list A) : Prop :=
  StronglySorted (fun a b => PrimFloat.leb (key b) (key a) = true) l.

(** The list returned when the Cost Explorer call fails. *)
Definition sample_service_costs : list ServiceEntry :=
  [ mkEntry "AWS Skill Builder Individual" 58.00%float "Subscription" "Canceled on 2025-04-15";
    mkEntry "Amazon OpenSearch Service" 19.65%float "Search/OUs, Indexing/DUs, Storage"
      "Canceled on 2025-04-15";
    mkEntry "AWS Cost Explorer (Usage Analytics Service)" 12.15%float "API usage charges" "Active";
    mkEntry "Tax (AWS Services)" 3.82%float "Usage charges" "Active";
    mkEntry "Amazon Bedrock" 0.12%float "Model inference, tokens, API usage" "Active";
    mkEntry "Claude 3.7 Sonnet (Amazon Bedrock Edition)" 0.02%float "Usage charges" "Active";
    mkEntry "Amazon S3" 0.01%float "Storage, requests" "Active" ].

(** What the monitor reads from outside: whether [boto3.client('ce')]
    could be built in [__init__]; what the Cost Explorer call grouped by
    SERVICE gave for a look-back of [days_back] days: the groups of its
    first result, or the exception raised by the call or by reading it; what
    the DAILY call gave: per result the start date and the total; and the
    clock: [(today - timedelta(days=i)).strftime('%Y-%m-%d')].
    [get_date_range], which both queries call before their [try], is taken
    to return: [days_back] is within what [timedelta] and [date] accept. *)
Record MonitorWorld : Type := mkMonitorWorld {
  ce_client : option Exn;
  cost_by_service : Z -> Exn + list ServiceGroup;
  cost_by_day : Z -> Exn + list (string * float);
  date_before_today : Z -> string
}.

(** [AWSCostMonitor.get_service_costs] *)
Definition monitor_get_service_costs (w : MonitorWorld) (days_back : Z) : list ServiceEntry :=
  try_except
    (bind (cost_by_service w days_back)
       (fun groups => inr (sort_desc cost (monitor_entries groups))))
    (fun _ => sample_service_costs).

(** [range(days_back, 0, -1)]: [days_back], [days_back - 1], ..., 1. *)
Definition range_down (days_back : Z) : list Z :=
  map (fun k => (days_back - Z.of_nat k)%Z) (seq 0 (Z.to_nat days_back)).

(** The float of [i % 3]. *)
Definition float_of_residue (r : Z) : float :=
  match r with
  | 0%Z => 0%float
  | 1%Z => 1%float
  | _ => 2%float
  end.

(** The made-up daily costs returned when the Cost Explorer call fails. *)
Definition sample_daily_costs (date_of : Z -> string) (days_back : Z)
  : list (string * float * string) :=
  map (fun i =>
         (date_of i,
          if (i mod 5 =? 0)%Z then 9.75%float
          else PrimFloat.add 3.00%float (float_of_residue (i mod 3)),
          "AWS Services"))
      (range_down days_back).

(** [AWSCostMonitor.get_daily_costs] *)
Definition monitor_get_daily_costs (w : MonitorWorld) (days_back : Z)
  : list (string * float * string) :=
  try_except
    (bind (cost_by_day w days_back)
       (fun results =>
          inr (map (fun r : string * float => (fst r, snd r, "AWS Services")) results)))
    (fun _ => sample_daily_costs (date_before_today w) days_back).

(** *** The public API (api.py) *)

(** [api.analyze_costs]: the messages it prints are left out. *)
Definition api_analyze_costs (w : MonitorWorld) (threshold : float) (days_back : Z)
  : Exn + list ServiceEntry :=
  match ce_client w with
  | Some e => inl e
  | None =>
      let services := monitor_get_service_costs w days_back in
      inr (List.filter (fun s => gt (cost s) threshold) services)
  end.

(** *** The ports and the domain service (domain/ports.py, domain/services.py) *)

(** [CostDataPort]: the two cost queries (the third method only formats a
    date range). [E] is the type of the service dicts the port returns;
    [entry_service] is the subscript [service['service']], a [KeyError]
    for dicts without that key. *)
Class CostDataPort (P E : Type) : Type := {
  get_service_costs : P -> Z -> Exn + list E;
  get_daily_costs : P -> Z -> Exn + list (string * float * string);
  entry_cost : E -> float;    (* [service["cost"]] *)
  entry_service : E -> Exn + string
}.

(** [CostAnalysisService.analyze_costs] *)
Definition analyze_costs {P E : Type} `{CostDataPort P E}
    (port : P) (days_back : Z) (threshold : float) : Exn + list E :=
  bind (get_service_costs port days_back)
    (fun services => inr (List.filter (fun s => gt (entry_cost s) threshold) services)).

(** A port that answers with fixed data, as the mocks of the tests do. *)
Record FixedPort : Type := mkFixedPort {
  fixed_services : list ServiceEntry;
  fixed_daily : list (string * float * string)
}.

#[export] Instance FixedPort_port : CostDataPort FixedPort ServiceEntry := {
  get_service_costs p _ := inr (fixed_services p);
  get_daily_costs p _ := inr (fixed_daily p);
  entry_cost := cost;
  entry_service s := inr (service s)
}.

(** *** [AWSCostAdapter] (adapters/aws_cost_adapter.py) *)

(** The dict the adapter builds per service. *)
Record AdapterEntry : Type := mkAdapterEntry {
  name : string;
  a_cost : float;
  a_details : string;
  a_status : string;
  cancelled_on : option string;
  console_url : string
}.

(** What the adapter reads from outside. [daily_total] and
    [daily_by_service] are the two DAILY queries of [get_daily_costs] (per
    result: the start date and the total, or the start date and the
    groups); [scanner_init] is [AWSResourceScanner()]; [monthly_by_service]
    and [monthly_by_record_type] are the two MONTHLY queries of
    [get_service_costs]; [assemble] is the remainder of its [try] body
    (lines 226-397: console URLs, billing-detective additions, enrichment
    and the final sort), whose result or exception passes through the same
    handler. *)
Record AdapterWorld : Type := mkAdapterWorld {
  daily_total : Z -> Exn + list (string * float);
  daily_by_service : Z -> Exn + list (string * list ServiceGroup);
  scanner_init : option Exn;
  monthly_by_service : Z -> Exn + list ServiceGroup;
  monthly_by_record_type : Z -> Exn + list ServiceGroup;
  assemble : list ServiceGroup -> list ServiceGroup -> Exn + list AdapterEntry
}.

Section Adapter.
(** [f"{x:.2f}"] *)
Variable fmt2 : float -> string.

(** [", ".join(l)] *)
Fixpoint join (sep : string) (l : list string) : string :=
  match l with
  | [] => EmptyString
  | [x] => x
  | x :: rest => x +:+ sep +:+ join sep rest
  end.

(** The breakdown string of one day. *)
Definition service_breakdown (groups : list ServiceGroup) : string :=
  let services :=
    map (fun g : ServiceGroup => fst g +:+ " ($" +:+ fmt2 (snd g) +:+ ")")
        (List.filter (fun g : ServiceGroup => gt (snd g) 0%float) groups) in
  let breakdown := join ", " (take 3 services) in
  let breakdown :=
    if Nat.ltb 3 (length services)
    then breakdown +:+ ", +" +:+ pretty (length services - 3)%nat +:+ " more"
    else breakdown in
  if negb (truthy breakdown) then "No significant costs" else breakdown.

(** The dict [service_breakdown_by_date]. *)
Definition breakdown_by_date (results : list (string * list ServiceGroup))
  : gmap string string :=
  fold_left (fun d r => <[fst r := service_breakdown (snd r)]> d) results ∅.

(** [AWSCostAdapter.get_daily_costs] *)
Definition adapter_get_daily_costs (w : AdapterWorld) (days_back : Z)
  : list (string * float * string) :=
  try_except
    (bind (daily_total w days_back) (fun response_total =>
     bind (daily_by_service w days_back) (fun response_by_service =>
       let by_date := breakdown_by_date response_by_service in
       inr (map (fun r : string * float =>
                   (fst r, snd r, default "AWS Services" (by_date !! fst r)))
                response_total))))
    (fun _ => []).
End Adapter.

(** [AWSCostAdapter.get_service_costs] *)
Definition adapter_get_service_costs (w : AdapterWorld) (days_back : Z)
  : list AdapterEntry :=
  try_except
    (bind (match scanner_init w with Some e => inl e | None => inr tt end) (fun _ =>
     bind (monthly_by_service w days_back) (fun response_by_service =>
     bind (monthly_by_record_type w days_back) (fun response_by_record =>
       assemble w response_by_service response_by_record))))
    (fun _ => []).

(** The adapter is a [CostDataPort]. Both queries call [get_date_range]
    before their [try]: [port_date_range] is the exception it raises for
    the given [days_back] (the [OverflowError] of [timedelta] or of the date
    subtraction), if any; past that call the queries never raise. The dicts
    of the adapter are keyed [name], [cost], [details], [status],
    [cancelled_on] and [console_url]: they have no key [service]. *)
Record AdapterPort : Type := mkAdapterPort {
  port_world : AdapterWorld;
  port_fmt2 : float -> string;
  port_date_range : Z -> option Exn
}.

#[export] Instance AdapterPort_port : CostDataPort AdapterPort AdapterEntry := {
  get_service_costs p days_back :=
    match port_date_range p days_back with
    | Some e => inl e
    | None => inr (adapter_get_service_costs (port_world p) days_back)
    end;
  get_daily_costs p days_back :=
    match port_date_range p days_back with
    | Some e => inl e
    | None => inr (adapter_get_daily_costs (port_fmt2 p) (port_world p) days_back)
    end;
  entry_cost := a_cost;
  entry_service _ := inl (KeyError "service")
}.

End Cost.

(* ===================================================================== *)
(** ** Command line
    src/nova_cost/cli.py and src/nova_cost/adapters/cli_adapter.py *)
(* ===================================================================== *)

Module Cli.
Import Py Cost.

(** What [parser.parse_args] gives for the two commands (a parse error
    leaves through [SystemExit] before any command runs). *)
Inductive Command : Type :=
| Report (days : Z) (output : option string) (open : bool)
| Analyze (threshold : float) (days : Z)
| NoCommand.

(** The status of the process for [sys.exit(main())]: the returned code,
    or 1 when an exception leaves [main] uncaught. *)
Definition exit_status (r : Exn + Z) : Z :=
  match r with
  | inl _ => 1%Z
  | inr code => code
  end.

Section Main.
(** [api.generate_report] (report rendering is not modelled). *)
Variable generate_report : Z -> option string -> bool -> Exn + string.
Variable w : MonitorWorld.

(** [main] of cli.py: no [try] anywhere. *)
Definition main (cmd : Command) : Exn + Z :=
  match cmd with
  | Report days output open =>
      bind (generate_report days output open) (fun report_path => inr 0%Z)
  | Analyze threshold days =>
      bind (api_analyze_costs w threshold days) (fun result =>
        inr (match result with [] => 1%Z | _ :: _ => 0%Z end))
  | NoCommand => inr 1%Z
  end.
End Main.

Section Adapter.
Context {P E : Type} `{CostDataPort P E}.
(** [CostAnalysisService.generate_cost_report] and [webbrowser.open]. *)
Variable generate_cost_report : Z -> option string -> Exn + string.
Variable webbrowser_open : string -> option Exn.
Variable port : P.

(** The loop that prints the services found: the f-string reads
    [service['service']] first, then formats [service['cost']]. *)
Fixpoint print_services (high_cost_services : list E) : Exn + unit :=
  match high_cost_services with
  | [] => inr tt
  | s :: rest => bind (entry_service s) (fun _ => print_services rest)
  end.

(** [CLIAdapter.run]: each command runs inside a [try] whose handler
    returns 1. *)
Definition run (cmd : Command) : Z :=
  match cmd with
  | Report days output open =>
      try_except
        (bind (generate_cost_report days output) (fun report_path =>
         bind (if open && truthy report_path
               then match webbrowser_open ("file://" +:+ report_path) with
                    | Some e => inl e
                    | None => inr tt
                    end
               else inr tt) (fun _ =>
         inr 0%Z)))
        (fun _ => 1%Z)
  | Analyze threshold days =>
      try_except
        (bind (analyze_costs port days threshold) (fun high_cost_services =>
         bind (print_services high_cost_services) (fun _ =>
         inr 0%Z)))
        (fun _ => 1%Z)
  | NoCommand => 1%Z
  end.
End Adapter.

End Cli.

(* ===================================================================== *)
(** ** Cancellation dispatcher
    [ServiceCancellationAPI] (src/nova_cost/api/service_cancellation.py) *)
(* ===================================================================== *)

Module Cancellation.
Import Py.

(** The Python values that travel through the dispatcher. *)
Inductive PyVal : Type :=
| VNone
| VBool (b : bool)
| VStr (s : string)
| VList (l : list PyVal)
| VDict (d : list (string * PyVal)).

(** A dict in insertion order. *)
Definition Dict : Type := list (string * PyVal).

(** A request sent through a boto3 client: the region of the session, the
    client name given to [session.client], the method and its keyword
    arguments. *)
Record Request : Type := mkRequest {
  req_region : string;
  req_client : string;
  req_operation : string;
  req_kwargs : Dict
}.

(** AWS as the dispatcher meets it: building a client may raise, and a
    request returns a response dict or raises. *)
Record Aws : Type := mkAws {
  new_client : string -> string -> option Exn;
  respond : Request -> Exn + Dict
}.

(** Computations that may raise and that log the requests they send. *)
Definition M (A : Type) : Type := list Request -> (Exn + A) * list Request.

Definition ret {A : Type} (a : A) : M A := fun log => (inr a, log).

Definition raise {A : Type} (e : Exn) : M A := fun log => (inl e, log).

Definition bind {A B : Type} (m : M A) (k : A -> M B) : M B :=
  fun log =>
    match m log with
    | (inl e, log') => (inl e, log')
    | (inr a, log') => k a log'
    end.

Notation "'do' x <- m ;; k" := (bind m (fun x => k))
  (at level 10, x name, m at level 99, k at level 200).

(** [except ClientError as e: handler]: other exceptions pass. *)
Definition except_client_error {A : Type} (m : M A) (handler : Exn -> M A) : M A :=
  fun log =>
    match m log with
    | (inl e, log') => if is_client_error e then handler e log' else (inl e, log')
    | (inr a, log') => (inr a, log')
    end.

(** [boto3.Session(region_name=region)] only records the region: it sends
    nothing, and the same constructor has already run in [__init__]. *)
Definition Session : Type := string.

(** [session.client(name)] *)
Definition client (aws : Aws) (session : Session) (name : string) : M string :=
  fun log =>
    match new_client aws name session with
    | Some e => (inl e, log)
    | None => (inr name, log)
    end.

(** A method call on a client, with its keyword arguments. *)
Definition call (aws : Aws) (session : Session) (cl operation : string) (kwargs : Dict)
  : M Dict :=
  fun log =>
    let req := mkRequest session cl operation kwargs in
    (respond aws req, (log ++ [req])%list).

(** [d[k]] and [d.get(k, default)] on a response. *)
Definition item (d : Dict) (k : string) : M PyVal :=
  match dict_get k d with
  | Some v => ret v
  | None => raise (KeyError k)
  end.

Definition get (d : Dict) (k : string) (dflt : PyVal) : PyVal :=
  match dict_get k d with
  | Some v => v
  | None => dflt
  end.

(** [type(v).__name__] *)
Definition type_name (v : PyVal) : string :=
  match v with
  | VNone => "NoneType"
  | VBool _ => "bool"
  | VStr _ => "str"
  | VList _ => "list"
  | VDict _ => "dict"
  end.

(** [response.get(k1, {}).get(k2, '')]: the inner [get] needs a dict; on
    any other value it is an [AttributeError]. *)
Definition get_get (d : Dict) (k1 k2 : string) : M PyVal :=
  match get d k1 (VDict []) with
  | VDict inner => ret (get inner k2 (VStr EmptyString))
  | v => raise (OtherError ("'" +:+ type_name v +:+ "' object has no attribute 'get'"))
  end.

(** A resource id as passed by the caller: [None] or a string. *)
Definition id_val (o : option string) : PyVal :=
  match o with None => VNone | Some s => VStr s end.

Definition str_or_empty (o : option string) : string :=
  match o with None => EmptyString | Some s => s end.

(** [_cancel_opensearch] *)
Definition cancel_opensearch (aws : Aws) (session : Session)
    (domain_name : option string) (region : string) : M Dict :=
  if negb (truthy_opt domain_name) then
    do cl <- client aws session "opensearch" ;;
    do domains <- call aws session cl "list_domain_names" [] ;;
    do names <- item domains "DomainNames" ;;
    ret [("domains", names); ("action", VStr "list_only")]
  else
    do cl <- client aws session "opensearch" ;;
    do response <- call aws session cl "delete_domain" [("DomainName", id_val domain_name)] ;;
    ret [ ("domain_name", id_val domain_name);
          ("deletion_status", get response "DomainStatus" (VDict []));
          ("cancellation_time", get response "DeletionDate" (VStr EmptyString));
          ("action", VStr "deleted") ].

(** [_cancel_opensearch_serverless] *)
Definition cancel_opensearch_serverless (aws : Aws) (session : Session)
    (collection_id : option string) (region : string) : M Dict :=
  do cl <- client aws session "opensearchserverless" ;;
  if negb (truthy_opt collection_id) then
    do collections <- call aws session cl "list_collections" [] ;;
    ret [ ("collections", get collections "collectionSummaries" (VList []));
          ("action", VStr "list_only") ]
  else
    do response <- call aws session cl "delete_collection" [("id", id_val collection_id)] ;;
    ret [ ("collection_id", id_val collection_id);
          ("deletion_status", get response "status" (VStr EmptyString));
          ("cancellation_time", get response "deleteDate" (VStr EmptyString));
          ("action", VStr "deleted") ].

(** [_cancel_redshift] *)
Definition cancel_redshift (aws : Aws) (session : Session)
    (cluster_id : option string) (region : string) : M Dict :=
  do cl <- client aws session "redshift" ;;
  if negb (truthy_opt cluster_id) then
    do clusters <- call aws session cl "describe_clusters" [] ;;
    ret [ ("clusters", get clusters "Clusters" (VList []));
          ("action", VStr "list_only") ]
  else
    do response <- call aws session cl "delete_cluster"
                  [ ("ClusterIdentifier", id_val cluster_id);
                    ("SkipFinalClusterSnapshot", VBool true) ] ;;
    do st <- get_get response "Cluster" "ClusterStatus" ;;
    ret [ ("cluster_id", id_val cluster_id);
          ("deletion_status", st);
          ("action", VStr "deleted") ].

(** [_cancel_lambda] *)
Definition cancel_lambda (aws : Aws) (session : Session)
    (function_name : option string) (region : string) : M Dict :=
  do cl <- client aws session "lambda" ;;
  if negb (truthy_opt function_name) then
    do functions <- call aws session cl "list_functions" [] ;;
    ret [ ("functions", get functions "Functions" (VList []));
          ("action", VStr "list_only") ]
  else
    do response <- call aws session cl "delete_function"
                  [("FunctionName", id_val function_name)] ;;
    ret [ ("function_name", id_val function_name);
          ("action", VStr "deleted") ].

(** [_cancel_ec2] *)
Definition cancel_ec2 (aws : Aws) (session : Session)
    (instance_id : option string) (region : string) : M Dict :=
  do cl <- client aws session "ec2" ;;
  if negb (truthy_opt instance_id) then
    do instances <- call aws session cl "describe_instances" [] ;;
    ret [ ("instances", get instances "Reservations" (VList []));
          ("action", VStr "list_only") ]
  else
    do response <- call aws session cl "terminate_instances"
                  [("InstanceIds", VList [id_val instance_id])] ;;
    ret [ ("instance_id", id_val instance_id);
          ("termination_status", get response "TerminatingInstances" (VList []));
          ("action", VStr "terminated") ].

(** [_cancel_rds] *)
Definition cancel_rds (aws : Aws) (session : Session)
    (db_instance_id : option string) (region : string) : M Dict :=
  do cl <- client aws session "rds" ;;
  if negb (truthy_opt db_instance_id) then
    do instances <- call aws session cl "describe_db_instances" [] ;;
    ret [ ("db_instances", get instances "DBInstances" (VList []));
          ("action", VStr "list_only") ]
  else
    do response <- call aws session cl "delete_db_instance"
                  [ ("DBInstanceIdentifier", id_val db_instance_id);
                    ("SkipFinalSnapshot", VBool true);
                    ("DeleteAutomatedBackups", VBool true) ] ;;
    do st <- get_get response "DBInstance" "DBInstanceStatus" ;;
    ret [ ("db_instance_id", id_val db_instance_id);
          ("deletion_status", st);
          ("action", VStr "deleted") ].

(** [[{'Key': obj['Key']} for obj in objects['Contents']]] *)
Fixpoint object_keys (contents : list PyVal) : M (list PyVal) :=
  match contents with
  | [] => ret []
  | VDict obj :: rest =>
      do k <- item obj "Key" ;;
      do ks <- object_keys rest ;;
      ret (VDict [("Key", k)] :: ks)
  | _ :: _ => raise (OtherError "TypeError")
  end.

(** [_cancel_s3] *)
Definition cancel_s3 (aws : Aws) (session : Session)
    (bucket_name : option string) (region : string) : M Dict :=
  do cl <- client aws session "s3" ;;
  if negb (truthy_opt bucket_name) then
    do buckets <- call aws session cl "list_buckets" [] ;;
    ret [ ("buckets", get buckets "Buckets" (VList []));
          ("action", VStr "list_only") ]
  else
    except_client_error
      (do objects <- call aws session cl "list_objects_v2" [("Bucket", id_val bucket_name)] ;;
       do _ <- match dict_get "Contents" objects with
            | Some (VList contents) =>
                do keys <- object_keys contents ;;
                do _ <- call aws session cl "delete_objects"
                       [ ("Bucket", id_val bucket_name);
                         ("Delete", VDict [("Objects", VList keys)]) ] ;;
                ret tt
            | Some _ => raise (OtherError "TypeError")
            | None => ret tt
            end ;;
       do response <- call aws session cl "delete_bucket" [("Bucket", id_val bucket_name)] ;;
       ret [ ("bucket_name", id_val bucket_name);
             ("action", VStr "deleted") ])
      (fun e =>
         ret [ ("bucket_name", id_val bucket_name);
               ("error", VStr (exn_str e));
               ("action", VStr "error") ]).

(** [_default_cancellation] *)
Definition default_cancellation (aws : Aws) (session : Session)
    (resource_id : option string) (region : string) : M Dict :=
  ret [ ("error", VStr "Cancellation not implemented for this service type");
        ("service_id", id_val resource_id);
        ("region", VStr region);
        ("action", VStr "not_implemented") ].

Definition Handler : Type := Aws -> Session -> option string -> string -> M Dict.

(** The [cancellation_functions] dict literal. *)
Definition cancellation_functions : list (string * Handler) :=
  [ ("Amazon OpenSearch Service", cancel_opensearch);
    ("OpenSearch Serverless", cancel_opensearch_serverless);
    ("Amazon Redshift", cancel_redshift);
    ("AWS Lambda", cancel_lambda);
    ("Amazon EC2", cancel_ec2);
    ("Amazon RDS", cancel_rds);
    ("Amazon S3", cancel_s3) ].

(** The names with a handler of their own. *)
Definition mapped_services : list string := map fst cancellation_functions.

(** [cancellation_functions.get(service_name, self._default_cancellation)] *)
Definition handler_of (service_name : string) : Handler :=
  match dict_get service_name cancellation_functions with
  | Some f => f
  | None => default_cancellation
  end.

(** [cancel_service]: the returned dict and the requests it sent. *)
Definition cancel_service (aws : Aws) (service_name : string)
    (service_id : option string) (region : string) : Dict * list Request :=
  let session : Session := region in
  let cancel_func := handler_of service_name in
  match cancel_func aws session service_id region [] with
  | (inr result, log) =>
      ([ ("success", VBool true);
         ("message", VStr ("Successfully initiated cancellation for " +:+ service_name));
         ("details", VDict result) ], log)
  | (inl e, log) =>
      ([ ("success", VBool false);
         ("message", VStr ("Error canceling " +:+ service_name +:+ ": " +:+ exn_str e));
         ("error_code",
           VStr (match e with
                 | ClientError code _ _ => code
                 | _ => "UnknownError"
                 end)) ], log)
  end.

(** A request that deletes or terminates something. *)
Definition destructive (r : Request) : bool :=
  startswith "delete" (req_operation r) || startswith "terminate" (req_operation r).

(** A request that only reads: the list and describe calls. *)
Definition listing (r : Request) : bool :=
  startswith "list_" (req_operation r) || startswith "describe_" (req_operation r).

(** [result['details']['action']] *)
Definition details_action (result : Dict) : option PyVal :=
  match dict_get "details" result with
  | Some (VDict details) => dict_get "action" details
  | _ => None
  end.

(** What a handler does when the resource id is missing: it builds its
    client and sends one listing request, or stops before that. *)
Inductive ListsOnly (aws : Aws) (region : string) : (Exn + Dict) * list Request -> Prop :=
| lists_no_client (e : Exn) :
    ListsOnly aws region (inl e, [])
| lists_raised (req : Request) (e : Exn) :
    listing req = true -> destructive req = false -> req_region req = region ->
    respond aws req = inl e \/
      (req_operation req = "list_domain_names" /\
       exists resp, respond aws req = inr resp /\ dict_get "DomainNames" resp = None) ->
    ListsOnly aws region (inl e, [req])
| lists_returned (req : Request) (resp details : Dict) :
    listing req = true -> destructive req = false -> req_region req = region ->
    respond aws req = inr resp ->
    dict_get "action" details = Some (VStr "list_only") ->
    ListsOnly aws region (inr details, [req]).

End Cancellation.

(* ===================================================================== *)
(** ** Cancellation ledger
    [AWSServiceCancelerBoto3] (src/nova_act/samples/aws/scripts/
    aws_service_canceler_boto3.py) *)
(* ===================================================================== *)

Module Ledger.

(** One entry of the ledger. *)
Record CancellationRecord : Type := mkRecord {
  status : string;
  canceled_on : string;
  cost_at_cancellation : float
}.

(** canceled_services.json as [load_canceled_services] can find it:
    absent; present but not readable as JSON (open or [json.load] raises);
    or holding a document. [json.dump] followed by [json.load] gives back
    a dict of string keys with string and float values as it was. *)
Inductive FileState : Type :=
| Missing
| Unreadable
| Stored (doc : gmap string CancellationRecord).

(** How the write of [save_canceled_services] ends: done; [open(.., 'w')]
    raised (the file is as before); or the dump raised after the file had
    been opened, and so truncated. *)
Inductive WriteOutcome : Type :=
| WriteOk
| OpenFails
| DumpFails.

(** The object ([self.canceled_services]) and the file. *)
Record State : Type := mkState {
  canceled_services : gmap string CancellationRecord;
  file : FileState
}.

(** [load_canceled_services]: the data directory exists once [__init__]
    has run, so [mkdir(exist_ok=True)] does nothing. *)
Definition load_canceled_services (f : FileState) : gmap string CancellationRecord :=
  match f with
  | Missing => ∅
  | Unreadable => ∅
  | Stored doc => doc
  end.

(** [save_canceled_services]: exceptions are printed and dropped. *)
Definition save_canceled_services (outcome : WriteOutcome) (st : State) : State :=
  match outcome with
  | WriteOk => {| canceled_services := canceled_services st;
                  file := Stored (canceled_services st) |}
  | OpenFails => st
  | DumpFails => {| canceled_services := canceled_services st; file := Unreadable |}
  end.

(** [record_service_cancellation]; [today] is
    [datetime.now().strftime('%Y-%m-%d')]. *)
Definition record_service_cancellation (today : string) (outcome : WriteOutcome)
    (st : State) (service_name : string) (cost : float) : State :=
  let st' :=
    {| canceled_services :=
         <[service_name := {| status := "Canceled";
                              canceled_on := today;
                              cost_at_cancellation := cost |}]> (canceled_services st);
       file := file st |} in
  save_canceled_services outcome st'.

(** [__init__] ends with [self.canceled_services = self.load_canceled_services()]. *)
Definition init (f : FileState) : State :=
  {| canceled_services := load_canceled_services f; file := f |}.

End Ledger.

(* ===================================================================== *)
(** ** More Python text and dict operations *)
(* ===================================================================== *)

Module PyText.
Import Py.

(** [s.replace(old, new)] for a non-empty [old], scanning from the left:
    where [old] starts, [new] is written and the characters of [old] are
    skipped ([skip] counts the ones still to pass); elsewhere the character
    is copied. *)
Fixpoint replace_from (old new : string) (skip : nat) (s : string) : string :=
  match s with
  | EmptyString => EmptyString
  | String c s' =>
      match skip with
      | S k => replace_from old new k s'
      | O =>
          if startswith old s
          then new +:+ replace_from old new (String.length old - 1) s'
          else String c (replace_from old new O s')
      end
  end.

Definition replace (old new s : string) : string := replace_from old new 0 s.

(** The character [c] occurs in [s]. *)
Fixpoint has_char (c : ascii) (s : string) : bool :=
  match s with
  | EmptyString => false
  | String c' s' => Ascii.eqb c' c || has_char c s'
  end.

(** [str.lower] on ASCII text: the letters A-Z move to a-z. *)
Definition lower_char (c : ascii) : ascii :=
  let n := nat_of_ascii c in
  if Nat.leb 65 n && Nat.leb n 90 then ascii_of_nat (n + 32) else c.

Fixpoint ascii_lower (s : string) : string :=
  match s with
  | EmptyString => EmptyString
  | String c s' => String (lower_char c) (ascii_lower s')
  end.

(** [d[k] = v] on a dict in insertion order: an existing key keeps its
    place, a new key goes to the end. *)
Fixpoint dict_set {V : Type} (k : string) (v : V) (d : list (string * V)) : list (string * V) :=
  match d with
  | [] => [(k, v)]
  | (k', v') :: d' =>
      if String.eqb k' k then (k, v) :: d' else (k', v') :: dict_set k v d'
  end.

(** [x in l] on a list of strings. *)
Definition str_mem (x : string) (l : list string) : bool := existsb (String.eqb x) l.

End PyText.

(* ===================================================================== *)
(** ** Resource scanner: console URLs, active regions, regional scans
    [AWSResourceScanner] (src/nova_cost/utils/aws_resource_scanner.py) *)
(* ===================================================================== *)

Module Scanner.
Import Py PyText Cancellation.

(** [self.fallback_console_urls] *)
Definition fallback_console_urls : list (string * string) :=
  [ ("AWS Cost Explorer", "https://console.aws.amazon.com/cost-management/home");
    ("Amazon OpenSearch Service", "https://console.aws.amazon.com/opensearch");
    ("AWS Skill Builder Individual", "https://explore.skillbuilder.aws/learn");
    ("Amazon Bedrock", "https://console.aws.amazon.com/bedrock");
    ("Amazon Rekognition", "https://console.aws.amazon.com/rekognition");
    ("Amazon Transcribe", "https://console.aws.amazon.com/transcribe");
    ("Amazon S3", "https://s3.console.aws.amazon.com/s3");
    ("AWS Lambda", "https://console.aws.amazon.com/lambda");
    ("Tax", "#") ].

(** The [service_to_console_map] dict of [_get_url_via_nova_act]. *)
Definition service_to_console_map : list (string * string) :=
  [ ("Amazon OpenSearch Service", "opensearch");
    ("AWS Cost Explorer", "cost-management");
    ("Amazon Bedrock", "bedrock");
    ("AWS Lambda", "lambda");
    ("Amazon S3", "s3");
    ("Amazon EC2", "ec2");
    ("Amazon RDS", "rds") ].

Section ConsoleUrl.
(** [str.lower], and the module flag set by [from nova_act import NovaAct]. *)
Variable lower : string -> string.
Variable NOVA_ACT_AVAILABLE : bool.

(** [_get_url_via_nova_act]: nothing in its [try] block can raise. *)
Definition get_url_via_nova_act (service_name : string) (resource_id : option string)
    (region : string) : string :=
  match dict_get service_name fallback_console_urls with
  | Some url => url
  | None =>
      let console_section :=
        match dict_get service_name service_to_console_map with
        | Some section => section
        | None =>
            replace "aws " EmptyString
              (replace "amazon " EmptyString (replace " " "-" (lower service_name)))
        end in
      let url := "https://console.aws.amazon.com/" +:+ console_section
                   +:+ "/home?region=" +:+ region in
      if truthy_opt resource_id
      then url +:+ "#/resource/" +:+ str_or_empty resource_id
      else url
  end.

(** [get_console_url] *)
Definition get_console_url (service_name : string) (resource_id : option string)
    (region : string) : string :=
  let via_nova :=
    if NOVA_ACT_AVAILABLE then get_url_via_nova_act service_name resource_id region
    else EmptyString in
  if NOVA_ACT_AVAILABLE && truthy via_nova then via_nova
  else
    match dict_get service_name fallback_console_urls with
    | Some url => url
    | None =>
        let service_slug := replace " " "-" (lower service_name) in
        "https://console.aws.amazon.com/" +:+ service_slug +:+ "/home?region=" +:+ region
    end.
End ConsoleUrl.

(** *** [get_active_regions] *)

Definition common_regions : list string :=
  [ "us-east-1"; "us-east-2"; "us-west-1"; "us-west-2"; "eu-west-1"; "eu-central-1";
    "ap-northeast-1" ].

(** The first loop: regions with a cost above 0.01, other than [global]. *)
Definition regions_with_cost (groups : list (string * float)) : list string :=
  map fst
    (List.filter (fun g : string * float =>
                    gt (snd g) 0.01%float && negb (String.eqb (fst g) "global"))
       groups).

(** The second loop: each common region not yet in the list is appended. *)
Definition add_missing (active extra : list string) : list string :=
  fold_left (fun acc region => if str_mem region acc then acc else (acc ++ [region])%list)
    extra active.

(** [get_active_regions], at its first call (later calls return the cached
    list): [response] is the groups of the first result of the query grouped
    by REGION, or the exception raised on the way to them. *)
Definition get_active_regions (response : Exn + list (string * float)) : list string :=
  match response with
  | inl _ => common_regions
  | inr groups => add_missing (regions_with_cost groups) common_regions
  end.

(** *** [scan_for_hidden_opensearch_resources] *)

(** The [region_map] dict of billing region names. *)
Definition billing_region_map : list (string * string) :=
  [ ("us-east-1", "us-east-1");
    ("US East (N. Virginia)", "us-east-1");
    ("us-east-2", "us-east-2");
    ("US East (Ohio)", "us-east-2");
    ("us-west-1", "us-west-1");
    ("US West (N. California)", "us-west-1");
    ("us-west-2", "us-west-2");
    ("US West (Oregon)", "us-west-2");
    ("eu-west-1", "eu-west-1");
    ("EU (Ireland)", "eu-west-1");
    ("eu-west-2", "eu-west-2");
    ("EU (London)", "eu-west-2");
    ("eu-central-1", "eu-central-1");
    ("EU (Frankfurt)", "eu-central-1") ].

(** [region_map.get(region, region)] *)
Definition billing_region_code (region : string) : string :=
  match dict_get region billing_region_map with
  | Some code => code
  | None => region
  end.

(** One dict of the returned list. *)
Record HiddenRegion : Type := mkHiddenRegion {
  hidden_region : string;
  hidden_cost : float;
  hidden_console_url : string
}.

(** The loop over the groups ([Keys[1]] and the amount; [Keys[0]] is read
    and not used). *)
Definition hidden_regions (groups : list (string * float)) : list HiddenRegion :=
  map (fun g : string * float =>
         let region_code := billing_region_code (fst g) in
         {| hidden_region := region_code;
            hidden_cost := snd g;
            hidden_console_url :=
              Resolver.generate_direct_console_url region_code "opensearch" "domains" |})
      (List.filter (fun g : string * float => gt (snd g) 0.01%float) groups).

(** [scan_for_hidden_opensearch_resources]: the client is built before the
    [try], so its failure is the one exception that leaves the function. *)
Definition scan_for_hidden_opensearch_resources (ce_client : option Exn)
    (response : Exn + list (string * float)) : Exn + list HiddenRegion :=
  match ce_client with
  | Some e => inl e
  | None =>
      inr (match response with
           | inl _ => []
           | inr groups => hidden_regions groups
           end)
  end.

(** *** Regional scans *)

(** [try: m except Exception as e: handler] inside a logging computation. *)
Definition try_all {A : Type} (m : M A) (handler : Exn -> M A) : M A :=
  fun log =>
    match m log with
    | (inl e, log') => handler e log'
    | (inr a, log') => (inr a, log')
    end.

(** The loop of [_scan_region_for_opensearch] over the listed domains: a
    failing [describe_domain] (or a reply without [DomainStatus]) is
    replaced by the basic dict; an item that is no dict or has no
    [DomainName] raises. *)
Fixpoint describe_domains (aws : Aws) (region cl : string) (infos : list PyVal)
  : M (list PyVal) :=
  match infos with
  | [] => ret []
  | VDict domain_info :: rest =>
      do domain_name <- item domain_info "DomainName" ;;
      do entry <- try_all
                    (do details <- call aws region cl "describe_domain"
                                     [("DomainName", domain_name)] ;;
                     item details "DomainStatus")
                    (fun _ => ret (VDict [("DomainName", domain_name)])) ;;
      do more <- describe_domains aws region cl rest ;;
      ret (entry :: more)
  | _ :: _ => raise (OtherError "TypeError")
  end.

(** [_scan_region_for_opensearch]: any exception gives the empty list.
    A [DomainNames] value that is no list cannot be walked as one: the loop
    raises, or has nothing to visit, and the result is empty either way. *)
Definition scan_region_for_opensearch (aws : Aws) (region : string) : M (list PyVal) :=
  try_all
    (do cl <- client aws region "opensearch" ;;
     do domains <- call aws region cl "list_domain_names" [] ;;
     match get domains "DomainNames" (VList []) with
     | VList infos => describe_domains aws region cl infos
     | _ => raise (OtherError "TypeError")
     end)
    (fun _ => ret []).

(** The regions [scan_for_opensearch_serverless] visits. *)
Definition serverless_regions : list string :=
  [ "us-east-1"; "us-east-2"; "us-west-2"; "eu-west-1"; "eu-central-1" ].

(** The inner loop of [scan_for_opensearch_serverless]: each collection
    dict gets its [Region] and [DeleteUrl] and is appended; at the first
    item that is no dict the assignment raises, and what was appended
    before stays. *)
Fixpoint annotate_collections (region : string) (collections : list PyVal) : list PyVal :=
  match collections with
  | VDict collection :: rest =>
      VDict (dict_set "DeleteUrl"
               (VStr (Resolver.generate_direct_console_url region "opensearch-serverless"
                        "collections"))
               (dict_set "Region" (VStr region) collection))
      :: annotate_collections region rest
  | _ => []
  end.

(** One round of the loop over the regions. *)
Definition region_collections (aws : Aws) (region : string) : M (list PyVal) :=
  try_all
    (do cl <- client aws region "opensearchserverless" ;;
     do response <- call aws region cl "list_collections" [] ;;
     match get response "collectionSummaries" (VList []) with
     | VList collections => ret (annotate_collections region collections)
     | _ => ret []
     end)
    (fun _ => ret []).

Fixpoint scan_regions (aws : Aws) (regions : list string) : M (list PyVal) :=
  match regions with
  | [] => ret []
  | region :: rest =>
      do here <- region_collections aws region ;;
      do there <- scan_regions aws rest ;;
      ret (here ++ there)%list
  end.

(** [scan_for_opensearch_serverless]: the collections and the requests sent. *)
Definition scan_for_opensearch_serverless (aws : Aws) : list PyVal * list Request :=
  match scan_regions aws serverless_regions [] with
  | (inr collections, log) => (collections, log)
  | (inl _, log) => ([], log)
  end.

End Scanner.

(* ===================================================================== *)
(** ** The two loops of [AWSCostAdapter.get_service_costs]
    (src/nova_cost/adapters/aws_cost_adapter.py, lines 226-327) *)
(* ===================================================================== *)

Module AdapterLoops.
Import Py PyText Cost.

(** The display name of a service group. *)
Definition clean_service_name (service_name : string) : string :=
  if startswith "Amazon " service_name || startswith "AWS " service_name then service_name
  else if str_in "Skill Builder" service_name then "AWS Skill Builder"
  else "AWS " +:+ service_name.

(** The status and the cancellation date chosen from the billed name. *)
Definition status_of (service_name : string) : string * option string :=
  if str_in "Claude" service_name || str_in "Bedrock" service_name
     || String.eqb service_name "Amazon OpenSearch Service"
     || String.eqb service_name "Amazon Simple Storage Service"
  then ("Cancelled", Some "2025-04-21")
  else if String.eqb service_name "Amazon Rekognition"
          || String.eqb service_name "Amazon Transcribe"
  then ("Pay-As-You-Go", None)
  else if String.eqb service_name "Tax" then ("Required", None)
  else ("Active", None).

(** The names the record-type loop treats as tax. *)
Definition tax_names : list string := ["Tax"; "AWS Tax"; "Tax on AWS services"].

(** The terms the record-type loop looks for. *)
Definition cost_explorer_terms : list string := ["Cost Explorer"; "Usage Analytics"; "Billing"].

Section Loops.
(** [self._get_service_details] and [scanner.get_console_url], both called
    with a display name. *)
Variable get_service_details : string -> string.
Variable console_url_of : string -> string.

(** The state of the first loop: the list [services], the set
    [service_set] (as the list of names added, latest last) and the loop
    variable [clean_service_name], which stays bound after the loop when at
    least one group got past the [cost <= 0] test. *)
Record LoopState : Type := mkLoopState {
  services : list AdapterEntry;
  service_set : list string;
  last_clean_name : option string
}.

Definition loop_init : LoopState :=
  {| services := []; service_set := []; last_clean_name := None |}.

(** One round of the loop over the service groups. *)
Definition service_step (st : LoopState) (group : ServiceGroup) : LoopState :=
  let service_name := fst group in
  let c := snd group in
  if PrimFloat.leb c 0%float then st
  else
    let clean := clean_service_name service_name in
    {| services :=
         (services st ++
            [ {| name := clean;
                 a_cost := c;
                 a_details := get_service_details clean;
                 a_status := fst (status_of service_name);
                 cancelled_on := snd (status_of service_name);
                 console_url := console_url_of clean |} ])%list;
       service_set := (service_set st ++ [clean])%list;
       last_clean_name := Some clean |}.

Definition service_loop (groups : list ServiceGroup) : LoopState :=
  fold_left service_step groups loop_init.

(** One round of the loop over the record-type groups. Reading
    [clean_service_name] when the first loop never bound it raises
    [NameError]. *)
Definition record_step (st : Exn + LoopState) (group : ServiceGroup) : Exn + LoopState :=
  match st with
  | inl e => inl e
  | inr st =>
      let record_type := fst group in
      let c := snd group in
      if PrimFloat.leb c 0%float then inr st
      else if existsb (fun term => str_in term record_type) cost_explorer_terms then
        if str_mem "AWS Cost Explorer" (service_set st) then inr st
        else
          match last_clean_name st with
          | None => inl (OtherError "NameError")
          | Some clean =>
              inr {| services :=
                       (services st ++
                          [ {| name := "AWS Cost Explorer";
                               a_cost := c;
                               a_details := "API requests and analysis";
                               a_status := if str_mem clean tax_names then "Required"
                                           else "Active";
                               cancelled_on := None;
                               console_url := console_url_of "AWS Cost Explorer" |} ])%list;
                     service_set := (service_set st ++ ["AWS Cost Explorer"])%list;
                     last_clean_name := last_clean_name st |}
          end
      else inr st
  end.

Definition record_loop (st : LoopState) (groups : list ServiceGroup) : Exn + LoopState :=
  fold_left record_step groups (inr st).

(** What the first loop establishes for an entry: a display name with
    one of the two prefixes, a cost that the test [cost <= 0] did not
    reject (a cost above zero, or NaN), a cancellation date exactly for the
    status [Cancelled], one of four statuses, and details and URL looked up
    under the display name. *)
Definition service_entry_ok (e : AdapterEntry) : Prop :=
  startswith "Amazon " (name e) || startswith "AWS " (name e) = true
  /\ PrimFloat.leb (a_cost e) 0%float = false
  /\ (cancelled_on e = Some "2025-04-21" <-> a_status e = "Cancelled")
  /\ In (a_status e) ["Cancelled"; "Pay-As-You-Go"; "Required"; "Active"]
  /\ a_details e = get_service_details (name e)
  /\ console_url e = console_url_of (name e).

(** The remainder of the [try] body after the two loops (billing-detective
    additions, enrichment, the final sort). *)
Variable finish : list AdapterEntry -> Exn + list AdapterEntry.


End Loops.

End AdapterLoops.

(* ===================================================================== *)
(** ** The canceler script: targeted cancellation and its ledger entries
    [AWSServiceCancelerBoto3] (src/nova_act/samples/aws/scripts/
    aws_service_canceler_boto3.py) and its caller
    [check_and_cancel_services] (src/nova_act/samples/aws/
    aws_master_controller.py) *)
(* ===================================================================== *)

Module Canceler.
Import Py Cancellation Scanner Ledger.

(** [cancel_marketplace_subscriptions]: it builds a client for us-east-1
    and lists the entities; what follows only prints, and every exception
    is caught inside the function. *)
Definition cancel_marketplace_subscriptions (aws : Aws) : M unit :=
  try_all
    (do marketplace <- client aws "us-east-1" "marketplace-catalog" ;;
     try_all
       (do response <- call aws "us-east-1" marketplace "list_entities"
                         [ ("Catalog", VStr "AWSMarketplace");
                           ("EntityType", VStr "ServerProduct") ] ;;
        ret tt)
       (fun _ => ret tt))
    (fun _ => ret tt).

(** One recording: the clock and the fate of the write at that moment. *)
Record Moment : Type := mkMoment {
  today : string;
  write : WriteOutcome
}.

(** [cancel_targeted_services]. The dict [services_to_cancel] is walked in
    insertion order: OpenSearch, then Skill Builder. [serverless] says how
    [cancel_opensearch_serverless] ended when it returned control: normally,
    or with an exception, which the loop prints and drops. *)
Definition cancel_targeted_services (aws : Aws) (serverless : option Exn)
    (first second : Moment) (st : State) : State * list Request :=
  let st1 :=
    match serverless with
    | None => record_service_cancellation (today first) (write first) st
                "Amazon OpenSearch Service" 0.0%float
    | Some _ => st
    end in
  match cancel_marketplace_subscriptions aws [] with
  | (inr _, log) =>
      (record_service_cancellation (today second) (write second) st1
         "AWS Skill Builder Individual" 0.0%float, log)
  | (inl _, log) => (st1, log)
  end.

(** The recording loop of [check_and_cancel_services]: one call of
    [record_service_cancellation] per service over the threshold. *)
Definition record_all (events : list (Moment * string * float)) (st : State) : State :=
  fold_left
    (fun st ev =>
       match ev with
       | (m, service_name, cost) =>
           record_service_cancellation (today m) (write m) st service_name cost
       end)
    events st.

End Canceler.

(* ===================================================================== *)
(** ** What the delete paths of the dispatcher send *)
(* ===================================================================== *)

Module Deletion.
Import Py Cancellation.

(** For the handlers that send one request: the client, the method and the
    keyword arguments built from the resource id, as written in
    [_cancel_opensearch], [_cancel_opensearch_serverless], [_cancel_redshift],
    [_cancel_lambda], [_cancel_ec2] and [_cancel_rds]. *)
Definition delete_request (region : string) (service_name : string) (resource_id : string)
  : option Request :=
  let rid := VStr resource_id in
  match dict_get service_name
          [ ("Amazon OpenSearch Service",
               ("opensearch", "delete_domain", [("DomainName", rid)]));
            ("OpenSearch Serverless",
               ("opensearchserverless", "delete_collection", [("id", rid)]));
            ("Amazon Redshift",
               ("redshift", "delete_cluster",
                [("ClusterIdentifier", rid); ("SkipFinalClusterSnapshot", VBool true)]));
            ("AWS Lambda", ("lambda", "delete_function", [("FunctionName", rid)]));
            ("Amazon EC2", ("ec2", "terminate_instances", [("InstanceIds", VList [rid])]));
            ("Amazon RDS",
               ("rds", "delete_db_instance",
                [ ("DBInstanceIdentifier", rid);
                  ("SkipFinalSnapshot", VBool true);
                  ("DeleteAutomatedBackups", VBool true) ])) ] with
  | Some (cl, operation, kwargs) => Some (mkRequest region cl operation kwargs)
  | None => None
  end.

(** The three requests of [_cancel_s3] for a bucket. *)
Definition s3_list (region bucket : string) : Request :=
  mkRequest region "s3" "list_objects_v2" [("Bucket", VStr bucket)].

Definition s3_delete_objects (region bucket : string) (keys : list PyVal) : Request :=
  mkRequest region "s3" "delete_objects"
    [("Bucket", VStr bucket); ("Delete", VDict [("Objects", VList keys)])].

Definition s3_delete_bucket (region bucket : string) : Request :=
  mkRequest region "s3" "delete_bucket" [("Bucket", VStr bucket)].

End Deletion.

(* ===================================================================== *)
(** ** What the dispatcher sends and returns without a resource id *)
(* ===================================================================== *)

Module Listing.
Import Py Cancellation.

(** For each mapped service, the listing its handler sends when the
    resource id is missing: the client, the method, the key read from the
    answer, and the key under which the handler returns what it read. *)
Definition listing_calls : list (string * (string * string * string * string)) :=
  [ ("Amazon OpenSearch Service", ("opensearch", "list_domain_names", "DomainNames", "domains"));
    ("OpenSearch Serverless",
       ("opensearchserverless", "list_collections", "collectionSummaries", "collections"));
    ("Amazon Redshift", ("redshift", "describe_clusters", "Clusters", "clusters"));
    ("AWS Lambda", ("lambda", "list_functions", "Functions", "functions"));
    ("Amazon EC2", ("ec2", "describe_instances", "Reservations", "instances"));
    ("Amazon RDS", ("rds", "describe_db_instances", "DBInstances", "db_instances"));
    ("Amazon S3", ("s3", "list_buckets", "Buckets", "buckets")) ].

Definition listing_call (service_name : string)
  : option (string * string * string * string) :=
  dict_get service_name listing_calls.

(** What the handler reads from the answer: [domains["DomainNames"]] for
    OpenSearch, [answer.get(key, [])] for the other services. *)
Definition listed_resources (service_name response_key : string) (resp : Dict)
  : Exn + PyVal :=
  if String.eqb service_name "Amazon OpenSearch Service"
  then match dict_get response_key resp with
       | Some v => inr v
       | None => inl (KeyError response_key)
       end
  else inr (get resp response_key (VList [])).

(** The two dicts [cancel_service] returns. *)
Definition succeeded (service_name : string) (details : Dict) : Dict :=
  [ ("success", VBool true);
    ("message", VStr ("Successfully initiated cancellation for " +:+ service_name));
    ("details", VDict details) ].

Definition failed (service_name : string) (e : Exn) : Dict :=
  [ ("success", VBool false);
    ("message", VStr ("Error canceling " +:+ service_name +:+ ": " +:+ exn_str e));
    ("error_code",
      VStr (match e with
            | ClientError code _ _ => code
            | _ => "UnknownError"
            end)) ].

End Listing.

(* ===================================================================== *)
(** ** Concrete inputs used by the scenarios below *)
(* ===================================================================== *)

Module Scenario.

(** An OpenSearch group with the given usage type and cost. *)
Definition opensearch_group (usage : string) (c : float) : Resolver.Group :=
  Resolver.mkGroup "Amazon OpenSearch Service" usage c.

(** Two regions, the second one carrying almost all of the cost. *)
Definition two_region_groups : list Resolver.Group :=
  [ opensearch_group "USE1-ESDomain" 1%float;
    opensearch_group "EUW1-ESDomain" 100%float ].

(** A world that answers with [groups] and knows no recent domain. *)
Definition billing_world (groups : list Resolver.Group) : Resolver.World :=
  Resolver.mkWorld (inr groups) (fun _ => None).

(** The service list of the tests (tests/test_cost_analysis_service.py,
    tests/test_integration.py), in the order the mocked port returns it. *)
Definition lambda_entry : Cost.ServiceEntry :=
  Cost.mkEntry "AWS Lambda" 10.50%float "Serverless compute" "Active".
Definition s3_entry : Cost.ServiceEntry :=
  Cost.mkEntry "Amazon S3" 5.25%float "Storage" "Active".
Definition skill_builder_entry : Cost.ServiceEntry :=
  Cost.mkEntry "AWS Skill Builder" 29.00%float "Training" "Canceled on 2025-04-15".

Definition sample_services : list Cost.ServiceEntry :=
  [lambda_entry; s3_entry; skill_builder_entry].

Definition sample_port : Cost.FixedPort :=
  Cost.mkFixedPort sample_services
    [ ("2025-04-01", 12.34%float, "AWS Services");
      ("2025-04-02", 23.45%float, "AWS Services") ].

(** The same three services as groups of a Cost Explorer response. *)
Definition sample_groups : list Cost.ServiceGroup :=
  [ ("AWS Lambda", 10.50%float);
    ("Amazon S3", 5.25%float);
    ("AWS Skill Builder", 29.00%float) ].

(** A clock for the scenarios: the date [i] days back is written [D-i]. *)
Definition days_back_label (i : Z) : string := "D-" +:+ pretty i.

Definition sample_monitor_world : Cost.MonitorWorld :=
  Cost.mkMonitorWorld None (fun _ => inr sample_groups) (fun _ => inr []) days_back_label.

(** Cost Explorer refuses the call. *)
Definition access_denied : Exn :=
  ClientError "AccessDeniedException" "User is not authorized" "GetCostAndUsage".

Definition failing_monitor_world : Cost.MonitorWorld :=
  Cost.mkMonitorWorld None (fun _ => inl access_denied) (fun _ => inl access_denied)
    days_back_label.

Definition failing_adapter_world : Cost.AdapterWorld :=
  Cost.mkAdapterWorld
    (fun _ => inl access_denied) (fun _ => inl access_denied)
    None
    (fun _ => inl access_denied) (fun _ => inl access_denied)
    (fun _ _ => inr []).

(** Cost Explorer reports one cheap service only. *)
Definition quiet_monitor_world : Cost.MonitorWorld :=
  Cost.mkMonitorWorld None (fun _ => inr [("Amazon S3", 5.25%float)]) (fun _ => inr [])
    days_back_label.

Definition quiet_port : Cost.FixedPort :=
  Cost.mkFixedPort [s3_entry] [].

(** An AWS in which every client can be built and every request is
    answered; the answer to [list_domain_names] names one domain. *)
Definition answering_aws : Cancellation.Aws :=
  Cancellation.mkAws
    (fun _ _ => None)
    (fun req =>
       inr (if String.eqb (Cancellation.req_operation req) "list_domain_names"
            then [("DomainNames",
                   Cancellation.VList
                     [Cancellation.VDict
                        [("DomainName", Cancellation.VStr "production-search")]])]
            else [])).

(** An AWS in which every client can be built and every request is
    refused. *)
Definition refusing_aws : Cancellation.Aws :=
  Cancellation.mkAws (fun _ _ => None) (fun _ => inl access_denied).

(** A ledger that already holds one cancellation, in step with its file. *)
Definition skill_builder_record : Ledger.CancellationRecord :=
  Ledger.mkRecord "Canceled" "2025-04-15" 29.00%float.

Definition one_entry_ledger : Ledger.State :=
  Ledger.init (Ledger.Stored {[ "AWS Skill Builder" := skill_builder_record ]}).

End Scenario.

(* ===================================================================== *)
(** ** Concrete inputs for the further properties *)
(* ===================================================================== *)

Module Examples.

(** Two days of totals; the by-service query reports the first day only. *)
Definition two_day_world : Cost.AdapterWorld :=
  Cost.mkAdapterWorld
    (fun _ => inr [("2025-04-01", 12.34%float); ("2025-04-02", 23.45%float)])
    (fun _ => inr [("2025-04-01", [("Amazon S3", 12.34%float); ("Tax", 0%float)])])
    None
    (fun _ => inr []) (fun _ => inr [])
    (fun _ _ => inr []).

(** Cost Explorer reports one service, Amazon S3 at 12.34. *)
Definition storage_entry : Cost.AdapterEntry :=
  Cost.mkAdapterEntry "Amazon S3" 12.34%float "Storage, requests" "Active" None
    "https://s3.console.aws.amazon.com/s3".

Definition billed_world : Cost.AdapterWorld :=
  Cost.mkAdapterWorld
    (fun _ => inr []) (fun _ => inr [])
    None
    (fun _ => inr [("Amazon S3", 12.34%float)]) (fun _ => inr [])
    (fun _ _ => inr [storage_entry]).


Definition billing_record_groups : list Cost.ServiceGroup :=
  [("Usage", 0%float); ("Billing adjustments", 1.25%float)].

(** A bill with Cost Explorer among its services. *)
Definition explorer_groups : list Cost.ServiceGroup :=
  [("AWS Cost Explorer", 12.15%float); ("Tax", 3.82%float)].

(** An AWS with gaps: no client can be built in us-east-2; two domains are
    listed and the description of the one called logs is refused; only
    eu-west-1 answers [list_collections]; every other request is refused. *)
Definition refused (operation : string) : Exn :=
  ClientError "AccessDeniedException" "User is not authorized" operation.

Definition patchy_aws : Cancellation.Aws :=
  Cancellation.mkAws
    (fun _ region =>
       if String.eqb region "us-east-2" then Some (OtherError "EndpointConnectionError")
       else None)
    (fun req =>
       let operation := Cancellation.req_operation req in
       if String.eqb operation "list_domain_names" then
         inr [("DomainNames",
               Cancellation.VList
                 [ Cancellation.VDict [("DomainName", Cancellation.VStr "logs")];
                   Cancellation.VDict [("DomainName", Cancellation.VStr "search")] ])]
       else if String.eqb operation "describe_domain" then
         match Cancellation.req_kwargs req with
         | [(_, Cancellation.VStr "search")] =>
             inr [("DomainStatus",
                   Cancellation.VDict [ ("DomainName", Cancellation.VStr "search");
                                        ("Created", Cancellation.VBool true) ])]
         | _ => inl (refused operation)
         end
       else if String.eqb operation "list_collections"
               && String.eqb (Cancellation.req_region req) "eu-west-1" then
         inr [("collectionSummaries",
               Cancellation.VList
                 [ Cancellation.VDict [("name", Cancellation.VStr "vectors")] ])]
       else inl (refused operation)).

(** An AWS that answers every request; the bucket listing names two
    objects. *)
Definition bucket_aws : Cancellation.Aws :=
  Cancellation.mkAws
    (fun _ _ => None)
    (fun req =>
       if String.eqb (Cancellation.req_operation req) "list_objects_v2" then
         inr [("Contents",
               Cancellation.VList
                 [ Cancellation.VDict [ ("Key", Cancellation.VStr "2025/april.csv");
                                        ("Size", Cancellation.VStr "1024") ];
                   Cancellation.VDict [ ("Key", Cancellation.VStr "2025/may.csv") ] ])]
       else inr []).

(** Three services over the threshold, recorded on the same day; the
    first two writes fail. *)
Definition april_15 (outcome : Ledger.WriteOutcome) : Canceler.Moment :=
  Canceler.mkMoment "2025-04-15" outcome.

Definition exceeding_services : list (Canceler.Moment * string * float) :=
  [ (april_15 Ledger.DumpFails, "Amazon OpenSearch Service", 41.5%float);
    (april_15 Ledger.OpenFails, "Amazon EC2", 17.25%float);
    (april_15 Ledger.WriteOk, "Amazon RDS", 12.0%float) ].

End Examples.

(* ===================================================================== *)
(** ** Notions used to state the further properties *)
(* ===================================================================== *)

Module Notions.

(** A float that is not NaN: it equals itself. *)
Definition not_nan (x : float) : Prop := PrimFloat.eqb x x = true.

(** An item of [DomainNames] as the scan expects it: a dict with a
    [DomainName]. *)
Definition names_domain (info : Cancellation.PyVal) : Prop :=
  exists d name, info = Cancellation.VDict d /\ Py.dict_get "DomainName" d = Some name.

(** The entry the regional scan keeps for a listed domain: the
    [DomainStatus] of the answer to [describe_domain], or the basic dict
    when the request fails or its answer has no [DomainStatus]. *)
Definition described (aws : Cancellation.Aws) (region : string)
    (info entry : Cancellation.PyVal) : Prop :=
  exists d name,
    info = Cancellation.VDict d /\ Py.dict_get "DomainName" d = Some name /\
    entry =
      match Cancellation.respond aws
              (Cancellation.mkRequest region "opensearch" "describe_domain"
                 [("DomainName", name)]) with
      | inr details =>
          match Py.dict_get "DomainStatus" details with
          | Some st => st
          | None => Cancellation.VDict [("DomainName", name)]
          end
      | inl _ => Cancellation.VDict [("DomainName", name)]
      end.

(** A collection as the serverless scan returns it: a dict that names its
    region and the console page of the collections of that region. *)
Definition annotated (region : string) (v : Cancellation.PyVal) : Prop :=
  exists d,
    v = Cancellation.VDict d
    /\ Py.dict_get "Region" d = Some (Cancellation.VStr region)
    /\ Py.dict_get "DeleteUrl" d =
         Some (Cancellation.VStr
                 ("https://console.aws.amazon.com/opensearch-serverless/home?region="
                    +:+ region +:+ "#/collections")).

(** [returned] is the listed [collection] as the serverless scan hands it
    back: the same dict with [Region] and [DeleteUrl] set, every other key
    as listed. *)
Definition annotates (region : string) (collection returned : Cancellation.PyVal) : Prop :=
  exists d d',
    collection = Cancellation.VDict d /\ returned = Cancellation.VDict d' /\
    forall k,
      Py.dict_get k d' =
        if String.eqb k "DeleteUrl"
        then Some (Cancellation.VStr
                     ("https://console.aws.amazon.com/opensearch-serverless/home?region="
                        +:+ region +:+ "#/collections"))
        else if String.eqb k "Region" then Some (Cancellation.VStr region)
        else Py.dict_get k d.

(** [returned] stems from the answer of [region] to [list_collections]. *)
Definition listed_in (aws : Cancellation.Aws) (region : string)
    (returned : Cancellation.PyVal) : Prop :=
  Cancellation.new_client aws "opensearchserverless" region = None
  /\ exists resp collections collection,
       Cancellation.respond aws
         (Cancellation.mkRequest region "opensearchserverless" "list_collections" [])
         = inr resp
       /\ Py.dict_get "collectionSummaries" resp = Some (Cancellation.VList collections)
       /\ In collection collections
       /\ annotates region collection returned.

End Notions.

(* ===================================================================== *)
(** * Properties *)
(* ===================================================================== *)

(** ** Strings *)

Section StringFacts.
Import Py.

Lemma append_cons (c : ascii) (a b : string) : String c a +:+ b = String c (a +:+ b).
Proof. reflexivity. Qed.

Lemma append_nil (b : string) : EmptyString +:+ b = b.
Proof. reflexivity. Qed.

Lemma append_assoc (a b c : string) : (a +:+ b) +:+ c = a +:+ (b +:+ c).
Proof.
  induction a as [|x a IH]; [reflexivity|].
  rewrite !append_cons. now rewrite IH.
Qed.

Lemma startswith_append (p b : string) : startswith p (p +:+ b) = true.
Proof.
  induction p as [|a p IH]; [reflexivity|].
  rewrite append_cons. simpl. rewrite Ascii.eqb_refl. exact IH.
Qed.

Lemma startswith_inv (p s : string) :
  startswith p s = true -> exists b, s = p +:+ b.
Proof.
  revert s. induction p as [|a p IH]; intros s Hs.
  - exists s. reflexivity.
  - destruct s as [|c s]; simpl in Hs; [discriminate|].
    apply andb_true_iff in Hs as [Hac Hps].
    apply Ascii.eqb_eq in Hac. subst c.
    destruct (IH _ Hps) as [b ->]. exists b. reflexivity.
Qed.

Lemma str_in_startswith (p s : string) : startswith p s = true -> str_in p s = true.
Proof. destruct s; simpl; intros ->; reflexivity. Qed.

(** [p in s] holds exactly when [p] occurs in [s] as a substring. *)
Lemma str_in_spec (p s : string) :
  str_in p s = true <-> exists a b, s = a +:+ p +:+ b.
Proof.
  split.
  - induction s as [|c s IH]; simpl; intros H.
    + rewrite orb_false_r in H. apply startswith_inv in H as [b Hb].
      exists EmptyString, b. exact Hb.
    + apply orb_true_iff in H as [H|H].
      * apply startswith_inv in H as [b Hb]. exists EmptyString, b. exact Hb.
      * destruct (IH H) as (a & b & ->). exists (String c a), b. reflexivity.
  - intros (a & b & ->). induction a as [|c a IH].
    + rewrite append_nil. apply str_in_startswith, startswith_append.
    + rewrite append_cons. simpl. rewrite IH. apply orb_true_r.
Qed.

(** A string with [p +:+ q] inside has [p] inside. *)
Lemma str_in_weaken (p q s : string) :
  str_in (p +:+ q) s = true -> str_in p s = true.
Proof.
  rewrite !str_in_spec. intros (a & b & ->).
  exists a, (q +:+ b). now rewrite append_assoc.
Qed.

Lemma dict_get_truthy_key {V : Type} (k : string) (d : list (string * V)) (v : V) :
  dict_get k d = Some v -> Forall (fun kv => truthy (fst kv) = true) d -> truthy k = true.
Proof.
  induction d as [|[k' v'] d IH]; simpl; intros Hget Hall; [discriminate|].
  inversion Hall as [|? ? Hk Hd]; subst.
  destruct (String.eqb k' k) eqn:E.
  - apply String.eqb_eq in E. subst k'. exact Hk.
  - apply IH; assumption.
Qed.

Lemma dict_get_value {V : Type} (P : V -> Prop) (k : string) (d : list (string * V)) (v : V) :
  dict_get k d = Some v -> Forall (fun kv => P (snd kv)) d -> P v.
Proof.
  induction d as [|[k' v'] d IH]; simpl; intros Hget Hall; [discriminate|].
  inversion Hall as [|? ? Hk Hd]; subst.
  destruct (String.eqb k' k).
  - injection Hget as <-. exact Hk.
  - apply IH; assumption.
Qed.
End StringFacts.

(** ** Region / usage-type resolver *)

Section ResolverFacts.
Import Py Resolver.

Lemma region_map_keys_truthy : Forall (fun kv => truthy (fst kv) = true) region_map.
Proof. repeat constructor. Qed.

Lemma region_map_values_truthy :
  Forall (fun kv : string * string => truthy (snd kv) = true) region_map.
Proof. repeat constructor. Qed.

Lemma region_of_usage_truthy (u r : string) :
  region_of_usage u = Some r -> truthy r = true.
Proof.
  unfold region_of_usage. destruct (region_code u) as [rc|]; [|discriminate].
  destruct (truthy rc); [|discriminate].
  intros H. exact (dict_get_value (fun v => truthy v = true) _ _ _ H region_map_values_truthy).
Qed.

(** The region part of one iteration, in terms of [region_of_usage]. *)
Lemma scan_step_region (st : Scan) (g : Group) :
  primary_region (scan_step st g) =
    if analysed g then
      match region_of_usage (usage_type g) with
      | Some r => if truthy_opt (primary_region st) then primary_region st else Some r
      | None => primary_region st
      end
    else primary_region st.
Proof.
  unfold scan_step, region_of_usage. destruct (analysed g); [|reflexivity].
  cbv zeta. cbn [primary_region].
  destruct (region_code (usage_type g)) as [rc|]; [|reflexivity].
  destruct (truthy rc); [|reflexivity].
  destruct (dict_get rc region_map); [|reflexivity].
  destruct (truthy_opt (primary_region st)); reflexivity.
Qed.

(** Loop invariant for the region: a region that is set is kept; otherwise
    the first analysed group with a known region sets it. *)
Lemma scan_region_from (groups : list Group) (st : Scan) :
  primary_region (fold_left scan_step groups st) =
    if truthy_opt (primary_region st) then primary_region st
    else match first_known_region groups with
         | Some r => Some r
         | None => primary_region st
         end.
Proof.
  revert st. induction groups as [|g groups IH]; intros st; simpl.
  - destruct (truthy_opt (primary_region st)); reflexivity.
  - rewrite IH, scan_step_region.
    destruct (analysed g); [|reflexivity].
    destruct (region_of_usage (usage_type g)) as [r|] eqn:Hr; [|reflexivity].
    destruct (truthy_opt (primary_region st)) eqn:Hst.
    + rewrite Hst. reflexivity.
    + simpl. rewrite (region_of_usage_truthy _ _ Hr). reflexivity.
Qed.

Lemma first_known_region_truthy (groups : list Group) (r : string) :
  first_known_region groups = Some r -> truthy r = true.
Proof.
  induction groups as [|g groups IH]; simpl; [discriminate|].
  destruct (analysed g); [|exact IH].
  destruct (region_of_usage (usage_type g)) as [r'|] eqn:Hr; [|exact IH].
  intros [= <-]. exact (region_of_usage_truthy _ _ Hr).
Qed.

Lemma resolved_region_first_known (groups : list Group) :
  resolved_region groups = default "us-east-1" (first_known_region groups).
Proof.
  unfold resolved_region, scan. rewrite scan_region_from. simpl.
  destruct (first_known_region groups) as [r|] eqn:Hr; simpl; [|reflexivity].
  unfold default_region. simpl. rewrite (first_known_region_truthy _ _ Hr). reflexivity.
Qed.

(** Loop invariant for the flag. *)
Lemma scan_serverless_from (groups : list Group) (st : Scan) :
  is_serverless (fold_left scan_step groups st) =
    is_serverless st
    || existsb (fun g => analysed g && str_in "Serverless" (usage_type g)) groups.
Proof.
  revert st. induction groups as [|g groups IH]; intros st; simpl.
  - now rewrite orb_false_r.
  - rewrite IH. unfold scan_step at 1.
    destruct (analysed g); simpl; [|reflexivity].
    destruct (str_in "Serverless" (usage_type g)) eqn:Hs; simpl.
    + now rewrite orb_true_r.
    + destruct (str_in "ServerlessOCU" (usage_type g)) eqn:Ho; [|reflexivity].
      apply (str_in_weaken "Serverless" "OCU") in Ho. congruence.
Qed.

Lemma resolved_serverless_spec (groups : list Group) :
  resolved_serverless groups =
    existsb (fun g => analysed g && str_in "Serverless" (usage_type g)) groups.
Proof. unfold resolved_serverless, scan. now rewrite scan_serverless_from. Qed.

Lemma first_known_region_single (g : Group) :
  analysed g = true -> first_known_region [g] = region_of_usage (usage_type g).
Proof.
  intros Ha. cbn [first_known_region]. rewrite Ha.
  destruct (region_of_usage (usage_type g)); reflexivity.
Qed.

(** Every dict the function returns has the same three keys. *)
Lemma link_keys (w : World) (groups : list Group) :
  map fst (link_for w groups) = ["name"; "url"; "instructions"].
Proof.
  unfold link_for. destruct (resolved_serverless groups); [reflexivity|].
  destruct (find_recent_opensearch_domain w _) as [d|]; [|reflexivity].
  destruct (truthy d); reflexivity.
Qed.

(** The flag decides which link is returned. *)
Lemma link_name_serverless (w : World) (groups : list Group) :
  resolved_serverless groups = true ->
  dict_get "name" (link_for w groups)
    = Some ("DIRECT LINK: OpenSearch Serverless in " +:+ resolved_region groups).
Proof. intros Hs. unfold link_for. rewrite Hs. reflexivity. Qed.

(** The region that goes into the returned link is [resolved_region]. *)
Lemma link_url_region (w : World) (groups : list Group) :
  exists resource_type resource_id,
    dict_get "url" (link_for w groups) =
      Some (generate_direct_console_url (resolved_region groups) resource_type resource_id).
Proof.
  unfold link_for. destruct (resolved_serverless groups); [eauto|].
  destruct (find_recent_opensearch_domain w _) as [d|]; [|eauto].
  destruct (truthy d); eauto.
Qed.
End ResolverFacts.

Section ResolverClaims.
Import Py Resolver Scenario.

(** C2 (as amended): the region the resolver outputs is the region of the
    first analysed group, in response order, whose usage type starts with
    a known region code followed by ['-'], and [us-east-1] when there is no
    such group; that region is the one written into the returned link.
    The costs of the groups play no part beyond the [cost > 0.01] guard. *)
Theorem C2_region_is_first_known_region (w : World) (groups : list Group) :
  resolved_region groups = default "us-east-1" (first_known_region groups)
  /\ exists resource_type resource_id,
       dict_get "url" (link_for w groups) =
         Some (generate_direct_console_url
                 (default "us-east-1" (first_known_region groups))
                 resource_type resource_id).
Proof.
  split; [apply resolved_region_first_known|].
  rewrite <- resolved_region_first_known. apply link_url_region.
Qed.

(** C2, counterexample: with [USE1-ESDomain] at 1.0 followed by
    [EUW1-ESDomain] at 100.0 the resolver outputs [us-east-1], whose groups
    cost 1.0, while those of [eu-west-1] cost 100.0: the region output is
    not the one with the largest share. *)
Lemma C2_first_region_is_not_largest_share :
  resolved_region two_region_groups = "us-east-1"
  /\ region_cost two_region_groups "us-east-1" = 1%float
  /\ region_cost two_region_groups "eu-west-1" = 100%float
  /\ ~ largest_share two_region_groups (resolved_region two_region_groups).
Proof.
  repeat split; try reflexivity.
  intros H. specialize (H "eu-west-1"). vm_compute in H. discriminate H.
Qed.

(** C3 (as amended): for an analysed group whose usage type contains ['-']
    and whose first ['-']-separated token is in the region-code table, the
    resolver returns the region of the table; for a usage type without
    ['-'] or with a first token that is not in the table it returns
    [us-east-1]; the returned dict has the keys name, url and
    instructions only, so it carries no confidence flag. *)
Theorem C3_known_prefix_or_default (w : World) (svc u : string) (c : float) :
  analysed (mkGroup svc u c) = true ->
  (forall r, str_in "-" u = true ->
             dict_get (split_head "-" u) region_map = Some r ->
             resolved_region [mkGroup svc u c] = r)
  /\ (str_in "-" u = false \/ dict_get (split_head "-" u) region_map = None ->
      resolved_region [mkGroup svc u c] = "us-east-1")
  /\ map fst (link_for w [mkGroup svc u c]) = ["name"; "url"; "instructions"].
Proof.
  intros Ha. rewrite resolved_region_first_known, (first_known_region_single _ Ha).
  cbn [usage_type]. unfold region_of_usage, region_code. repeat split.
  - intros r Hdash Hr. rewrite Hdash.
    rewrite (dict_get_truthy_key _ _ _ Hr region_map_keys_truthy), Hr. reflexivity.
  - intros [Hdash|Hr].
    + rewrite Hdash. reflexivity.
    + destruct (str_in "-" u); [|reflexivity].
      destruct (truthy (split_head "-" u)); [|reflexivity].
      rewrite Hr. reflexivity.
  - apply link_keys.
Qed.

(** C3, witness: the usage type [USW2-SearchOCU-t2.small.search]. *)
Lemma C3_known_prefix_or_default_witness :
  analysed (opensearch_group "USW2-SearchOCU-t2.small.search" 10%float) = true
  /\ resolved_region [opensearch_group "USW2-SearchOCU-t2.small.search" 10%float]
     = "us-west-2".
Proof.
  split; [reflexivity|].
  apply (proj1 (C3_known_prefix_or_default (billing_world [])
                  "Amazon OpenSearch Service" "USW2-SearchOCU-t2.small.search"
                  10%float eq_refl) "us-west-2"); reflexivity.
Defined.

(** C3, counterexample: the usage type [EUW1] has [EUW1] as its first
    ['-']-separated token, which the table maps to [eu-west-1], yet the
    resolver returns [us-east-1], because the string holds no ['-']; and a
    usage type with the unknown token [XYZ9] gives the very dict that
    [USE1] gives, with no key for a confidence. *)
Lemma C3_token_without_dash_and_no_flag :
  (dict_get (split_head "-" "EUW1") region_map = Some "eu-west-1"
   /\ analysed (opensearch_group "EUW1" 10%float) = true
   /\ resolved_region [opensearch_group "EUW1" 10%float] = "us-east-1")
  /\ (dict_get (split_head "-" "XYZ9-SearchOCU") region_map = None
      /\ find_exact_opensearch_billing_source
           (billing_world [opensearch_group "XYZ9-SearchOCU" 10%float])
         = find_exact_opensearch_billing_source
             (billing_world [opensearch_group "USE1-SearchOCU" 10%float])
      /\ forall link,
           find_exact_opensearch_billing_source
             (billing_world [opensearch_group "XYZ9-SearchOCU" 10%float]) = Some link ->
           dict_get "confidence" link = None).
Proof.
  repeat split; try reflexivity.
  intros link [= <-]. reflexivity.
Qed.

(** C4: when every group of the input is one the resolver analyses (an
    OpenSearch group costing more than 0.01, as the input contract says),
    [is_serverless] is true exactly when the usage type of at least one
    group contains the substring [Serverless], letter case included. *)
Theorem C4_serverless_iff_substring (groups : list Group) :
  Forall (fun g => analysed g = true) groups ->
  (resolved_serverless groups = true
   <-> exists g, In g groups /\ exists a b, usage_type g = a +:+ "Serverless" +:+ b).
Proof.
  intros Hall. rewrite resolved_serverless_spec, existsb_exists.
  rewrite Forall_forall in Hall.
  split.
  - intros (g & Hin & Hg). apply andb_true_iff in Hg as [_ Hs].
    exists g. split; [exact Hin|]. now apply str_in_spec.
  - intros (g & Hin & Hs). exists g. split; [exact Hin|].
    apply andb_true_iff. split.
    + apply Hall. now apply list_elem_of_In.
    + now apply str_in_spec.
Qed.

(** C4, witness: the usage type [USE1-ServerlessIndexingOCU] of the tests. *)
Lemma C4_serverless_iff_substring_witness :
  Forall (fun g => analysed g = true)
    [opensearch_group "USE1-ServerlessIndexingOCU" 10%float]
  /\ resolved_serverless [opensearch_group "USE1-ServerlessIndexingOCU" 10%float] = true.
Proof.
  assert (Hall : Forall (fun g => analysed g = true)
                   [opensearch_group "USE1-ServerlessIndexingOCU" 10%float])
    by (repeat constructor).
  split; [exact Hall|].
  apply (proj2 (C4_serverless_iff_substring _ Hall)).
  exists (opensearch_group "USE1-ServerlessIndexingOCU" 10%float).
  split; [left; reflexivity|].
  exists "USE1-", "IndexingOCU". reflexivity.
Defined.
End ResolverClaims.

(** ** Cost analysis *)

Section CostFacts.
Import Py Cost.

(** [CostAnalysisService.analyze_costs] is the filter of what the port
    returned: same entries, same order. *)
Lemma analyze_costs_is_filter {P E : Type} `{CostDataPort P E}
    (port : P) (days_back : Z) (threshold : float) (services : list E) :
  get_service_costs port days_back = inr services ->
  analyze_costs port days_back threshold
    = inr (List.filter (fun s => gt (entry_cost s) threshold) services).
Proof. intros Hs. unfold analyze_costs. rewrite Hs. reflexivity. Qed.

(** The stable insertion sort rearranges and loses nothing. *)
Lemma insert_desc_perm {A : Type} (key : A -> float) (x : A) (l : list A) :
  Permutation (x :: l) (insert_desc key x l).
Proof.
  induction l as [|y l IH]; simpl; [reflexivity|].
  destruct (PrimFloat.ltb (key y) (key x)); [reflexivity|].
  rewrite perm_swap. now constructor.
Qed.

Lemma sort_desc_perm {A : Type} (key : A -> float) (l : list A) :
  Permutation l (sort_desc key l).
Proof.
  unfold sort_desc.
  assert (Hgen : forall acc, Permutation (l ++ acc)%list
                               (fold_left (fun acc x => insert_desc key x acc) l acc)).
  { induction l as [|x l IH]; intros acc; simpl; [reflexivity|].
    rewrite <- IH, <- insert_desc_perm. apply Permutation_middle. }
  specialize (Hgen []). now rewrite app_nil_r in Hgen.
Qed.

(** Equal keys keep their order, larger keys come first. *)
Example sort_desc_is_stable :
  sort_desc snd [("a", 1%float); ("b", 2%float); ("c", 1%float); ("d", 2%float)]
  = [("b", 2%float); ("d", 2%float); ("a", 1%float); ("c", 1%float)].
Proof. reflexivity. Qed.

(** A filter keeps a descending list descending: what the sort of
    [get_service_costs] established survives [analyze_costs]. *)
Lemma filter_descending {A : Type} (key : A -> float) (f : A -> bool) (l : list A) :
  descending key l -> descending key (List.filter f l).
Proof.
  unfold descending. induction 1 as [|x l Hl IH Hx]; simpl; [constructor|].
  destruct (f x); [|exact IH].
  constructor; [exact IH|].
  rewrite List.Forall_forall in *. intros y Hy.
  apply List.filter_In in Hy as [Hy _]. now apply Hx.
Qed.

Lemma analyze_costs_descending {P E : Type} `{CostDataPort P E}
    (port : P) (days_back : Z) (threshold : float) (services result : list E) :
  get_service_costs port days_back = inr services ->
  descending entry_cost services ->
  analyze_costs port days_back threshold = inr result ->
  descending entry_cost result.
Proof.
  intros Hs Hd. rewrite (analyze_costs_is_filter _ _ _ _ Hs).
  intros [= <-]. now apply filter_descending.
Qed.

(** What the cost queries do when the upstream call raises. *)
Lemma adapter_get_service_costs_error (w : AdapterWorld) (days_back : Z) :
  (exists e, monthly_by_service w days_back = inl e)
  \/ (exists e, monthly_by_record_type w days_back = inl e) ->
  adapter_get_service_costs w days_back = [].
Proof.
  unfold adapter_get_service_costs, try_except, bind.
  intros [[e He]|[e He]]; rewrite He.
  - destruct (scanner_init w); reflexivity.
  - destruct (scanner_init w); [reflexivity|].
    destruct (monthly_by_service w days_back); reflexivity.
Qed.

Lemma adapter_get_daily_costs_error (fmt2 : float -> string)
    (w : AdapterWorld) (days_back : Z) :
  (exists e, daily_total w days_back = inl e)
  \/ (exists e, daily_by_service w days_back = inl e) ->
  adapter_get_daily_costs fmt2 w days_back = [].
Proof.
  unfold adapter_get_daily_costs, try_except, bind.
  intros [[e He]|[e He]]; rewrite He.
  - reflexivity.
  - destruct (daily_total w days_back); reflexivity.
Qed.

Lemma monitor_get_service_costs_error (w : MonitorWorld) (days_back : Z) :
  (exists e, cost_by_service w days_back = inl e) ->
  monitor_get_service_costs w days_back = sample_service_costs.
Proof.
  intros [e He]. unfold monitor_get_service_costs. rewrite He. reflexivity.
Qed.
Lemma monitor_get_daily_costs_error (w : MonitorWorld) (days_back : Z) :
  (exists e, cost_by_day w days_back = inl e) ->
  monitor_get_daily_costs w days_back = sample_daily_costs (date_before_today w) days_back.
Proof.
  intros [e He]. unfold monitor_get_daily_costs. rewrite He. reflexivity.
Qed.

Lemma sample_daily_costs_length (date_of : Z -> string) (days_back : Z) :
  length (sample_daily_costs date_of days_back) = Z.to_nat days_back.
Proof.
  unfold sample_daily_costs, range_down. now rewrite !length_map, length_seq.
Qed.
End CostFacts.

Section CostClaims.
Import Py Cost Scenario.

(** C1 (as amended): for the service list [Lambda 10.50, S3 5.25,
    Skill Builder 29.00] and threshold 10.0, [analyze_costs] returns the
    Lambda and the Skill Builder entries and no others, in the order of
    the list it was given: [Lambda; Skill Builder] when the cost data port
    returns the list in that order, because the function only filters.
    The descending order [Skill Builder; Lambda] is what [api.analyze_costs]
    returns for these three services as upstream groups, where
    [AWSCostMonitor.get_service_costs] has sorted them first. *)
Theorem C1_analyze_costs_scenario :
  analyze_costs sample_port 30 10.0%float = inr [lambda_entry; skill_builder_entry]
  /\ api_analyze_costs sample_monitor_world 10.0%float 30
     = inr [ mkEntry "AWS Skill Builder" 29.00%float "Subscription" "Active";
             mkEntry "AWS Lambda" 10.50%float "Usage charges" "Active" ]
  /\ forall (port : FixedPort) (days_back : Z) (threshold : float),
       analyze_costs port days_back threshold
         = inr (List.filter (fun s => gt (cost s) threshold) (fixed_services port)).
Proof.
  split; [reflexivity|]. split; [reflexivity|].
  intros port days_back threshold. reflexivity.
Qed.

(** C1, counterexample: given the list in the order Lambda, S3,
    Skill Builder, [analyze_costs] answers Lambda (10.50) before
    Skill Builder (29.00): the result is not in descending cost order. *)
Lemma C1_result_keeps_input_order :
  analyze_costs sample_port 30 10.0%float = inr [lambda_entry; skill_builder_entry]
  /\ analyze_costs sample_port 30 10.0%float <> inr [skill_builder_entry; lambda_entry]
  /\ PrimFloat.ltb (cost lambda_entry) (cost skill_builder_entry) = true.
Proof.
  split; [reflexivity|]. split; [|reflexivity].
  intros H. vm_compute in H. discriminate H.
Qed.

(** C8 (as amended): when the upstream cost-and-usage call raises,
    [AWSCostAdapter.get_service_costs] and [AWSCostAdapter.get_daily_costs]
    catch the error and return the empty list; the two queries of
    [AWSCostMonitor] catch it too, but return sample data instead of an
    empty list: seven fixed service entries, and one made-up daily cost per
    day of the look-back. None of the four lets the exception out. *)
Theorem C8_cost_queries_on_upstream_error (fmt2 : float -> string)
    (aw : AdapterWorld) (mw : MonitorWorld) (days_back : Z) :
  ((exists e, monthly_by_service aw days_back = inl e)
     \/ (exists e, monthly_by_record_type aw days_back = inl e) ->
   adapter_get_service_costs aw days_back = [])
  /\ ((exists e, daily_total aw days_back = inl e)
        \/ (exists e, daily_by_service aw days_back = inl e) ->
      adapter_get_daily_costs fmt2 aw days_back = [])
  /\ ((exists e, cost_by_service mw days_back = inl e) ->
      monitor_get_service_costs mw days_back = sample_service_costs
      /\ length (monitor_get_service_costs mw days_back) = 7)
  /\ ((exists e, cost_by_day mw days_back = inl e) ->
      monitor_get_daily_costs mw days_back
        = sample_daily_costs (date_before_today mw) days_back
      /\ length (monitor_get_daily_costs mw days_back) = Z.to_nat days_back).
Proof.
  split; [apply adapter_get_service_costs_error|].
  split; [apply adapter_get_daily_costs_error|].
  split.
  - intros He. rewrite (monitor_get_service_costs_error _ _ He). split; reflexivity.
  - intros He. rewrite (monitor_get_daily_costs_error _ _ He).
    split; [reflexivity | apply sample_daily_costs_length].
Qed.

(** C8, witness: Cost Explorer answers every call with AccessDenied. *)
Lemma C8_cost_queries_on_upstream_error_witness :
  (exists e, monthly_by_service failing_adapter_world 30 = inl e)
  /\ adapter_get_service_costs failing_adapter_world 30 = []
  /\ adapter_get_daily_costs (fun _ => "0.00") failing_adapter_world 30 = []
  /\ monitor_get_service_costs failing_monitor_world 30 = sample_service_costs.
Proof.
  pose proof (C8_cost_queries_on_upstream_error (fun _ => "0.00")
                failing_adapter_world failing_monitor_world 30) as (Hs & Hd & Hm & _).
  split; [exists access_denied; reflexivity|].
  split; [apply Hs; left; exists access_denied; reflexivity|].
  split; [apply Hd; left; exists access_denied; reflexivity|].
  apply Hm. exists access_denied. reflexivity.
Defined.

(** C8, counterexample: with Cost Explorer refusing the call,
    [AWSCostMonitor.get_service_costs] returns sample data, starting with
    a Skill Builder entry of 58.00, and not an empty result. *)
Lemma C8_monitor_substitutes_sample_data :
  cost_by_service failing_monitor_world 30 = inl access_denied
  /\ monitor_get_service_costs failing_monitor_world 30 <> []
  /\ head (monitor_get_service_costs failing_monitor_world 30)
     = Some (mkEntry "AWS Skill Builder Individual" 58.00%float "Subscription"
               "Canceled on 2025-04-15")
  /\ monitor_get_daily_costs failing_monitor_world 2
     = [("D-2", 5%float, "AWS Services"); ("D-1", 4%float, "AWS Services")].
Proof.
  split; [reflexivity|]. split; [|split; reflexivity].
  intros H. vm_compute in H. discriminate H.
Qed.
End CostClaims.

(** ** Command line *)

Section CliFacts.
Import Py Cost Cli.

(** What [main] of cli.py returns for [analyze]. *)
Lemma main_analyze (generate_report : Z -> option string -> bool -> Exn + string)
    (w : MonitorWorld) (threshold : float) (days : Z) :
  main generate_report w (Analyze threshold days) =
    match api_analyze_costs w threshold days with
    | inl e => inl e
    | inr [] => inr 1%Z
    | inr (_ :: _) => inr 0%Z
    end.
Proof.
  unfold main, bind. destruct (api_analyze_costs w threshold days) as [e|[|s l]]; reflexivity.
Qed.

Lemma main_report (generate_report : Z -> option string -> bool -> Exn + string)
    (w : MonitorWorld) (days : Z) (output : option string) (open : bool) :
  main generate_report w (Report days output open) =
    match generate_report days output open with
    | inl e => inl e
    | inr _ => inr 0%Z
    end.
Proof. unfold main, bind. destruct (generate_report days output open); reflexivity. Qed.

(** [CLIAdapter.run] for [analyze]: 0 when the analysis returned and its
    result could be printed, and 1 exactly when one of the two raised. *)
Lemma run_analyze {P E : Type} `{CostDataPort P E}
    (generate_cost_report : Z -> option string -> Exn + string)
    (webbrowser_open : string -> option Exn) (port : P)
    (threshold : float) (days : Z) :
  run generate_cost_report webbrowser_open port (Analyze threshold days) =
    match analyze_costs port days threshold with
    | inl _ => 1%Z
    | inr high_cost_services =>
        match print_services high_cost_services with
        | inl _ => 1%Z
        | inr _ => 0%Z
        end
    end.
Proof.
  unfold run, try_except, bind at 1.
  destruct (analyze_costs port days threshold) as [e|high]; [reflexivity|].
  unfold bind. destruct (print_services high); reflexivity.
Qed.

(** [CLIAdapter.run] for [report]: 1 exactly when the report or the
    browser raised. *)
Lemma run_report {P E : Type} `{CostDataPort P E}
    (generate_cost_report : Z -> option string -> Exn + string)
    (webbrowser_open : string -> option Exn) (port : P)
    (days : Z) (output : option string) (open : bool) :
  run generate_cost_report webbrowser_open port (Report days output open) =
    match generate_cost_report days output with
    | inl _ => 1%Z
    | inr report_path =>
        if open && truthy report_path
        then match webbrowser_open ("file://" +:+ report_path) with
             | Some _ => 1%Z
             | None => 0%Z
             end
        else 0%Z
    end.
Proof.
  unfold run, try_except, bind.
  destruct (generate_cost_report days output) as [e|path]; [reflexivity|].
  destruct (open && truthy path); [|reflexivity].
  destruct (webbrowser_open _); reflexivity.
Qed.
End CliFacts.

Section CliClaims.
Import Py Cost Cli Scenario.

(** C7, the code at the failing input: with Cost Explorer reporting only
    Amazon S3 at 5.25, [analyze --threshold 10] completes without an
    exception and finds nothing above the threshold, and [main] of cli.py
    returns 1, which is then the status of the process; [CLIAdapter.run],
    given the same data, returns 0. *)
Theorem C7_main_analyze_without_results_returns_1
    (generate_report : Z -> option string -> bool -> Exn + string)
    (generate_cost_report : Z -> option string -> Exn + string)
    (webbrowser_open : string -> option Exn) :
  api_analyze_costs quiet_monitor_world 10.0%float 30 = inr []
  /\ main generate_report quiet_monitor_world (Analyze 10.0%float 30) = inr 1%Z
  /\ exit_status (main generate_report quiet_monitor_world (Analyze 10.0%float 30)) = 1%Z
  /\ analyze_costs quiet_port 30 10.0%float = inr []
  /\ run generate_cost_report webbrowser_open quiet_port (Analyze 10.0%float 30) = 0%Z.
Proof. repeat split; reflexivity. Qed.
End CliClaims.

(** ** Cancellation dispatcher *)

Section CancellationFacts.
Import Py Cancellation.

Lemma dict_get_not_in {V : Type} (k : string) (d : list (string * V)) :
  ~ In k (map fst d) -> dict_get k d = None.
Proof.
  induction d as [|[k' v] d IH]; simpl; intros Hn; [reflexivity|].
  destruct (String.eqb k' k) eqn:E.
  - apply String.eqb_eq in E. tauto.
  - apply IH. tauto.
Qed.

Ltac run_listing aws region cl op :=
  unfold bind, client, call, ret;
  destruct (new_client aws cl region) as [e|] eqn:Hclient;
  [ apply lists_no_client |];
  cbn [app];
  destruct (respond aws (mkRequest region cl op [])) as [e|resp] eqn:Hresp;
  [ apply lists_raised; [reflexivity | reflexivity | reflexivity | left; exact Hresp]
  | eapply lists_returned; [reflexivity | reflexivity | reflexivity | exact Hresp | reflexivity] ].

Lemma handler_lists_only (aws : Aws) (service_name : string)
    (service_id : option string) (region : string) :
  In service_name mapped_services ->
  truthy_opt service_id = false ->
  ListsOnly aws region (handler_of service_name aws region service_id region []).
Proof.
  intros Hin Hid.
  cbv [mapped_services cancellation_functions map fst] in Hin.
  cbn [In] in Hin.
  destruct Hin as [<-|[<-|[<-|[<-|[<-|[<-|[<-|[]]]]]]]].
  - change (handler_of "Amazon OpenSearch Service") with cancel_opensearch.
    unfold cancel_opensearch. rewrite Hid. cbn [negb].
    unfold bind, client, call, ret, item.
    destruct (new_client aws "opensearch" region) as [e|] eqn:Hclient;
      [apply lists_no_client|].
    cbn [app].
    destruct (respond aws (mkRequest region "opensearch" "list_domain_names" []))
      as [e|resp] eqn:Hresp.
    + apply lists_raised; [reflexivity | reflexivity | reflexivity | left; exact Hresp].
    + destruct (dict_get "DomainNames" resp) as [names|] eqn:Hnames.
      * eapply lists_returned;
          [reflexivity | reflexivity | reflexivity | exact Hresp | reflexivity].
      * unfold raise. apply lists_raised; [reflexivity | reflexivity | reflexivity |].
        right. split; [reflexivity|]. exists resp. split; assumption.
  - change (handler_of "OpenSearch Serverless") with cancel_opensearch_serverless.
    unfold cancel_opensearch_serverless. rewrite Hid. cbn [negb].
    run_listing aws region "opensearchserverless" "list_collections".
  - change (handler_of "Amazon Redshift") with cancel_redshift.
    unfold cancel_redshift. rewrite Hid. cbn [negb].
    run_listing aws region "redshift" "describe_clusters".
  - change (handler_of "AWS Lambda") with cancel_lambda.
    unfold cancel_lambda. rewrite Hid. cbn [negb].
    run_listing aws region "lambda" "list_functions".
  - change (handler_of "Amazon EC2") with cancel_ec2.
    unfold cancel_ec2. rewrite Hid. cbn [negb].
    run_listing aws region "ec2" "describe_instances".
  - change (handler_of "Amazon RDS") with cancel_rds.
    unfold cancel_rds. rewrite Hid. cbn [negb].
    run_listing aws region "rds" "describe_db_instances".
  - change (handler_of "Amazon S3") with cancel_s3.
    unfold cancel_s3. rewrite Hid. cbn [negb].
    run_listing aws region "s3" "list_buckets".
Qed.
(** [cancel_service] wraps what the handler did. *)
Lemma cancel_service_of_handler (aws : Aws) (service_name : string)
    (service_id : option string) (region : string) (res : Exn + Dict) (log : list Request) :
  handler_of service_name aws region service_id region [] = (res, log) ->
  cancel_service aws service_name service_id region
  = (match res with
     | inl e => Listing.failed service_name e
     | inr details => Listing.succeeded service_name details
     end, log).
Proof. unfold cancel_service. cbv zeta. intros ->. destruct res; reflexivity. Qed.

(** A handler without a resource id, step by step. *)
Lemma handler_without_id (aws : Aws) (service_name : string)
    (service_id : option string) (region : string) :
  In service_name mapped_services ->
  truthy_opt service_id = false ->
  exists cl operation response_key result_key,
    Listing.listing_call service_name = Some (cl, operation, response_key, result_key)
    /\ handler_of service_name aws region service_id region []
       = match new_client aws cl region with
         | Some e => (inl e, [])
         | None =>
             (match respond aws (mkRequest region cl operation []) with
              | inl e => inl e
              | inr resp =>
                  match Listing.listed_resources service_name response_key resp with
                  | inl e => inl e
                  | inr resources =>
                      inr [(result_key, resources); ("action", VStr "list_only")]
                  end
              end, [mkRequest region cl operation []])
         end.
Proof.
  intros Hin Hid.
  cbv [mapped_services cancellation_functions map fst] in Hin.
  cbn [In] in Hin.
  destruct Hin as [<-|[<-|[<-|[<-|[<-|[<-|[<-|[]]]]]]]];
    do 4 eexists; (split; [reflexivity|]);
    [ change (handler_of "Amazon OpenSearch Service") with cancel_opensearch
    | change (handler_of "OpenSearch Serverless") with cancel_opensearch_serverless
    | change (handler_of "Amazon Redshift") with cancel_redshift
    | change (handler_of "AWS Lambda") with cancel_lambda
    | change (handler_of "Amazon EC2") with cancel_ec2
    | change (handler_of "Amazon RDS") with cancel_rds
    | change (handler_of "Amazon S3") with cancel_s3 ];
    unfold cancel_opensearch, cancel_opensearch_serverless, cancel_redshift, cancel_lambda,
      cancel_ec2, cancel_rds, cancel_s3;
    rewrite Hid; cbn [negb];
    unfold bind, client, call, ret, item, raise;
    match goal with |- context [new_client aws ?c region] =>
      destruct (new_client aws c region) as [e|] end;
    try reflexivity;
    cbn [app];
    match goal with |- context [respond aws ?r] =>
      destruct (respond aws r) as [e|resp] end;
    try reflexivity.
  unfold Listing.listed_resources. cbn [String.eqb Ascii.eqb Bool.eqb].
  change (String.eqb "Amazon OpenSearch Service" "Amazon OpenSearch Service") with true.
  cbv iota. destruct (dict_get "DomainNames" resp); reflexivity.
Qed.
End CancellationFacts.

Section CancellationClaims.
Import Py Cancellation Scenario.

(** C5: for every service name that is not one of the seven mapped names,
    whatever the resource id, the region and the state of AWS,
    [cancel_service] returns success = true with details.action =
    [not_implemented], has no [error_code], and sends no request. *)
Theorem C5_unmapped_service_not_implemented (aws : Aws) (service_name : string)
    (service_id : option string) (region : string) :
  ~ In service_name mapped_services ->
  dict_get "success" (fst (cancel_service aws service_name service_id region))
    = Some (VBool true)
  /\ details_action (fst (cancel_service aws service_name service_id region))
     = Some (VStr "not_implemented")
  /\ dict_get "error_code" (fst (cancel_service aws service_name service_id region)) = None
  /\ snd (cancel_service aws service_name service_id region) = [].
Proof.
  intros Hn. unfold cancel_service, handler_of.
  rewrite (dict_get_not_in _ _ Hn). repeat split; reflexivity.
Qed.

(** C5, witness: the service name of the test, [Unsupported Service]. *)
Lemma C5_unmapped_service_not_implemented_witness :
  ~ In "Unsupported Service" mapped_services
  /\ details_action
       (fst (cancel_service answering_aws "Unsupported Service" (Some "resource-id")
               "us-east-1"))
     = Some (VStr "not_implemented").
Proof.
  assert (Hn : ~ In "Unsupported Service" mapped_services).
  { cbv [mapped_services cancellation_functions map fst In].
    intros H. repeat (destruct H as [H|H]; [discriminate H|]). exact H. }
  split; [exact Hn|].
  exact (proj1 (proj2 (C5_unmapped_service_not_implemented answering_aws
                         "Unsupported Service" (Some "resource-id") "us-east-1" Hn))).
Defined.

(** Without a resource id: the kind of the requests, and the success
    case when AWS answers. *)
Lemma missing_id_requests_and_success (aws : Aws) (service_name : string)
    (service_id : option string) (region : string) :
  In service_name mapped_services ->
  truthy_opt service_id = false ->
  Forall (fun r => destructive r = false /\ listing r = true)
    (snd (cancel_service aws service_name service_id region))
  /\ ((forall cl, new_client aws cl region = None) ->
      (forall req, listing req = true ->
         exists resp, respond aws req = inr resp
           /\ (req_operation req = "list_domain_names" ->
               dict_get "DomainNames" resp <> None)) ->
      dict_get "success" (fst (cancel_service aws service_name service_id region))
        = Some (VBool true)
      /\ dict_get "message" (fst (cancel_service aws service_name service_id region))
         = Some (VStr ("Successfully initiated cancellation for " +:+ service_name))
      /\ details_action (fst (cancel_service aws service_name service_id region))
         = Some (VStr "list_only")
      /\ length (snd (cancel_service aws service_name service_id region)) = 1)
  /\ (dict_get "success" (fst (cancel_service aws service_name service_id region))
        = Some (VBool true) ->
      details_action (fst (cancel_service aws service_name service_id region))
        = Some (VStr "list_only")).
Proof.
  intros Hin Hid. unfold cancel_service.
  pose proof (handler_lists_only aws service_name service_id region Hin Hid) as Hl.
  inversion Hl as [e Heq | req e Hlist Hdes Hreg Hresp Heq
                   | req resp details Hlist Hdes Hreg Hresp Hact Heq]; clear Hl.
  - split; [constructor|]. split; [|cbn; discriminate].
    intros Hclient _. exfalso.
    revert Heq. cbv [mapped_services cancellation_functions map fst In] in Hin.
    destruct Hin as [<-|[<-|[<-|[<-|[<-|[<-|[<-|[]]]]]]]];
      cbv [handler_of dict_get cancellation_functions String.eqb Ascii.eqb Bool.eqb
           cancel_opensearch cancel_opensearch_serverless cancel_redshift cancel_lambda
           cancel_ec2 cancel_rds cancel_s3 bind client];
      rewrite Hid; cbn [negb]; cbv [bind client]; rewrite Hclient;
      cbv [call]; cbn [app];
      repeat match goal with
             | |- context [respond aws ?r] => destruct (respond aws r)
             | |- context [item ?d ?k] => unfold item; destruct (dict_get k d)
             end;
      cbv [ret raise]; intros [= ? ?]; discriminate.
  - split; [repeat constructor; assumption|]. split; [|cbn; discriminate].
    intros _ Hanswer. exfalso.
    destruct (Hanswer req Hlist) as (resp & Hr & Hnames).
    destruct Hresp as [Hresp|(Hop & resp' & Hr' & Hnone)]; [congruence|].
    rewrite Hr in Hr'. injection Hr' as <-. exact (Hnames Hop Hnone).
  - assert (Hdetails :
      details_action
        [ ("success", VBool true);
          ("message", VStr ("Successfully initiated cancellation for " +:+ service_name));
          ("details", VDict details) ] = Some (VStr "list_only")) by exact Hact.
    split; [repeat constructor; assumption|]. split.
    + intros _ _. cbn [fst snd]. repeat split; try reflexivity. exact Hdetails.
    + intros _. exact Hdetails.
Qed.

(** C9: for each of the seven mapped service names and a resource id that
    is [None] or empty, [cancel_service] sends no delete or terminate
    request: it sends the one list or describe call of the service, in the
    region it was given, or nothing when the client cannot be built. When
    that call is answered (with its [DomainNames] for OpenSearch) the
    details hold the resources of the answer, as they came, under the key of
    the service, with action [list_only], and the result reports
    success = true with the message "Successfully initiated cancellation for
    <service>". When the client cannot be built, the call is refused or the
    OpenSearch answer has no [DomainNames], the result is success = false
    with the error message and code, and has no details. *)
Theorem C9_missing_id_lists_only (aws : Aws) (service_name : string)
    (service_id : option string) (region : string) :
  In service_name mapped_services ->
  truthy_opt service_id = false ->
  Forall (fun r => destructive r = false /\ listing r = true)
    (snd (cancel_service aws service_name service_id region))
  /\ ((forall cl, new_client aws cl region = None) ->
      (forall req, listing req = true ->
         exists resp, respond aws req = inr resp
           /\ (req_operation req = "list_domain_names" ->
               dict_get "DomainNames" resp <> None)) ->
      dict_get "success" (fst (cancel_service aws service_name service_id region))
        = Some (VBool true)
      /\ dict_get "message" (fst (cancel_service aws service_name service_id region))
         = Some (VStr ("Successfully initiated cancellation for " +:+ service_name))
      /\ details_action (fst (cancel_service aws service_name service_id region))
         = Some (VStr "list_only")
      /\ length (snd (cancel_service aws service_name service_id region)) = 1)
  /\ (dict_get "success" (fst (cancel_service aws service_name service_id region))
        = Some (VBool true) ->
      details_action (fst (cancel_service aws service_name service_id region))
        = Some (VStr "list_only"))
  /\ exists cl operation response_key result_key,
       Listing.listing_call service_name = Some (cl, operation, response_key, result_key)
       /\ cancel_service aws service_name service_id region
          = match new_client aws cl region with
            | Some e => (Listing.failed service_name e, [])
            | None =>
                (match respond aws (mkRequest region cl operation []) with
                 | inl e => Listing.failed service_name e
                 | inr resp =>
                     match Listing.listed_resources service_name response_key resp with
                     | inl e => Listing.failed service_name e
                     | inr resources =>
                         Listing.succeeded service_name
                           [(result_key, resources); ("action", VStr "list_only")]
                     end
                 end, [mkRequest region cl operation []])
            end.
Proof.
  intros Hin Hid.
  destruct (missing_id_requests_and_success aws service_name service_id region Hin Hid)
    as (Hlog & Hok & Hact).
  split; [exact Hlog|]. split; [exact Hok|]. split; [exact Hact|].
  destruct (handler_without_id aws service_name service_id region Hin Hid)
    as (cl & operation & response_key & result_key & Hcall & Hrun).
  exists cl, operation, response_key, result_key. split; [exact Hcall|].
  revert Hrun. destruct (new_client aws cl region) as [e|]; intros Hrun;
    rewrite (cancel_service_of_handler _ _ _ _ _ _ Hrun); [reflexivity|].
  destruct (respond aws (mkRequest region cl operation [])) as [e|resp]; [reflexivity|].
  destruct (Listing.listed_resources service_name response_key resp); reflexivity.
Qed.

(** C9, witness: OpenSearch with no domain name, AWS answering; the details
    carry the domain the answer names. *)
Lemma C9_missing_id_lists_only_witness :
  In "Amazon OpenSearch Service" mapped_services
  /\ truthy_opt None = false
  /\ details_action
       (fst (cancel_service answering_aws "Amazon OpenSearch Service" None "us-east-1"))
     = Some (VStr "list_only")
  /\ exists cl operation response_key result_key,
       Listing.listing_call "Amazon OpenSearch Service"
         = Some (cl, operation, response_key, result_key)
       /\ cancel_service answering_aws "Amazon OpenSearch Service" None "us-east-1"
          = (Listing.succeeded "Amazon OpenSearch Service"
               [ (result_key, VList [VDict [("DomainName", VStr "production-search")]]);
                 ("action", VStr "list_only") ],
             [mkRequest "us-east-1" cl operation []]).
Proof.
  assert (Hin : In "Amazon OpenSearch Service" mapped_services) by (left; reflexivity).
  split; [exact Hin|]. split; [reflexivity|]. split.
  - refine (proj1 (proj2 (proj2
              (proj1 (proj2 (C9_missing_id_lists_only answering_aws
                               "Amazon OpenSearch Service" None "us-east-1" Hin eq_refl))
                 _ _)))).
    + intros cl. reflexivity.
    + intros req _. cbv [answering_aws respond].
      destruct (String.eqb (req_operation req) "list_domain_names") eqn:E.
      * eexists. split; [reflexivity|]. intros _. discriminate.
      * eexists. split; [reflexivity|]. intros Hop. rewrite Hop in E. discriminate E.
  - destruct (proj2 (proj2 (proj2 (C9_missing_id_lists_only answering_aws
                                     "Amazon OpenSearch Service" None "us-east-1"
                                     Hin eq_refl))))
      as (cl & operation & response_key & result_key & Hcall & Hrun).
    exists cl, operation, response_key, result_key. split; [exact Hcall|].
    injection Hcall as <- <- <- <-. exact Hrun.
Defined.

(** C9, counterexample: AWS refuses the listing. With no resource id,
    [cancel_service] for AWS Lambda sends its one [list_functions] request
    and, the request being refused, reports success = false with the error
    code of AWS: no [list_only] action and no resources are returned. *)
Lemma C9_refused_listing_reports_failure :
  In "AWS Lambda" mapped_services
  /\ truthy_opt None = false
  /\ snd (cancel_service refusing_aws "AWS Lambda" None "us-east-1")
     = [mkRequest "us-east-1" "lambda" "list_functions" []]
  /\ fst (cancel_service refusing_aws "AWS Lambda" None "us-east-1")
     = Listing.failed "AWS Lambda" access_denied
  /\ dict_get "success" (fst (cancel_service refusing_aws "AWS Lambda" None "us-east-1"))
     = Some (VBool false)
  /\ dict_get "error_code" (fst (cancel_service refusing_aws "AWS Lambda" None "us-east-1"))
     = Some (VStr "AccessDeniedException")
  /\ details_action (fst (cancel_service refusing_aws "AWS Lambda" None "us-east-1")) = None.
Proof.
  split; [do 3 right; left; reflexivity|]. repeat split; reflexivity.
Qed.
End CancellationClaims.

(** ** Cancellation ledger *)

Section LedgerFacts.
Import Ledger.

(** The object itself always holds the new entry, whatever the write did. *)
Lemma record_in_object (today : string) (outcome : WriteOutcome) (st : State)
    (service_name : string) (cost : float) :
  canceled_services (record_service_cancellation today outcome st service_name cost)
    !! service_name
  = Some {| status := "Canceled"; canceled_on := today; cost_at_cancellation := cost |}.
Proof.
  unfold record_service_cancellation, save_canceled_services.
  destruct outcome; cbn; apply lookup_insert_eq.
Qed.

(** A write that cannot open the file leaves the file as it was: the
    exception is printed and dropped. *)
Lemma record_open_fails (today : string) (st : State) (service_name : string) (cost : float) :
  file (record_service_cancellation today OpenFails st service_name cost) = file st.
Proof. reflexivity. Qed.

(** An unreadable or absent file loads as the empty ledger. *)
Lemma load_unreadable : load_canceled_services Unreadable = ∅.
Proof. reflexivity. Qed.

Lemma load_missing : load_canceled_services Missing = ∅.
Proof. reflexivity. Qed.
End LedgerFacts.

Section LedgerClaims.
Import Ledger Scenario.

(** C6: for every service name, date and cost, and every earlier state of
    the object and of the file, recording a cancellation (the write to
    canceled_services.json completing) and then loading the ledger gives,
    under that exact service name, an entry with status [Canceled], the same
    date and the same cost at cancellation. *)
Theorem C6_record_then_load (today : string) (st : State)
    (service_name : string) (cost : float) :
  load_canceled_services
    (file (record_service_cancellation today WriteOk st service_name cost))
    !! service_name
  = Some {| status := "Canceled"; canceled_on := today; cost_at_cancellation := cost |}
  /\ init (file (record_service_cancellation today WriteOk st service_name cost))
     = record_service_cancellation today WriteOk st service_name cost.
Proof.
  unfold init, record_service_cancellation, save_canceled_services. cbn.
  split; [apply lookup_insert_eq | reflexivity].
Qed.

(** C10: [record_service_cancellation s cost] adds or overwrites the entry
    keyed by [s] only: in the ledger of the object, the entry of every other
    service name is as before, whatever becomes of the write; and in the
    file, when the file was in step with the object and the dump is not cut
    short, loading gives every other name the entry it had. *)
Theorem C10_record_leaves_other_entries (today : string) (outcome : WriteOutcome)
    (st : State) (s s' : string) (cost : float) :
  s <> s' ->
  canceled_services (record_service_cancellation today outcome st s cost) !! s
    = Some {| status := "Canceled"; canceled_on := today; cost_at_cancellation := cost |}
  /\ canceled_services (record_service_cancellation today outcome st s cost) !! s'
     = canceled_services st !! s'
  /\ (load_canceled_services (file st) = canceled_services st ->
      outcome <> DumpFails ->
      load_canceled_services (file (record_service_cancellation today outcome st s cost)) !! s'
        = load_canceled_services (file st) !! s').
Proof.
  intros Hne. split; [apply record_in_object|].
  unfold record_service_cancellation, save_canceled_services.
  split.
  - destruct outcome; cbn; now rewrite lookup_insert_ne.
  - intros Hsync Hd. destruct outcome; cbn; [|reflexivity|contradiction].
    rewrite Hsync. now rewrite lookup_insert_ne.
Qed.

(** C10, witness: OpenSearch is recorded next to a Skill Builder entry. *)
Lemma C10_record_leaves_other_entries_witness :
  "Amazon OpenSearch Service" <> "AWS Skill Builder"
  /\ canceled_services
       (record_service_cancellation "2025-04-21" WriteOk one_entry_ledger
          "Amazon OpenSearch Service" 19.65%float) !! "AWS Skill Builder"
     = canceled_services one_entry_ledger !! "AWS Skill Builder".
Proof.
  assert (Hne : "Amazon OpenSearch Service" <> "AWS Skill Builder") by discriminate.
  split; [exact Hne|].
  exact (proj1 (proj2 (C10_record_leaves_other_entries "2025-04-21" WriteOk
                         one_entry_ledger "Amazon OpenSearch Service" "AWS Skill Builder"
                         19.65%float Hne))).
Defined.
End LedgerClaims.

(* ===================================================================== *)
(** * Further properties of the modelled code *)
(* ===================================================================== *)

(** ** The order of floats *)

Section FloatOrder.
Import Notions.

Lemma SFltb_iff (x y : spec_float) : SFltb x y = true <-> SFcompare x y = Some Lt.
Proof. unfold SFltb. destruct (SFcompare x y) as [[]|]; split; congruence. Qed.

Lemma SFleb_iff (x y : spec_float) :
  SFleb x y = true <-> SFcompare x y = Some Lt \/ SFcompare x y = Some Eq.
Proof.
  unfold SFleb. destruct (SFcompare x y) as [[]|]; split; try tauto; try congruence;
    intros [H|H]; congruence.
Qed.

Lemma SFcompare_lt_trans (x y z : spec_float) :
  SFcompare x y = Some Lt -> SFcompare y z = Some Lt -> SFcompare x z = Some Lt.
Proof.
  destruct x as [sx|sx| |sx mx ex], y as [sy|sy| |sy my ey], z as [sz|sz| |sz mz ez]; simpl;
    try destruct sx; try destruct sy; try destruct sz; simpl; try congruence;
    change (Pos.compare_cont Eq) with Pos.compare;
    destruct (Z.compare_spec ex ey), (Z.compare_spec ey ez), (Z.compare_spec ex ez);
      simpl; try congruence; try lia; subst;
    destruct (Pos.compare_spec mx my), (Pos.compare_spec my mz), (Pos.compare_spec mx mz);
      simpl; try congruence; try lia.
Qed.

Lemma SFcompare_le_trans (x y z : spec_float) :
  SFcompare x y = Some Lt \/ SFcompare x y = Some Eq ->
  SFcompare y z = Some Lt \/ SFcompare y z = Some Eq ->
  SFcompare x z = Some Lt \/ SFcompare x z = Some Eq.
Proof.
  destruct x as [sx|sx| |sx mx ex], y as [sy|sy| |sy my ey], z as [sz|sz| |sz mz ez]; simpl;
    try destruct sx; try destruct sy; try destruct sz; simpl;
    try (intuition congruence);
    change (Pos.compare_cont Eq) with Pos.compare;
    destruct (Z.compare_spec ex ey), (Z.compare_spec ey ez), (Z.compare_spec ex ez);
      simpl; try (intuition congruence); try lia; subst;
    destruct (Pos.compare_spec mx my), (Pos.compare_spec my mz), (Pos.compare_spec mx mz);
      simpl; try (intuition congruence); try lia.
Qed.

Lemma SFcompare_refl (x : spec_float) : x <> S754_nan -> SFcompare x x = Some Eq.
Proof.
  destruct x as [s|s| |s m e]; simpl; intros Hn; try congruence.
  - destruct s; reflexivity.
  - change (Pos.compare_cont Eq) with Pos.compare.
    rewrite Z.compare_refl, Pos.compare_refl. destruct s; reflexivity.
Qed.

(** Without NaN two floats always compare, and swapping them swaps the answer. *)
Lemma SFcompare_total (x y : spec_float) :
  x <> S754_nan -> y <> S754_nan ->
  SFcompare x y <> Some Lt -> SFcompare y x = Some Lt \/ SFcompare y x = Some Eq.
Proof.
  destruct x as [sx|sx| |sx mx ex], y as [sy|sy| |sy my ey]; simpl;
    try destruct sx; try destruct sy; simpl; try (intuition congruence);
    change (Pos.compare_cont Eq) with Pos.compare;
    rewrite (Z.compare_antisym ex ey), (Pos.compare_antisym mx my);
    destruct (Z.compare ex ey), (Pos.compare mx my); simpl; intuition congruence.
Qed.

Lemma not_nan_spec (x : float) : not_nan x -> Prim2SF x <> S754_nan.
Proof.
  unfold not_nan. rewrite FloatAxioms.eqb_spec. unfold SFeqb. intros H Hn. rewrite Hn in H.
  discriminate H.
Qed.

Lemma ltb_trans (x y z : float) :
  PrimFloat.ltb x y = true -> PrimFloat.ltb y z = true -> PrimFloat.ltb x z = true.
Proof. rewrite !FloatAxioms.ltb_spec, !SFltb_iff. apply SFcompare_lt_trans. Qed.

Lemma leb_trans (x y z : float) :
  PrimFloat.leb x y = true -> PrimFloat.leb y z = true -> PrimFloat.leb x z = true.
Proof. rewrite !FloatAxioms.leb_spec, !SFleb_iff. apply SFcompare_le_trans. Qed.

Lemma not_ltb_leb (x y : float) :
  not_nan x -> not_nan y -> PrimFloat.ltb x y = false -> PrimFloat.leb y x = true.
Proof.
  intros Hx Hy. rewrite FloatAxioms.ltb_spec, FloatAxioms.leb_spec, SFleb_iff. intros Hlt.
  apply SFcompare_total; [now apply not_nan_spec | now apply not_nan_spec |].
  intros H. apply SFltb_iff in H. congruence.
Qed.

Lemma ltb_leb (x y : float) : PrimFloat.ltb x y = true -> PrimFloat.leb x y = true.
Proof. rewrite FloatAxioms.ltb_spec, FloatAxioms.leb_spec, SFltb_iff, SFleb_iff. tauto. Qed.
End FloatOrder.

(** ** Cost queries: order, thresholds, daily details *)

Section CostOrderFacts.
Import Py Cost Notions.

Lemma insert_desc_descending {A : Type} (key : A -> float) (x : A) (l : list A) :
  not_nan (key x) -> Forall (fun y => not_nan (key y)) l ->
  descending key l -> descending key (insert_desc key x l).
Proof.
  intros Hx Hl Hd. unfold descending in *.
  induction Hd as [|y l Hs IH Hy]; simpl.
  - repeat constructor.
  - inversion Hl as [|? ? Hny Hnl]; subst.
    destruct (PrimFloat.ltb (key y) (key x)) eqn:E.
    + constructor; [now constructor|].
      constructor; [now apply ltb_leb|].
      rewrite List.Forall_forall in *. intros b Hb.
      apply leb_trans with (key y); [now apply Hy | now apply ltb_leb].
    + constructor; [now apply IH|].
      rewrite List.Forall_forall. intros b Hb.
      apply (Permutation_in _ (Permutation_sym (insert_desc_perm key x l))) in Hb.
      destruct Hb as [<-|Hb].
      * now apply not_ltb_leb.
      * rewrite List.Forall_forall in Hy. now apply Hy.
Qed.

Lemma sort_desc_descending {A : Type} (key : A -> float) (l : list A) :
  Forall (fun y => not_nan (key y)) l -> descending key (sort_desc key l).
Proof.
  unfold sort_desc.
  assert (Hgen : forall acc,
            Forall (fun y => not_nan (key y)) l ->
            Forall (fun y => not_nan (key y)) acc ->
            descending key acc ->
            descending key (fold_left (fun acc x => insert_desc key x acc) l acc)).
  { induction l as [|x l IH]; intros acc Hl Hacc Hd; simpl; [exact Hd|].
    inversion Hl as [|? ? Hx Hl']; subst.
    apply IH; [exact Hl' | | now apply insert_desc_descending].
    rewrite List.Forall_forall in *. intros b Hb.
    apply (Permutation_in _ (Permutation_sym (insert_desc_perm key x acc))) in Hb.
    destruct Hb as [<-|Hb]; [exact Hx | now apply Hacc]. }
  intros Hl. apply Hgen; [exact Hl | constructor | constructor].
Qed.

Lemma monitor_entries_facts (groups : list ServiceGroup) :
  Forall (fun e => PrimFloat.ltb (cost e) 0.01%float = false
                   /\ status e = "Active"
                   /\ In (service e, cost e) groups)
    (monitor_entries groups).
Proof.
  induction groups as [|[n c] groups IH]; simpl; [constructor|].
  assert (Hrest : Forall (fun e => PrimFloat.ltb (cost e) 0.01%float = false
                                   /\ status e = "Active"
                                   /\ In (service e, cost e) ((n, c) :: groups))
                    (monitor_entries groups)).
  { eapply List.Forall_impl; [|exact IH]. intros e (H1 & H2 & H3). repeat split; auto.
    now right. }
  destruct (PrimFloat.ltb c 0.01%float) eqn:E; [exact Hrest|].
  constructor; [|exact Hrest]. simpl. repeat split; auto.
Qed.

Lemma monitor_entries_complete (groups : list ServiceGroup) (n : string) (c : float) :
  In (n, c) groups -> PrimFloat.ltb c 0.01%float = false ->
  exists e, In e (monitor_entries groups) /\ service e = n /\ cost e = c.
Proof.
  induction groups as [|[n' c'] groups IH]; simpl; [tauto|].
  intros [[= -> ->]|Hin] Hc.
  - rewrite Hc. eexists. split; [left; reflexivity|]. split; reflexivity.
  - destruct (IH Hin Hc) as (e & He & Hs). exists e. split; [|exact Hs].
    destruct (PrimFloat.ltb c' 0.01%float); [exact He | now right].
Qed.

Lemma sample_service_costs_descending : descending cost sample_service_costs.
Proof.
  unfold descending, sample_service_costs.
  repeat (constructor; [| repeat (constructor; try reflexivity)]). constructor.
Qed.

Lemma filter_implied {A : Type} (p q : A -> bool) (l : list A) :
  (forall x, p x = true -> q x = true) ->
  List.filter p (List.filter q l) = List.filter p l.
Proof.
  intros Hpq. induction l as [|x l IH]; simpl; [reflexivity|].
  destruct (q x) eqn:Hq; simpl.
  - rewrite IH. reflexivity.
  - destruct (p x) eqn:Hp; [|exact IH].
    rewrite (Hpq x Hp) in Hq. discriminate Hq.
Qed.
Lemma monitor_success_descending (w : MonitorWorld) (days_back : Z)
    (groups : list ServiceGroup) :
  cost_by_service w days_back = inr groups ->
  Forall (fun g : ServiceGroup => not_nan (snd g)) groups ->
  descending cost (monitor_get_service_costs w days_back).
Proof.
  intros Hw Hnan. unfold monitor_get_service_costs. rewrite Hw. cbn [bind try_except].
  apply sort_desc_descending.
  pose proof (monitor_entries_facts groups) as Hfacts.
  rewrite List.Forall_forall in *. intros e He.
  destruct (Hfacts e He) as (_ & _ & Hin). exact (Hnan _ Hin).
Qed.
End CostOrderFacts.

Section CostExtras.
Import Py Cost Cli Notions Scenario Examples.

(** X1: when the Cost Explorer call succeeds and no amount is NaN,
    [AWSCostMonitor.get_service_costs] returns one entry, marked Active, for
    each group of at least 0.01 and nothing else, in descending order of
    cost. *)
Theorem monitor_service_costs_sorted (w : MonitorWorld) (days_back : Z)
    (groups : list ServiceGroup) :
  cost_by_service w days_back = inr groups ->
  Forall (fun g : ServiceGroup => not_nan (snd g)) groups ->
  Permutation (monitor_get_service_costs w days_back) (monitor_entries groups)
  /\ descending cost (monitor_get_service_costs w days_back)
  /\ Forall (fun e => PrimFloat.ltb (cost e) 0.01%float = false /\ status e = "Active")
       (monitor_get_service_costs w days_back)
  /\ (forall n c, In (n, c) groups -> PrimFloat.ltb c 0.01%float = false ->
        exists e, In e (monitor_get_service_costs w days_back)
                  /\ service e = n /\ cost e = c).
Proof.
  intros Hw Hnan. unfold monitor_get_service_costs. rewrite Hw. cbn [bind try_except].
  pose proof (monitor_entries_facts groups) as Hfacts.
  pose proof (sort_desc_perm cost (monitor_entries groups)) as Hperm.
  split; [now apply Permutation_sym|]. split; [|split].
  - pose proof (monitor_success_descending w days_back groups Hw Hnan) as Hd.
    unfold monitor_get_service_costs in Hd. rewrite Hw in Hd. exact Hd.
  - rewrite List.Forall_forall in *. intros e He.
    apply (Permutation_in _ (Permutation_sym Hperm)) in He.
    destruct (Hfacts e He) as (H1 & H2 & _). now split.
  - intros n c Hin Hc. destruct (monitor_entries_complete groups n c Hin Hc) as (e & He & Hs).
    exists e. split; [|exact Hs]. exact (Permutation_in _ Hperm He).
Qed.

(** X1, witness: the three services of the tests as upstream groups. *)
Lemma monitor_service_costs_sorted_witness :
  descending cost (monitor_get_service_costs sample_monitor_world 30).
Proof.
  refine (proj1 (proj2 (monitor_service_costs_sorted sample_monitor_world 30
                          sample_groups eq_refl _))).
  repeat constructor.
Defined.

(** X2: whatever Cost Explorer does, if no upstream amount is NaN then
    [api.analyze_costs] returns its services in descending order of cost,
    each with a cost above the threshold; this holds for the sample data of
    the failure path too. *)
Theorem api_analyze_costs_descending (w : MonitorWorld) (threshold : float)
    (days_back : Z) (result : list ServiceEntry) :
  (forall groups, cost_by_service w days_back = inr groups ->
                  Forall (fun g : ServiceGroup => not_nan (snd g)) groups) ->
  api_analyze_costs w threshold days_back = inr result ->
  descending cost result
  /\ Forall (fun e => PrimFloat.ltb threshold (cost e) = true) result.
Proof.
  intros Hnan. unfold api_analyze_costs. destruct (ce_client w); [discriminate|].
  intros [= <-]. split.
  - apply filter_descending.
    destruct (cost_by_service w days_back) as [e|groups] eqn:Hw.
    + unfold monitor_get_service_costs. rewrite Hw. exact sample_service_costs_descending.
    + exact (monitor_success_descending w days_back groups Hw (Hnan groups eq_refl)).
  - rewrite List.Forall_forall. intros e He. apply List.filter_In in He as [_ He]. exact He.
Qed.

(** X2, witness: Cost Explorer refuses the call and the threshold is 10. *)
Lemma api_analyze_costs_descending_witness :
  descending cost
    [ mkEntry "AWS Skill Builder Individual" 58.00%float "Subscription"
        "Canceled on 2025-04-15";
      mkEntry "Amazon OpenSearch Service" 19.65%float "Search/OUs, Indexing/DUs, Storage"
        "Canceled on 2025-04-15";
      mkEntry "AWS Cost Explorer (Usage Analytics Service)" 12.15%float
        "API usage charges" "Active" ].
Proof.
  refine (proj1 (api_analyze_costs_descending failing_monitor_world 10%float 30 _ _ eq_refl)).
  intros groups H. discriminate H.
Defined.

(** X3: raising the threshold never adds a service. For every cost data
    port, the answer of [CostAnalysisService.analyze_costs] at a higher
    threshold is the answer at the lower threshold filtered once more, so
    it keeps the order and is contained in it. *)
Theorem analyze_costs_threshold_monotone {P E : Type} `{CostDataPort P E}
    (port : P) (days_back : Z) (low high : float) (at_low at_high : list E) :
  PrimFloat.ltb low high = true ->
  analyze_costs port days_back low = inr at_low ->
  analyze_costs port days_back high = inr at_high ->
  at_high = List.filter (fun s => gt (entry_cost s) high) at_low
  /\ incl at_high at_low
  /\ (length at_high <= length at_low)%nat.
Proof.
  intros Hlt. unfold analyze_costs, bind.
  destruct (get_service_costs port days_back) as [e|services]; [discriminate|].
  intros [= <-] [= <-].
  assert (Heq : List.filter (fun s => gt (entry_cost s) high) services
                = List.filter (fun s => gt (entry_cost s) high)
                    (List.filter (fun s => gt (entry_cost s) low) services)).
  { symmetry. apply filter_implied. intros s Hs. unfold gt in *.
    now apply ltb_trans with high. }
  split; [exact Heq|]. rewrite Heq. split.
  - intros s Hs. now apply List.filter_In in Hs as [Hs _].
  - apply List.filter_length_le.
Qed.

(** X3, witness: the services of the tests at thresholds 10 and 20. *)
Lemma analyze_costs_threshold_monotone_witness :
  incl [skill_builder_entry] [lambda_entry; skill_builder_entry].
Proof.
  exact (proj1 (proj2 (analyze_costs_threshold_monotone sample_port 30 10%float 20%float
                         [lambda_entry; skill_builder_entry] [skill_builder_entry]
                         eq_refl eq_refl eq_refl))).
Defined.

Lemma truthy_append_l (a b : string) : truthy a = true -> truthy (a +:+ b) = true.
Proof. destruct a; [discriminate | reflexivity]. Qed.

Lemma service_breakdown_truthy (fmt2 : float -> string) (groups : list ServiceGroup) :
  truthy (service_breakdown fmt2 groups) = true.
Proof.
  unfold service_breakdown. cbv zeta.
  match goal with |- truthy (if negb (truthy ?b) then _ else _) = true =>
    destruct (truthy b) eqn:E end; [exact E | reflexivity].
Qed.

Lemma breakdown_fold_values (fmt2 : float -> string)
    (results : list (string * list ServiceGroup)) (acc : gmap string string) :
  map_Forall (fun _ v => truthy v = true) acc ->
  map_Forall (fun _ v => truthy v = true)
    (fold_left (fun d r => <[fst r := service_breakdown fmt2 (snd r)]> d) results acc).
Proof.
  revert acc. induction results as [|r results IH]; intros acc Hacc; simpl; [exact Hacc|].
  apply IH. apply map_Forall_insert_2; [apply service_breakdown_truthy | exact Hacc].
Qed.

Lemma breakdown_fold_absent (fmt2 : float -> string)
    (results : list (string * list ServiceGroup)) (acc : gmap string string) (date : string) :
  ~ In date (map fst results) ->
  fold_left (fun d r => <[fst r := service_breakdown fmt2 (snd r)]> d) results acc !! date
    = acc !! date.
Proof.
  revert acc. induction results as [|r results IH]; intros acc Hn; simpl; [reflexivity|].
  simpl in Hn. rewrite IH by tauto. apply lookup_insert_ne. tauto.
Qed.

(** X4: when both daily queries succeed, [AWSCostAdapter.get_daily_costs]
    returns one tuple per day of the total query, in the same order and with
    the same date and cost; the detail of a day is never empty, and a day
    that the by-service query did not report is labelled [AWS Services]. *)
Theorem adapter_daily_costs_shape (fmt2 : float -> string) (w : AdapterWorld)
    (days_back : Z) (totals : list (string * float))
    (by_service : list (string * list ServiceGroup)) :
  daily_total w days_back = inr totals ->
  daily_by_service w days_back = inr by_service ->
  map (fun t : string * float * string => fst t) (adapter_get_daily_costs fmt2 w days_back)
    = totals
  /\ Forall (fun t : string * float * string => truthy (snd t) = true)
       (adapter_get_daily_costs fmt2 w days_back)
  /\ (forall date c, In (date, c) totals -> ~ In date (map fst by_service) ->
        In (date, c, "AWS Services") (adapter_get_daily_costs fmt2 w days_back)).
Proof.
  intros Ht Hb. unfold adapter_get_daily_costs. rewrite Ht, Hb. cbn [bind try_except].
  split; [|split].
  - rewrite List.map_map. cbn [fst]. clear Ht.
    induction totals as [|[d c] totals IH]; simpl; [reflexivity | now rewrite IH].
  - rewrite List.Forall_forall. intros t Ht'. apply List.in_map_iff in Ht' as (r & <- & _).
    cbn [snd]. destruct (breakdown_by_date fmt2 by_service !! fst r) as [v|] eqn:Hv;
      [|reflexivity].
    simpl. unfold breakdown_by_date in Hv.
    exact (breakdown_fold_values fmt2 by_service ∅ (map_Forall_empty _) _ _ Hv).
  - intros date c Hin Hn. apply List.in_map_iff. exists (date, c). split; [|exact Hin].
    cbn [fst snd]. unfold breakdown_by_date.
    rewrite (breakdown_fold_absent fmt2 by_service ∅ date Hn), lookup_empty. reflexivity.
Qed.

(** X4, witness: two days in the total query, one of them broken down. *)
Lemma adapter_daily_costs_shape_witness :
  In ("2025-04-02", 23.45%float, "AWS Services")
    (adapter_get_daily_costs (fun _ => "9.99") two_day_world 30).
Proof.
  refine (proj2 (proj2 (adapter_daily_costs_shape (fun _ => "9.99") two_day_world 30
                          _ _ eq_refl eq_refl)) "2025-04-02" 23.45%float _ _).
  - right. left. reflexivity.
  - intros [H|[]]. discriminate H.
Defined.

Example adapter_daily_costs_two_days :
  adapter_get_daily_costs (fun _ => "9.99") two_day_world 30
  = [ ("2025-04-01", 12.34%float, "Amazon S3 ($9.99)");
      ("2025-04-02", 23.45%float, "AWS Services") ].
Proof. reflexivity. Qed.

Lemma join_cons_starts (sep x : string) (rest : list string) :
  exists tail, join sep (x :: rest) = x +:+ tail.
Proof.
  destruct rest as [|y rest]; simpl.
  - exists EmptyString. clear. induction x as [|c x IH]; [reflexivity|].
    rewrite append_cons. now rewrite <- IH.
  - eexists. reflexivity.
Qed.

(** X5: the label [get_daily_costs] builds for a day is
    [No significant costs] when no group of the day has a cost above zero;
    otherwise it starts with the first such group, written as
    [name ($amount)]; groups at or below zero never show. *)
Theorem service_breakdown_label (fmt2 : float -> string) (groups : list ServiceGroup) :
  (List.filter (fun g : ServiceGroup => gt (snd g) 0%float) groups = [] ->
   service_breakdown fmt2 groups = "No significant costs")
  /\ (forall n c rest,
        List.filter (fun g : ServiceGroup => gt (snd g) 0%float) groups = (n, c) :: rest ->
        startswith (n +:+ " ($" +:+ fmt2 c +:+ ")") (service_breakdown fmt2 groups) = true)
  /\ service_breakdown fmt2
       (List.filter (fun g : ServiceGroup => gt (snd g) 0%float) groups)
     = service_breakdown fmt2 groups.
Proof.
  split; [|split].
  - intros Hf. unfold service_breakdown. rewrite Hf. reflexivity.
  - intros n c rest Hf. unfold service_breakdown. rewrite Hf. cbv zeta.
    cbn [map fst snd take]. set (x := n +:+ " ($" +:+ fmt2 c +:+ ")").
    assert (Hx : truthy x = true).
    { unfold x. destruct n; reflexivity. }
    match goal with
    | |- context [join ", " (x :: ?r)] => destruct (join_cons_starts ", " x r) as [tail Htail]
    end.
    rewrite Htail.
    match goal with
    | |- startswith x (if negb (truthy ?b) then _ else _) = true =>
        assert (Hb : exists t, b = x +:+ t)
    end.
    { destruct (Nat.ltb 3 _); [|now exists tail].
      eexists. rewrite append_assoc. reflexivity. }
    destruct Hb as [t Hb]. rewrite Hb.
    rewrite (truthy_append_l _ _ Hx). cbn [negb]. apply startswith_append.
  - unfold service_breakdown. f_equal.
    rewrite (filter_implied _ _ groups (fun x H => H)). reflexivity.
Qed.

(** X5, witness: Amazon S3 at 12.34 next to a Tax line of zero. *)
Lemma service_breakdown_label_witness :
  startswith "Amazon S3 ($9.99)"
    (service_breakdown (fun _ => "9.99") [("Amazon S3", 12.34%float); ("Tax", 0%float)])
  = true.
Proof.
  exact (proj1 (proj2 (service_breakdown_label (fun _ => "9.99")
                         [("Amazon S3", 12.34%float); ("Tax", 0%float)]))
           "Amazon S3" 12.34%float [] eq_refl).
Defined.

(** X6: with [AWSCostAdapter] as the cost data port, the exit code of
    [CLIAdapter.run] for [analyze] is 0 exactly when [get_date_range]
    returns and no service is above the threshold. As soon as one service is
    above it, the loop that prints the result reads [service['service']] on
    a dict keyed [name], the [KeyError] is caught and the exit code is 1. An
    upstream failure becomes an empty list in the adapter, so that run
    reports no service and exits with 0. *)
Theorem cli_adapter_analyze_exit_code
    (generate_cost_report : Z -> option string -> Exn + string)
    (webbrowser_open : string -> option Exn)
    (w : AdapterWorld) (fmt2 : float -> string) (date_range : Z -> option Exn)
    (threshold : float) (days : Z) :
  run generate_cost_report webbrowser_open (mkAdapterPort w fmt2 date_range)
    (Analyze threshold days)
  = match date_range days with
    | Some _ => 1%Z
    | None =>
        match List.filter (fun s => gt (a_cost s) threshold)
                (adapter_get_service_costs w days) with
        | [] => 0%Z
        | _ :: _ => 1%Z
        end
    end
  /\ (date_range days = None ->
      (exists e, monthly_by_service w days = inl e) ->
      run generate_cost_report webbrowser_open (mkAdapterPort w fmt2 date_range)
        (Analyze threshold days) = 0%Z)
  /\ (forall s, In s (adapter_get_service_costs w days) ->
                gt (a_cost s) threshold = true ->
      run generate_cost_report webbrowser_open (mkAdapterPort w fmt2 date_range)
        (Analyze threshold days) = 1%Z).
Proof.
  assert (Hrun :
    run generate_cost_report webbrowser_open (mkAdapterPort w fmt2 date_range)
      (Analyze threshold days)
    = match date_range days with
      | Some _ => 1%Z
      | None =>
          match List.filter (fun s => gt (a_cost s) threshold)
                  (adapter_get_service_costs w days) with
          | [] => 0%Z
          | _ :: _ => 1%Z
          end
      end).
  { rewrite run_analyze. unfold analyze_costs.
    cbn [get_service_costs AdapterPort_port port_world port_date_range entry_cost].
    destruct (date_range days); [reflexivity|]. cbn [bind].
    destruct (List.filter _ _) as [|s l]; reflexivity. }
  split; [exact Hrun|]. split.
  - intros Hd He. rewrite Hrun, Hd.
    rewrite adapter_get_service_costs_error by (left; exact He). reflexivity.
  - intros s Hin Hs. rewrite Hrun.
    assert (Hf : In s (List.filter (fun s => gt (a_cost s) threshold)
                         (adapter_get_service_costs w days)))
      by (apply filter_In; split; assumption).
    destruct (date_range days); [reflexivity|].
    destruct (List.filter _ _); [destruct Hf | reflexivity].
Qed.

(** X6, witness: one service at 12.34 against a threshold of 10 gives exit
    code 1; every Cost Explorer call refused gives exit code 0. *)
Lemma cli_adapter_analyze_exit_code_witness :
  run (fun _ _ => inl access_denied) (fun _ => None)
    (mkAdapterPort Examples.billed_world (fun _ => "0.00") (fun _ => None))
    (Analyze 10%float 30) = 1%Z
  /\ run (fun _ _ => inl access_denied) (fun _ => None)
       (mkAdapterPort failing_adapter_world (fun _ => "0.00") (fun _ => None))
       (Analyze 10%float 30) = 0%Z.
Proof.
  split.
  - refine (proj2 (proj2 (cli_adapter_analyze_exit_code _ _ Examples.billed_world _ _
                             10%float 30))
              Examples.storage_entry _ eq_refl).
    left. reflexivity.
  - refine (proj1 (proj2 (cli_adapter_analyze_exit_code _ _ failing_adapter_world _ _
                             10%float 30)) eq_refl _).
    exists access_denied. reflexivity.
Defined.
End CostExtras.

(** ** The loops of [AWSCostAdapter.get_service_costs] *)

Section AdapterLoopFacts.
Import Py PyText Cost AdapterLoops.
Variable get_service_details : string -> string.
Variable console_url_of : string -> string.

Lemma clean_service_name_prefixed (service_name : string) :
  startswith "Amazon " (clean_service_name service_name)
  || startswith "AWS " (clean_service_name service_name) = true.
Proof.
  unfold clean_service_name.
  destruct (startswith "Amazon " service_name || startswith "AWS " service_name) eqn:E;
    [exact E|].
  destruct (str_in "Skill Builder" service_name); [reflexivity|].
  rewrite (startswith_append "AWS " service_name). apply orb_true_r.
Qed.

Lemma status_of_consistent (service_name : string) :
  (snd (status_of service_name) = Some "2025-04-21"
   <-> fst (status_of service_name) = "Cancelled")
  /\ In (fst (status_of service_name)) ["Cancelled"; "Pay-As-You-Go"; "Required"; "Active"].
Proof.
  unfold status_of.
  repeat match goal with |- context [if ?b then _ else _] => destruct b end;
    cbn [fst snd]; (split; [split; intros H; first [reflexivity | discriminate H] |]);
    cbn [In]; tauto.
Qed.

Lemma service_loop_invariant (groups : list ServiceGroup) (st : LoopState) :
  Forall (service_entry_ok get_service_details console_url_of) (services st) ->
  service_set st = map name (services st) ->
  Forall (service_entry_ok get_service_details console_url_of)
    (services (fold_left (service_step get_service_details console_url_of) groups st))
  /\ service_set (fold_left (service_step get_service_details console_url_of) groups st)
     = map name (services (fold_left (service_step get_service_details console_url_of)
                             groups st)).
Proof.
  revert st. induction groups as [|[n c] groups IH]; intros st Hok Hset; simpl;
    [now split|].
  apply IH; unfold service_step; cbn [fst snd];
    destruct (PrimFloat.leb c 0%float) eqn:E; try assumption; cbn [services service_set].
  - apply Forall_app. split; [exact Hok|]. constructor; [|constructor].
    unfold service_entry_ok. cbn [name a_cost a_status cancelled_on a_details console_url].
    split; [apply clean_service_name_prefixed|]. split; [exact E|].
    destruct (status_of_consistent n) as [H1 H2]. repeat split; try assumption;
      apply H1.
  - rewrite List.map_app, Hset. reflexivity.
Qed.


Lemma record_loop_error (groups : list ServiceGroup) (e : Exn) :
  fold_left (record_step console_url_of) groups (inl e) = inl e.
Proof. induction groups as [|g groups IH]; simpl; [reflexivity | exact IH]. Qed.

Lemma record_step_unfold (st : LoopState) (group : ServiceGroup) :
  record_step console_url_of (inr st) group =
    if PrimFloat.leb (snd group) 0%float then inr st
    else if existsb (fun term => str_in term (fst group)) cost_explorer_terms then
      if str_mem "AWS Cost Explorer" (service_set st) then inr st
      else
        match last_clean_name st with
        | None => inl (OtherError "NameError")
        | Some clean =>
            inr {| services :=
                     (services st ++
                        [ {| name := "AWS Cost Explorer";
                             a_cost := snd group;
                             a_details := "API requests and analysis";
                             a_status := if str_mem clean tax_names then "Required"
                                         else "Active";
                             cancelled_on := None;
                             console_url := console_url_of "AWS Cost Explorer" |} ])%list;
                   service_set := (service_set st ++ ["AWS Cost Explorer"])%list;
                   last_clean_name := last_clean_name st |}
        end
    else inr st.
Proof. reflexivity. Qed.

(** The record-type loop appends at most one entry, named AWS Cost
    Explorer, and none when that name is in the set already. *)
Lemma record_loop_adds (groups : list ServiceGroup) (st st' : LoopState) :
  fold_left (record_step console_url_of) groups (inr st) = inr st' ->
  exists extra,
    services st' = (services st ++ extra)%list
    /\ (length extra <= 1)%nat
    /\ Forall (fun e => name e = "AWS Cost Explorer" /\ cancelled_on e = None) extra
    /\ (str_mem "AWS Cost Explorer" (service_set st) = true -> extra = []).
Proof.
  revert st. induction groups as [|[rt c] groups IH]; intros st; cbn [fold_left].
  - intros [= <-]. exists []. rewrite app_nil_r. repeat split; auto.
  - rewrite record_step_unfold. cbn [fst snd].
    destruct (PrimFloat.leb c 0%float); [exact (IH st)|].
    destruct (existsb (fun term => str_in term rt) cost_explorer_terms); [|exact (IH st)].
    destruct (str_mem "AWS Cost Explorer" (service_set st)) eqn:Hmem.
    { intros Hrun. destruct (IH st Hrun) as (extra & H1 & H2 & H3 & H4).
      exists extra. repeat split; auto. }
    destruct (last_clean_name st) as [clean|]; [|rewrite record_loop_error; discriminate].
    intros Hrun. destruct (IH _ Hrun) as (extra & Hs & Hlen & Hall & Hnone).
    cbn [services service_set] in *.
    assert (Hin : str_mem "AWS Cost Explorer" (service_set st ++ ["AWS Cost Explorer"])%list
                  = true).
    { unfold str_mem. rewrite existsb_app. cbn. now rewrite orb_true_r. }
    rewrite (Hnone Hin), app_nil_r in Hs.
    eexists. split; [exact Hs|]. split; [cbn; lia|]. split; [|discriminate].
    constructor; [|constructor]. split; reflexivity.
Qed.
Lemma service_loop_costs (groups : list ServiceGroup) (st : LoopState) :
  map a_cost (services (fold_left (service_step get_service_details console_url_of)
                          groups st))
  = (map a_cost (services st)
       ++ List.filter (fun c => negb (PrimFloat.leb c 0%float)) (map snd groups))%list.
Proof.
  revert st. induction groups as [|[n c] groups IH]; intros st; cbn [fold_left map List.filter].
  - now rewrite app_nil_r.
  - rewrite IH. unfold service_step. cbn [fst snd].
    destruct (PrimFloat.leb c 0%float); cbn [negb services]; [reflexivity|].
    rewrite List.map_app. cbn [map a_cost]. now rewrite <- app_assoc.
Qed.

(** Off NaN, what [cost <= 0] does not reject is above zero. *)
Lemma not_leb_gt_zero (c : float) :
  Notions.not_nan c -> PrimFloat.leb c 0%float = false -> gt c 0%float = true.
Proof.
  intros Hc Hle. unfold gt. destruct (PrimFloat.ltb 0%float c) eqn:E; [reflexivity|].
  rewrite (not_ltb_leb 0%float c eq_refl Hc E) in Hle. discriminate Hle.
Qed.
End AdapterLoopFacts.

Section AdapterLoopExtras.
Import Py PyText Cost AdapterLoops Examples.

(** X7: the service loop of [get_service_costs] appends one entry for
    each group that its test [cost <= 0] does not reject, in order and with
    the cost of the group; each entry has a display name that starts with
    [Amazon ] or [AWS ], a cancellation date exactly when its status is
    [Cancelled], one of the four statuses, and details and console URL looked
    up under the display name; [service_set] holds exactly the display names
    appended. A group whose cost is NaN passes the test and is appended;
    when no amount is NaN, every appended cost is above zero. *)
Theorem service_loop_entries_normalized (get_service_details console_url_of : string -> string)
    (groups : list ServiceGroup) :
  Forall (service_entry_ok get_service_details console_url_of)
    (services (service_loop get_service_details console_url_of groups))
  /\ service_set (service_loop get_service_details console_url_of groups)
     = map name (services (service_loop get_service_details console_url_of groups))
  /\ map a_cost (services (service_loop get_service_details console_url_of groups))
     = List.filter (fun c => negb (PrimFloat.leb c 0%float)) (map snd groups)
  /\ (Forall (fun g : ServiceGroup => Notions.not_nan (snd g)) groups ->
      Forall (fun e => gt (a_cost e) 0%float = true)
        (services (service_loop get_service_details console_url_of groups))).
Proof.
  pose proof (service_loop_invariant get_service_details console_url_of groups loop_init
                (List.Forall_nil _) eq_refl) as [Hok Hset].
  pose proof (service_loop_costs get_service_details console_url_of groups loop_init)
    as Hcosts.
  fold (service_loop get_service_details console_url_of groups) in Hok, Hset, Hcosts.
  cbn [loop_init services map app] in Hcosts.
  split; [exact Hok|]. split; [exact Hset|]. split; [exact Hcosts|].
  intros Hnan.
  assert (Hall : Forall (fun c => gt c 0%float = true)
                   (map a_cost (services (service_loop get_service_details console_url_of
                                            groups)))).
  { rewrite Hcosts. apply List.Forall_forall. intros c Hc.
    apply filter_In in Hc as [Hin Hc]. apply negb_true_iff in Hc.
    apply in_map_iff in Hin as (g & <- & Hg).
    apply not_leb_gt_zero; [|exact Hc].
    exact (proj1 (List.Forall_forall _ _) Hnan g Hg). }
  apply List.Forall_forall. intros e He.
  apply (proj1 (List.Forall_forall _ _) Hall). now apply in_map.
Qed.

(** X7, witness: Cost Explorer at 12.15 and a Tax line at 3.82. *)
Lemma service_loop_entries_normalized_witness :
  Forall (fun e => gt (a_cost e) 0%float = true)
    (services (service_loop (fun _ => "Usage charges") (fun _ => "#") explorer_groups)).
Proof.
  apply (proj2 (proj2 (proj2 (service_loop_entries_normalized (fun _ => "Usage charges")
                                (fun _ => "#") explorer_groups)))).
  repeat constructor.
Defined.



(** X9: when the record-type loop completes, it has appended at most one
    entry, named [AWS Cost Explorer] and without cancellation date, behind
    the entries of the service loop; it appends none when the service loop
    already produced an entry of that name. *)
Theorem record_loop_adds_cost_explorer_once
    (get_service_details console_url_of : string -> string)
    (by_service by_record : list ServiceGroup) (st : LoopState) :
  record_loop console_url_of (service_loop get_service_details console_url_of by_service)
    by_record = inr st ->
  exists extra,
    services st
      = (services (service_loop get_service_details console_url_of by_service) ++ extra)%list
    /\ (length extra <= 1)%nat
    /\ Forall (fun e => name e = "AWS Cost Explorer" /\ cancelled_on e = None) extra
    /\ (In "AWS Cost Explorer"
          (map name (services (service_loop get_service_details console_url_of by_service)))
        -> extra = []).
Proof.
  intros Hrun. destruct (record_loop_adds console_url_of _ _ _ Hrun)
    as (extra & Hs & Hlen & Hall & Hnone).
  exists extra. repeat split; try assumption.
  intros Hin. apply Hnone.
  pose proof (proj2 (service_loop_invariant get_service_details console_url_of by_service
                       loop_init (List.Forall_nil _) eq_refl)) as Hset.
  fold (service_loop get_service_details console_url_of by_service) in Hset.
  rewrite Hset. unfold str_mem. apply existsb_exists. exists "AWS Cost Explorer".
  split; [exact Hin | apply String.eqb_refl].
Qed.

(** X9, witness: Cost Explorer is billed as a service and as a record type. *)
Lemma record_loop_adds_cost_explorer_once_witness :
  exists extra : list AdapterEntry,
    services (service_loop (fun _ => "Usage charges") (fun _ => "#") explorer_groups)
      = (services (service_loop (fun _ => "Usage charges") (fun _ => "#") explorer_groups)
           ++ extra)%list
    /\ (length extra <= 1)%nat
    /\ Forall (fun e => name e = "AWS Cost Explorer" /\ cancelled_on e = None) extra
    /\ (In "AWS Cost Explorer"
          (map name (services (service_loop (fun _ => "Usage charges") (fun _ => "#")
                                 explorer_groups)))
        -> extra = []).
Proof.
  exact (record_loop_adds_cost_explorer_once (fun _ => "Usage charges") (fun _ => "#")
           explorer_groups billing_record_groups _ eq_refl).
Defined.
End AdapterLoopExtras.

(** ** Resource scanner *)

Section TextFacts.
Import Py PyText.

Lemma has_char_append (c : ascii) (a b : string) :
  has_char c (a +:+ b) = has_char c a || has_char c b.
Proof.
  induction a as [|x a IH]; [reflexivity|].
  rewrite append_cons. simpl. rewrite IH. apply orb_assoc.
Qed.

Lemma startswith_has_char (c : ascii) (old s : string) :
  startswith old s = true -> has_char c old = true -> has_char c s = true.
Proof.
  revert s. induction old as [|x old IH]; intros s Hs Hc; [discriminate Hc|].
  destruct s as [|y s]; simpl in Hs; [discriminate Hs|].
  apply andb_true_iff in Hs as [Hxy Hs]. apply Ascii.eqb_eq in Hxy. subst y.
  simpl in *. apply orb_true_iff in Hc as [Hc|Hc].
  - rewrite Hc. reflexivity.
  - rewrite (IH _ Hs Hc). apply orb_true_r.
Qed.

(** Replacing a pattern that holds a character the text lacks changes
    nothing. *)
Lemma replace_absent (c : ascii) (old new s : string) :
  has_char c old = true -> has_char c s = false -> replace old new s = s.
Proof.
  intros Hold. unfold replace. induction s as [|x s IH]; intros Hs; [reflexivity|].
  cbn [replace_from].
  destruct (startswith old (String x s)) eqn:E.
  - rewrite (startswith_has_char c _ _ E Hold) in Hs. discriminate Hs.
  - simpl in Hs. apply orb_false_iff in Hs as [_ Hs]. now rewrite (IH Hs).
Qed.

(** After [replace(c, new)] the character [c] is gone, when [new] lacks it. *)
Lemma replace_char_gone (c : ascii) (new s : string) :
  has_char c new = false ->
  has_char c (replace (String c EmptyString) new s) = false.
Proof.
  intros Hnew. unfold replace. induction s as [|x s IH]; [reflexivity|].
  cbn [replace_from startswith String.length Nat.sub].
  destruct (Ascii.eqb c x) eqn:E; cbn [andb].
  - rewrite has_char_append, Hnew, IH. reflexivity.
  - simpl. rewrite IH. rewrite Ascii.eqb_sym, E. reflexivity.
Qed.

Lemma str_mem_In (x : string) (l : list string) : str_mem x l = true <-> In x l.
Proof.
  unfold str_mem. rewrite existsb_exists. split.
  - intros (y & Hy & E). apply String.eqb_eq in E. now subst.
  - intros H. exists x. split; [exact H | apply String.eqb_refl].
Qed.

Lemma dict_get_set_eq {V : Type} (k : string) (v : V) (d : list (string * V)) :
  dict_get k (dict_set k v d) = Some v.
Proof.
  induction d as [|[k' v'] d IH]; simpl.
  - now rewrite String.eqb_refl.
  - destruct (String.eqb k' k) eqn:E; simpl.
    + now rewrite String.eqb_refl.
    + now rewrite E.
Qed.

Lemma dict_get_set_ne {V : Type} (k k' : string) (v : V) (d : list (string * V)) :
  k <> k' -> dict_get k' (dict_set k v d) = dict_get k' d.
Proof.
  intros Hne. induction d as [|[k0 v0] d IH]; simpl.
  - destruct (String.eqb k k') eqn:E; [apply String.eqb_eq in E; contradiction | reflexivity].
  - destruct (String.eqb k0 k) eqn:E; simpl.
    + apply String.eqb_eq in E. subst k0.
      destruct (String.eqb k k') eqn:E'; [apply String.eqb_eq in E'; contradiction|].
      reflexivity.
    + destruct (String.eqb k0 k'); [reflexivity | exact IH].
Qed.
End TextFacts.

Section ScannerFacts.
Import Py PyText Cancellation Scanner Notions.

Lemma add_missing_In (x : string) (extra active : list string) :
  In x (add_missing active extra) <-> In x active \/ In x extra.
Proof.
  unfold add_missing. revert active.
  induction extra as [|r extra IH]; intros active; cbn [fold_left].
  - simpl. tauto.
  - rewrite IH. destruct (str_mem r active) eqn:E.
    + apply str_mem_In in E. simpl. split; [tauto|].
      intros [H|[H|H]]; subst; tauto.
    + rewrite in_app_iff. simpl. tauto.
Qed.

Lemma add_missing_prefix (extra active : list string) :
  exists tail, add_missing active extra = (active ++ tail)%list.
Proof.
  unfold add_missing. revert active.
  induction extra as [|r extra IH]; intros active; cbn [fold_left].
  - exists []. now rewrite app_nil_r.
  - destruct (str_mem r active).
    + apply IH.
    + destruct (IH (active ++ [r])%list) as [tail ->].
      exists (r :: tail). now rewrite <- app_assoc.
Qed.

Lemma regions_with_cost_In (x : string) (groups : list (string * float)) :
  In x (regions_with_cost groups) <->
  x <> "global" /\ exists c, In (x, c) groups /\ gt c 0.01%float = true.
Proof.
  unfold regions_with_cost. rewrite in_map_iff. split.
  - intros ([r c] & <- & Hin). apply filter_In in Hin as [Hin Hc].
    apply andb_true_iff in Hc as [Hc Hg]. simpl in *.
    split.
    + intros ->. discriminate Hg.
    + exists c. split; assumption.
  - intros (Hne & c & Hin & Hc). exists (x, c). split; [reflexivity|].
    apply filter_In. split; [exact Hin|]. simpl. rewrite Hc. simpl.
    destruct (String.eqb x "global") eqn:E; [apply String.eqb_eq in E; contradiction | reflexivity].
Qed.

Lemma billing_region_code_idempotent (region : string) :
  billing_region_code (billing_region_code region) = billing_region_code region.
Proof.
  unfold billing_region_code at 2 3.
  destruct (dict_get region billing_region_map) as [code|] eqn:E.
  - apply (dict_get_value (fun v => billing_region_code v = v) _ _ _ E).
    repeat constructor.
  - unfold billing_region_code. now rewrite E.
Qed.
End ScannerFacts.

Section ScannerExtras.
Import Py PyText Cancellation Scanner Notions.

(** X10: for a service of the fallback table, [get_console_url] returns the
    table's URL whatever the Nova Act flag, the resource id and the region
    are: the resource id and the region never reach the URL of a listed
    service. *)
Theorem console_url_listed_service (lower : string -> string) (nova : bool)
    (service_name : string) (resource_id : option string) (region url : string) :
  dict_get service_name fallback_console_urls = Some url ->
  get_console_url lower nova service_name resource_id region = url.
Proof.
  intros H. unfold get_console_url, get_url_via_nova_act. rewrite H.
  destruct nova; cbn [andb]; [destruct (truthy url)|]; reflexivity.
Qed.

(** X10, witness: Amazon S3 with a bucket name in eu-west-1. *)
Lemma console_url_listed_service_witness :
  get_console_url ascii_lower true "Amazon S3" (Some "my-bucket") "eu-west-1"
  = "https://s3.console.aws.amazon.com/s3".
Proof.
  apply (console_url_listed_service ascii_lower true "Amazon S3" (Some "my-bucket")
           "eu-west-1" "https://s3.console.aws.amazon.com/s3").
  reflexivity.
Defined.

(** X11: for a service in neither table, [get_console_url] returns the
    generic URL built from the lower-cased name with its spaces turned into
    dashes. The Nova Act path gives the same console section (its removal of
    the prefixes [amazon ] and [aws ] comes after the spaces are gone, so it
    removes nothing) and differs only by appending [#/resource/<id>] when a
    resource id is given. *)
Theorem console_url_unlisted_service (lower : string -> string) (nova : bool)
    (service_name : string) (resource_id : option string) (region : string) :
  dict_get service_name fallback_console_urls = None ->
  dict_get service_name service_to_console_map = None ->
  get_console_url lower nova service_name resource_id region =
    let generic := "https://console.aws.amazon.com/"
                     +:+ replace " " "-" (lower service_name)
                     +:+ "/home?region=" +:+ region in
    if nova && truthy_opt resource_id
    then generic +:+ "#/resource/" +:+ str_or_empty resource_id
    else generic.
Proof.
  intros Hf Hm. unfold get_console_url, get_url_via_nova_act. rewrite Hf, Hm.
  cbv zeta.
  assert (Hgone : has_char " " (replace " " "-" (lower service_name)) = false)
    by (apply replace_char_gone; reflexivity).
  rewrite (replace_absent " " "amazon " EmptyString _ eq_refl Hgone).
  rewrite (replace_absent " " "aws " EmptyString _ eq_refl Hgone).
  destruct nova; cbn [andb]; [|reflexivity].
  destruct (truthy_opt resource_id); rewrite !append_cons; reflexivity.
Qed.

(** X11, witness: Amazon DynamoDB, with and without Nova Act. *)
Lemma console_url_unlisted_service_witness :
  get_console_url ascii_lower true "Amazon DynamoDB" (Some "orders") "us-west-2"
    = "https://console.aws.amazon.com/amazon-dynamodb/home?region=us-west-2#/resource/orders"
  /\ get_console_url ascii_lower false "Amazon DynamoDB" (Some "orders") "us-west-2"
    = "https://console.aws.amazon.com/amazon-dynamodb/home?region=us-west-2".
Proof.
  split.
  - apply (console_url_unlisted_service ascii_lower true "Amazon DynamoDB" (Some "orders")
             "us-west-2"); reflexivity.
  - apply (console_url_unlisted_service ascii_lower false "Amazon DynamoDB" (Some "orders")
             "us-west-2"); reflexivity.
Defined.

(** X12: [get_active_regions] always holds the seven common regions and
    never [global]; on a response it starts with the regions whose cost is
    above 0.01, in response order, and holds nothing besides these and the
    common regions; on an error it is the common regions. *)
Theorem active_regions_contents (response : Exn + list (string * float)) :
  let active := get_active_regions response in
  (forall region, In region common_regions -> In region active)
  /\ ~ In "global" active
  /\ (forall groups, response = inr groups ->
        (exists tail, active = (regions_with_cost groups ++ tail)%list)
        /\ forall region, In region active <->
             In region common_regions \/
             (region <> "global" /\
              exists c, In (region, c) groups /\ gt c 0.01%float = true))
  /\ (forall e, response = inl e -> active = common_regions).
Proof.
  cbv zeta. assert (Hglobal : ~ In "global" common_regions).
  { unfold common_regions. simpl. intros H.
    repeat (destruct H as [H|H]; [discriminate H|]). exact H. }
  destruct response as [e|groups]; cbn [get_active_regions].
  - repeat split; auto; intros; discriminate.
  - split; [|split; [|split]].
    + intros region Hr. apply add_missing_In. now right.
    + rewrite add_missing_In, regions_with_cost_In. intros [[Hne _]|H]; [now apply Hne | auto].
    + intros groups' [= <-]. split; [apply add_missing_prefix|].
      intros region. rewrite add_missing_In, regions_with_cost_In. tauto.
    + intros e [=].
Qed.

(** X12, witness: a response with a region outside the common ones, a
    common one, a global line and a region below the threshold. *)
Lemma active_regions_contents_witness :
  let groups := [ ("sa-east-1", 2.5%float); ("global", 9.0%float);
                  ("us-west-2", 1.0%float); ("ap-south-1", 0.001%float) ] in
  (exists tail, get_active_regions (inr groups) = ("sa-east-1" :: "us-west-2" :: tail)%list)
  /\ get_active_regions (inl (OtherError "timeout")) = common_regions.
Proof.
  cbv zeta. split.
  - refine (proj1 (proj1 (proj2 (proj2 (active_regions_contents (inr _)))) _ eq_refl)).
  - refine (proj2 (proj2 (proj2 (active_regions_contents (inl _)))) _ eq_refl).
Defined.

(** X13: every entry [scan_for_hidden_opensearch_resources] returns has a
    cost above 0.01, a region that the billing-name table leaves as it is (a
    region code, or a name the table does not know), and the console URL of
    the OpenSearch domains of that region; there are no more entries than
    groups, and a failing query gives the empty list. *)
Theorem hidden_resources_entries (response : Exn + list (string * float))
    (found : list HiddenRegion) :
  scan_for_hidden_opensearch_resources None response = inr found ->
  Forall (fun h =>
            gt (hidden_cost h) 0.01%float = true
            /\ billing_region_code (hidden_region h) = hidden_region h
            /\ hidden_console_url h =
                 "https://console.aws.amazon.com/opensearch/home?region="
                   +:+ hidden_region h +:+ "#/domains") found
  /\ match response with
     | inl _ => found = []
     | inr groups => length found <= length groups
     end.
Proof.
  unfold scan_for_hidden_opensearch_resources. intros [= <-].
  destruct response as [e|groups]; [split; [constructor | reflexivity]|].
  unfold hidden_regions. split.
  - apply List.Forall_forall. intros h Hin. apply in_map_iff in Hin as ([r c] & <- & Hin).
    apply filter_In in Hin as [_ Hc]. cbn [hidden_cost hidden_region hidden_console_url fst snd] in *.
    split; [|split].
    + exact Hc.
    + apply billing_region_code_idempotent.
    + unfold Resolver.generate_direct_console_url. cbv zeta.
      change (dict_get "opensearch" Resolver.resource_paths) with (Some "opensearch/home").
      change (truthy "domains" && negb (String.eqb "domains" "*")) with true. cbv iota.
      rewrite !append_assoc. reflexivity.
  - rewrite length_map. apply filter_length_le.
Qed.

(** X13, witness: two charged regions, one under its billing name, and one
    below the threshold. *)
Lemma hidden_resources_entries_witness :
  let groups := [ ("EU (Ireland)", 4.2%float); ("us-east-2", 0.002%float);
                  ("af-south-1", 0.5%float) ] in
  exists found,
    scan_for_hidden_opensearch_resources None (inr groups) = inr found
    /\ map hidden_region found = ["eu-west-1"; "af-south-1"]
    /\ Forall (fun h => gt (hidden_cost h) 0.01%float = true) found.
Proof.
  cbv zeta. eexists. split; [reflexivity|]. split; [reflexivity|].
  refine (List.Forall_impl _ _ (proj1 (hidden_resources_entries (inr _) _ eq_refl))).
  intros h H. exact (proj1 H).
Defined.
End ScannerExtras.

Section RegionalScanFacts.
Import Py PyText Cancellation Scanner Notions.
Variable aws : Aws.

Lemma describe_domains_spec (region : string) (infos : list PyVal) (log : list Request) :
  exists res extra,
    describe_domains aws region "opensearch" infos log = (res, (log ++ extra)%list)
    /\ Forall (fun r => req_region r = region /\ req_operation r = "describe_domain") extra
    /\ (Forall names_domain infos ->
        exists found, res = inr found /\ Forall2 (described aws region) infos found).
Proof.
  revert log. induction infos as [|info infos IH]; intros log.
  - exists (inr []), []. rewrite app_nil_r. split; [reflexivity|]. split; [constructor|].
    intros _. exists []. split; [reflexivity | constructor].
  - destruct info as [| b | s | l | d]; cbn [describe_domains];
      try (exists (inl (OtherError "TypeError")), []; rewrite app_nil_r;
           split; [reflexivity|]; split; [constructor|];
           intros H; inversion H as [|? ? (d' & n' & Hd & _) _]; discriminate Hd).
    unfold bind at 1. unfold item.
    destruct (dict_get "DomainName" d) as [name|] eqn:Hname.
    + unfold ret at 1. unfold bind at 1. unfold try_all, bind at 1, call.
      set (req := mkRequest region "opensearch" "describe_domain" [("DomainName", name)]).
      destruct (IH (log ++ [req])%list) as (res & extra & E & Hlog & Hres).
      assert (Hfound : forall entry,
                 entry = match respond aws req with
                         | inr details =>
                             match dict_get "DomainStatus" details with
                             | Some st => st
                             | None => VDict [("DomainName", name)]
                             end
                         | inl _ => VDict [("DomainName", name)]
                         end ->
                 exists res' ,
                   bind (describe_domains aws region "opensearch" infos)
                     (fun more => ret (entry :: more)) (log ++ [req])%list
                   = (res', (log ++ req :: extra)%list)
                   /\ (Forall names_domain (VDict d :: infos) ->
                       exists found, res' = inr found /\
                         Forall2 (described aws region) (VDict d :: infos) found)).
      { intros entry He. unfold bind, ret. rewrite E.
        rewrite <- app_assoc. cbn [app].
        destruct res as [e|more].
        - exists (inl e). split; [reflexivity|].
          intros H. inversion H as [|? ? _ Hrest]; subst.
          destruct (Hres Hrest) as (found & Hf & _). discriminate Hf.
        - exists (inr (entry :: more)). split; [reflexivity|].
          intros H. inversion H as [|? ? _ Hrest]; subst.
          destruct (Hres Hrest) as (found & [= <-] & Hall).
          eexists. split; [reflexivity|]. constructor; [|exact Hall].
          exists d, name. split; [reflexivity | split; [exact Hname | reflexivity]]. }
      assert (Hextra : Forall (fun r => req_region r = region
                                        /\ req_operation r = "describe_domain") (req :: extra))
        by (constructor; [split; reflexivity | exact Hlog]).
      destruct (respond aws req) as [e|details] eqn:Hresp.
      * unfold ret at 1.
        destruct (Hfound _ eq_refl) as (res' & E' & H').
        exists res', (req :: extra). split; [exact E' | split; [exact Hextra | exact H']].
      * destruct (dict_get "DomainStatus" details) as [st|] eqn:Hst.
        -- unfold ret at 1.
           destruct (Hfound _ eq_refl) as (res' & E' & H').
           exists res', (req :: extra). split; [exact E' | split; [exact Hextra | exact H']].
        -- unfold raise at 1. unfold ret at 1.
           destruct (Hfound _ eq_refl) as (res' & E' & H').
           exists res', (req :: extra). split; [exact E' | split; [exact Hextra | exact H']].
    + unfold raise. exists (inl (KeyError "DomainName")), []. rewrite app_nil_r.
      split; [reflexivity|]. split; [constructor|].
      intros H. inversion H as [|? ? (d' & n' & Hd & Hn) _].
      injection Hd as <-. congruence.
Qed.

Lemma dict_get_set {V : Type} (k k' : string) (v : V) (d : list (string * V)) :
  dict_get k' (dict_set k v d) = if String.eqb k' k then Some v else dict_get k' d.
Proof.
  destruct (String.eqb k' k) eqn:E.
  - apply String.eqb_eq in E. subst k'. apply dict_get_set_eq.
  - apply dict_get_set_ne. intros ->. rewrite String.eqb_refl in E. discriminate E.
Qed.

Lemma annotate_one (region : string) (d : Dict) :
  annotates region (VDict d)
    (VDict (dict_set "DeleteUrl"
              (VStr (Resolver.generate_direct_console_url region "opensearch-serverless"
                       "collections"))
              (dict_set "Region" (VStr region) d))).
Proof.
  eexists. eexists. split; [reflexivity|]. split; [reflexivity|].
  intros k. rewrite !dict_get_set.
  destruct (String.eqb k "DeleteUrl"); reflexivity.
Qed.

Lemma annotates_annotated (region : string) (c c' : PyVal) :
  annotates region c c' -> annotated region c'.
Proof.
  intros (d & d' & _ & -> & H). exists d'. split; [reflexivity|].
  split; [exact (H "Region") | exact (H "DeleteUrl")].
Qed.

Lemma annotate_collections_each (region : string) (collections : list PyVal) :
  Forall (fun c' => exists c, In c collections /\ annotates region c c')
    (annotate_collections region collections).
Proof.
  induction collections as [|c collections IH]; [constructor|].
  destruct c; cbn [annotate_collections]; try constructor.
  - eexists. split; [left; reflexivity | apply annotate_one].
  - eapply List.Forall_impl; [|exact IH].
    intros c' (c & Hin & Hc). exists c. split; [now right | exact Hc].
Qed.

Lemma annotate_collections_all (region : string) (collections : list PyVal) :
  Forall (fun c => exists d, c = VDict d) collections ->
  Forall2 (annotates region) collections (annotate_collections region collections).
Proof.
  induction 1 as [|c collections (d & ->) _ IH]; [constructor|].
  cbn [annotate_collections]. constructor; [apply annotate_one | exact IH].
Qed.

Lemma region_collections_spec (region : string) (log : list Request) :
  exists here extra,
    region_collections aws region log = (inr here, (log ++ extra)%list)
    /\ Forall (fun r => req_region r = region /\ req_operation r = "list_collections") extra
    /\ Forall (listed_in aws region) here
    /\ (forall resp collections,
          new_client aws "opensearchserverless" region = None ->
          respond aws (mkRequest region "opensearchserverless" "list_collections" [])
            = inr resp ->
          dict_get "collectionSummaries" resp = Some (VList collections) ->
          here = annotate_collections region collections).
Proof.
  unfold region_collections, try_all, bind, client, call, ret, get.
  destruct (new_client aws "opensearchserverless" region) as [e|] eqn:Hc.
  - exists [], []. rewrite app_nil_r. split; [reflexivity|].
    split; [constructor|]. split; [constructor|]. intros ? ? [=].
  - set (req := mkRequest region "opensearchserverless" "list_collections" []).
    assert (Hreq : Forall (fun r => req_region r = region
                                    /\ req_operation r = "list_collections") [req])
      by (constructor; [split; reflexivity | constructor]).
    destruct (respond aws req) as [e|resp] eqn:Hr.
    + exists [], [req]. split; [reflexivity|]. split; [exact Hreq|].
      split; [constructor|]. intros ? ? _ [=].
    + destruct (dict_get "collectionSummaries" resp) as [v|] eqn:Hv.
      * destruct v as [| b | t | l | d];
          try (exists [], [req]; split; [reflexivity|]; split; [exact Hreq|];
               split; [constructor|]; intros ? ? _ [= <-]; congruence).
        exists (annotate_collections region l), [req]. split; [reflexivity|].
        split; [exact Hreq|]. split.
        -- eapply List.Forall_impl; [|apply annotate_collections_each].
           intros c' (c & Hin & Hc'). split; [exact Hc|].
           exists resp, l, c. split; [exact Hr|]. split; [exact Hv|].
           split; [exact Hin | exact Hc'].
        -- intros ? ? _ [= <-] E. rewrite Hv in E. now injection E as <-.
      * exists [], [req]. split; [reflexivity|]. split; [exact Hreq|].
        split; [constructor|]. intros ? ? _ [= <-]; congruence.
Qed.

Lemma scan_regions_spec (regions : list string) (log : list Request) :
  exists found extra,
    scan_regions aws regions log = (inr found, (log ++ extra)%list)
    /\ Forall (fun r => In (req_region r) regions /\ req_operation r = "list_collections") extra
    /\ Forall (fun c => exists region, In region regions /\ listed_in aws region c) found
    /\ (forall region resp collections,
          In region regions ->
          new_client aws "opensearchserverless" region = None ->
          respond aws (mkRequest region "opensearchserverless" "list_collections" [])
            = inr resp ->
          dict_get "collectionSummaries" resp = Some (VList collections) ->
          exists before after,
            found = (before ++ annotate_collections region collections ++ after)%list).
Proof.
  revert log. induction regions as [|region regions IH]; intros log.
  - exists [], []. rewrite app_nil_r. split; [reflexivity|].
    split; [constructor|]. split; [constructor|]. intros ? ? ? [].
  - cbn [scan_regions]. unfold bind at 1.
    destruct (region_collections_spec region log) as (here & e1 & -> & Hl1 & Ha1 & Hh).
    unfold bind at 1.
    destruct (IH (log ++ e1)%list) as (there & e2 & -> & Hl2 & Ha2 & Ht).
    exists (here ++ there)%list, (e1 ++ e2)%list. rewrite app_assoc.
    split; [reflexivity|]. split; [|split].
    + apply Forall_app. split.
      * eapply List.Forall_impl; [|exact Hl1]. intros r [-> Ho]. split; [now left | exact Ho].
      * eapply List.Forall_impl; [|exact Hl2]. intros r [Hin Ho]. split; [now right | exact Ho].
    + apply Forall_app. split.
      * eapply List.Forall_impl; [|exact Ha1]. intros c Hc. exists region. split; [now left | exact Hc].
      * eapply List.Forall_impl; [|exact Ha2]. intros c (r & Hin & Hc). exists r.
        split; [now right | exact Hc].
    + intros r resp collections [<-|Hin] Hc Hr Hv.
      * rewrite <- (Hh _ _ Hc Hr Hv). exists [], there. reflexivity.
      * destruct (Ht r resp collections Hin Hc Hr Hv) as (before & after & ->).
        exists (here ++ before)%list, after. now rewrite <- app_assoc.
Qed.
End RegionalScanFacts.

Section RegionalScanExtras.
Import Py PyText Cancellation Scanner Notions.

(** X14: [_scan_region_for_opensearch] never raises and never sends a
    request outside its region or one that deletes. When the listing is
    answered with well-formed domain names, the result has one entry per
    listed domain, in order: the [DomainStatus] of its description, or the
    basic dict with its name when the description fails, so a failing
    [describe_domain] loses no domain. *)
Theorem scan_region_keeps_every_domain (aws : Aws) (region : string) :
  exists found log,
    scan_region_for_opensearch aws region [] = (inr found, log)
    /\ Forall (fun r => req_region r = region /\ destructive r = false) log
    /\ (forall resp infos,
          new_client aws "opensearch" region = None ->
          respond aws (mkRequest region "opensearch" "list_domain_names" []) = inr resp ->
          dict_get "DomainNames" resp = Some (VList infos) ->
          Forall names_domain infos ->
          Forall2 (described aws region) infos found).
Proof.
  unfold scan_region_for_opensearch, try_all, bind at 1, client.
  destruct (new_client aws "opensearch" region) as [e|] eqn:Hc.
  - exists [], []. split; [reflexivity|]. split; [constructor|]. intros ? ? [=].
  - unfold bind at 1, call. cbn [app]. unfold get, ret.
    set (req := mkRequest region "opensearch" "list_domain_names" []).
    assert (Hreq : req_region req = region /\ destructive req = false) by (split; reflexivity).
    destruct (respond aws req) as [e|resp] eqn:Hr.
    + exists [], [req]. split; [reflexivity|]. split; [repeat constructor|].
      intros ? ? _ [=].
    + destruct (dict_get "DomainNames" resp) as [v|] eqn:Hv.
      * destruct v as [| b | t | infos | d];
          try (exists [], [req]; split; [reflexivity|]; split; [repeat constructor|];
               intros ? ? _ [= <-]; congruence).
        destruct (describe_domains_spec aws region infos [req]) as (res & extra & E & Hl & Hres).
        rewrite E.
        assert (Hlog : Forall (fun r => req_region r = region /\ destructive r = false)
                         ([req] ++ extra)%list).
        { apply Forall_app. split; [repeat constructor|].
          eapply List.Forall_impl; [|exact Hl]. intros r [Hreg Hop]. split; [exact Hreg|].
          unfold destructive. rewrite Hop. reflexivity. }
        destruct res as [e|found].
        -- exists [], ([req] ++ extra)%list. split; [reflexivity|]. split; [exact Hlog|].
           intros ? ? _ [= <-] Hd Hn. rewrite Hv in Hd. injection Hd as <-.
           destruct (Hres Hn) as (f & Hf & _). discriminate Hf.
        -- exists found, ([req] ++ extra)%list. split; [reflexivity|]. split; [exact Hlog|].
           intros ? ? _ [= <-] Hd Hn. rewrite Hv in Hd. injection Hd as <-.
           destruct (Hres Hn) as (f & [= <-] & Hall). exact Hall.
      * exists [], [req]. split; [reflexivity|]. split; [repeat constructor|].
        intros ? ? _ [= <-]; congruence.
Qed.

(** X14, witness: two listed domains, the description of the first one is
    refused; both are kept, the first as the basic dict. *)
Lemma scan_region_keeps_every_domain_witness :
  exists found log,
    scan_region_for_opensearch Examples.patchy_aws "us-west-2" [] = (inr found, log)
    /\ Forall2 (described Examples.patchy_aws "us-west-2")
         [ VDict [("DomainName", VStr "logs")]; VDict [("DomainName", VStr "search")] ]
         found.
Proof.
  destruct (scan_region_keeps_every_domain Examples.patchy_aws "us-west-2")
    as (found & log & E & _ & H).
  exists found, log. split; [exact E|].
  apply (H _ _ eq_refl eq_refl eq_refl).
  repeat constructor; eexists; eexists; split; reflexivity.
Defined.

(** X15: [scan_for_opensearch_serverless] sends only [list_collections]
    requests, to the five serverless regions. Every dict it returns is a
    collection that one of these regions listed, with [Region] and
    [DeleteUrl] set for that region and every other key as listed; and the
    collections a region lists are all returned, together and in the order
    listed, whatever happens in the other regions. *)
Theorem serverless_scan_regions_independent (aws : Aws) :
  let found := fst (scan_for_opensearch_serverless aws) in
  let log := snd (scan_for_opensearch_serverless aws) in
  Forall (fun r => In (req_region r) serverless_regions
                   /\ req_operation r = "list_collections") log
  /\ Forall (fun c => exists region, In region serverless_regions /\ annotated region c) found
  /\ Forall (fun c => exists region, In region serverless_regions /\ listed_in aws region c)
       found
  /\ (forall region resp collections,
        In region serverless_regions ->
        new_client aws "opensearchserverless" region = None ->
        respond aws (mkRequest region "opensearchserverless" "list_collections" []) = inr resp ->
        dict_get "collectionSummaries" resp = Some (VList collections) ->
        Forall (fun c => exists d, c = VDict d) collections ->
        exists before here after,
          found = (before ++ here ++ after)%list
          /\ Forall2 (annotates region) collections here).
Proof.
  cbv zeta. unfold scan_for_opensearch_serverless.
  destruct (scan_regions_spec aws serverless_regions []) as (found & extra & -> & Hl & Ha & Hi).
  cbn [fst snd app]. split; [exact Hl|]. split; [|split; [exact Ha|]].
  - eapply List.Forall_impl; [|exact Ha].
    intros c (region & Hin & _ & resp & collections & c0 & _ & _ & _ & Hc).
    exists region. split; [exact Hin | exact (annotates_annotated _ _ _ Hc)].
  - intros region resp collections Hin Hc Hr Hv Hd.
    destruct (Hi region resp collections Hin Hc Hr Hv) as (before & after & ->).
    exists before, (annotate_collections region collections), after.
    split; [reflexivity | now apply annotate_collections_all].
Qed.

(** X15, witness: only eu-west-1 answers, us-east-2 gives no client and
    the other regions refuse the request; the collection of eu-west-1 is
    returned with its name. *)
Lemma serverless_scan_regions_independent_witness :
  exists before here after,
    fst (scan_for_opensearch_serverless Examples.patchy_aws) = (before ++ here ++ after)%list
    /\ Forall2 (annotates "eu-west-1") [VDict [("name", VStr "vectors")]] here.
Proof.
  refine (proj2 (proj2 (proj2 (serverless_scan_regions_independent Examples.patchy_aws)))
            "eu-west-1" _ [VDict [("name", VStr "vectors")]] _ eq_refl eq_refl eq_refl _).
  - simpl. tauto.
  - repeat constructor. eexists. reflexivity.
Defined.
End RegionalScanExtras.

(** ** Cancellation dispatcher: the delete paths *)

Section DeletionFacts.
Import Py Cancellation Deletion.

Lemma dict_get_In {V : Type} (k : string) (d : list (string * V)) (v : V) :
  dict_get k d = Some v -> In (k, v) d.
Proof.
  induction d as [|[k' v'] d IH]; simpl; [discriminate|].
  destruct (String.eqb k' k) eqn:E.
  - apply String.eqb_eq in E. intros [= <-]. left. now subst.
  - intros H. right. now apply IH.
Qed.

Lemma cancel_service_log (aws : Aws) (service_name : string) (service_id : option string)
    (region : string) :
  snd (cancel_service aws service_name service_id region)
  = snd (handler_of service_name aws region service_id region []).
Proof.
  unfold cancel_service. cbv zeta.
  destruct (handler_of service_name aws region service_id region []) as [[e|r] log];
    reflexivity.
Qed.

Lemma cancel_service_raised (aws : Aws) (service_name : string) (service_id : option string)
    (region : string) (e : Exn) (log : list Request) :
  handler_of service_name aws region service_id region [] = (inl e, log) ->
  fst (cancel_service aws service_name service_id region)
  = [ ("success", VBool false);
      ("message", VStr ("Error canceling " +:+ service_name +:+ ": " +:+ exn_str e));
      ("error_code", VStr (match e with ClientError code _ _ => code | _ => "UnknownError" end)) ].
Proof. unfold cancel_service. cbv zeta. intros ->. reflexivity. Qed.

Lemma cancel_service_returned (aws : Aws) (service_name : string)
    (service_id : option string) (region : string) (details : Dict) (log : list Request) :
  handler_of service_name aws region service_id region [] = (inr details, log) ->
  fst (cancel_service aws service_name service_id region)
  = [ ("success", VBool true);
      ("message", VStr ("Successfully initiated cancellation for " +:+ service_name));
      ("details", VDict details) ].
Proof. unfold cancel_service. cbv zeta. intros ->. reflexivity. Qed.

(** The services [delete_request] knows, with their handlers. *)
Lemma delete_request_cases (region service_name resource_id : string) (req : Request) :
  delete_request region service_name resource_id = Some req ->
  (service_name = "Amazon OpenSearch Service" /\ handler_of service_name = cancel_opensearch
   /\ req = mkRequest region "opensearch" "delete_domain" [("DomainName", VStr resource_id)])
  \/ (service_name = "OpenSearch Serverless"
      /\ handler_of service_name = cancel_opensearch_serverless
      /\ req = mkRequest region "opensearchserverless" "delete_collection"
                 [("id", VStr resource_id)])
  \/ (service_name = "Amazon Redshift" /\ handler_of service_name = cancel_redshift
      /\ req = mkRequest region "redshift" "delete_cluster"
                 [("ClusterIdentifier", VStr resource_id);
                  ("SkipFinalClusterSnapshot", VBool true)])
  \/ (service_name = "AWS Lambda" /\ handler_of service_name = cancel_lambda
      /\ req = mkRequest region "lambda" "delete_function"
                 [("FunctionName", VStr resource_id)])
  \/ (service_name = "Amazon EC2" /\ handler_of service_name = cancel_ec2
      /\ req = mkRequest region "ec2" "terminate_instances"
                 [("InstanceIds", VList [VStr resource_id])])
  \/ (service_name = "Amazon RDS" /\ handler_of service_name = cancel_rds
      /\ req = mkRequest region "rds" "delete_db_instance"
                 [("DBInstanceIdentifier", VStr resource_id);
                  ("SkipFinalSnapshot", VBool true);
                  ("DeleteAutomatedBackups", VBool true)]).
Proof.
  unfold delete_request. cbv zeta.
  match goal with |- context [dict_get service_name ?t] =>
    destruct (dict_get service_name t) as [[[cl operation] kwargs]|] eqn:E end;
    [|discriminate].
  intros [= <-]. apply dict_get_In in E. cbn [In] in E.
  destruct E as [E|[E|[E|[E|[E|[E|[]]]]]]]; injection E as <- <- <- <-.
  - left. repeat split.
  - right; left. repeat split.
  - do 2 right; left. repeat split.
  - do 3 right; left. repeat split.
  - do 4 right; left. repeat split.
  - do 5 right. repeat split.
Qed.

(** What a handler with a resource id does: no client, or its one request
    refused, or its one request answered with [resp]. *)
Lemma handler_with_id (aws : Aws) (region service_name resource_id : string) (req : Request) :
  truthy resource_id = true ->
  delete_request region service_name resource_id = Some req ->
  match new_client aws (req_client req) region with
  | Some e => handler_of service_name aws region (Some resource_id) region [] = (inl e, [])
  | None =>
      match respond aws req with
      | inl e =>
          handler_of service_name aws region (Some resource_id) region [] = (inl e, [req])
      | inr resp =>
          exists res,
            handler_of service_name aws region (Some resource_id) region [] = (res, [req])
            /\ forall details, res = inr details ->
                 dict_get "action" details = Some (VStr "deleted")
                 \/ dict_get "action" details = Some (VStr "terminated")
      end
  end.
Proof.
  intros Hid Hreq.
  destruct (delete_request_cases _ _ _ _ Hreq)
    as [(-> & Hh & ->)|[(-> & Hh & ->)|[(-> & Hh & ->)|[(-> & Hh & ->)|[(-> & Hh & ->)
       |(-> & Hh & ->)]]]]];
    rewrite Hh; cbn [req_client];
    (match goal with |- match new_client aws ?c region with _ => _ end =>
       destruct (new_client aws c region) as [e|] eqn:Hc end;
     [ unfold cancel_opensearch, cancel_opensearch_serverless, cancel_redshift,
         cancel_lambda, cancel_ec2, cancel_rds;
       cbn [truthy_opt]; rewrite Hid; cbn [negb]; unfold bind, client; rewrite Hc;
       reflexivity
     | ]);
    (match goal with |- match respond aws ?r with _ => _ end =>
       destruct (respond aws r) as [e|resp] eqn:Hr end);
    unfold cancel_opensearch, cancel_opensearch_serverless, cancel_redshift,
      cancel_lambda, cancel_ec2, cancel_rds;
    cbn [truthy_opt]; rewrite Hid; cbn [negb id_val];
    unfold bind, client, call; rewrite Hc; cbn [app]; rewrite Hr;
    try reflexivity.
  - eexists. split; [reflexivity|]. intros details [= <-]. left. reflexivity.
  - eexists. split; [reflexivity|]. intros details [= <-]. left. reflexivity.
  - unfold get_get, get, ret, raise.
    destruct (dict_get "Cluster" resp) as [[| | | |inner]|];
      eexists; (split; [reflexivity|]); intros details [= <-]; left; reflexivity.
  - eexists. split; [reflexivity|]. intros details [= <-]. left. reflexivity.
  - eexists. split; [reflexivity|]. intros details [= <-]. right. reflexivity.
  - unfold get_get, get, ret, raise.
    destruct (dict_get "DBInstance" resp) as [[| | | |inner]|];
      eexists; (split; [reflexivity|]); intros details [= <-]; left; reflexivity.
Qed.

Lemma object_keys_log (contents : list PyVal) (log : list Request) :
  object_keys contents log = (fst (object_keys contents []), log).
Proof.
  revert log. induction contents as [|c contents IH]; intros log; [reflexivity|].
  destruct c as [| b | s | l | d]; cbn [object_keys]; try reflexivity.
  unfold bind at 1 3. unfold item.
  destruct (dict_get "Key" d) as [k|]; [|reflexivity].
  unfold ret at 1 3. unfold bind. rewrite (IH log), (IH []).
  destruct (fst (object_keys contents [])); reflexivity.
Qed.
End DeletionFacts.

Section DeletionExtras.
Import Py Cancellation Deletion.

(** X16: with a non-empty resource id, each of the six one-request handlers
    sends exactly one request when its client can be built, and none
    otherwise: the delete (or terminate) call of [delete_request], in the
    region passed to [cancel_service], carrying that very id; Redshift and
    RDS are told to skip the final snapshot. Nothing is listed first. *)
Theorem cancel_with_id_sends_one_delete (aws : Aws) (service_name resource_id region : string)
    (req : Request) :
  truthy resource_id = true ->
  delete_request region service_name resource_id = Some req ->
  req_region req = region
  /\ destructive req = true
  /\ listing req = false
  /\ snd (cancel_service aws service_name (Some resource_id) region)
     = match new_client aws (req_client req) region with
       | Some _ => []
       | None => [req]
       end.
Proof.
  intros Hid Hreq.
  assert (Hshape : req_region req = region /\ destructive req = true /\ listing req = false).
  { destruct (delete_request_cases _ _ _ _ Hreq)
      as [(_ & _ & ->)|[(_ & _ & ->)|[(_ & _ & ->)|[(_ & _ & ->)|[(_ & _ & ->)
         |(_ & _ & ->)]]]]]; repeat split. }
  destruct Hshape as (Hr & Hd & Hl). split; [exact Hr|]. split; [exact Hd|].
  split; [exact Hl|].
  rewrite cancel_service_log.
  pose proof (handler_with_id aws region service_name resource_id req Hid Hreq) as H.
  destruct (new_client aws (req_client req) region) as [e|]; [now rewrite H|].
  destruct (respond aws req) as [e|resp]; [now rewrite H|].
  destruct H as (res & -> & _). reflexivity.
Qed.

(** X16, witness: an RDS instance in eu-west-1. *)
Lemma cancel_with_id_sends_one_delete_witness :
  snd (cancel_service Scenario.answering_aws "Amazon RDS" (Some "orders-db") "eu-west-1")
  = [ mkRequest "eu-west-1" "rds" "delete_db_instance"
        [ ("DBInstanceIdentifier", VStr "orders-db");
          ("SkipFinalSnapshot", VBool true);
          ("DeleteAutomatedBackups", VBool true) ] ].
Proof.
  exact (proj2 (proj2 (proj2
           (cancel_with_id_sends_one_delete Scenario.answering_aws "Amazon RDS" "orders-db"
              "eu-west-1" _ eq_refl eq_refl)))).
Defined.

(** X17: how the one delete request ends is what [cancel_service] reports.
    A refused request gives success = false with the error code of the
    [ClientError] ([UnknownError] for any other exception) and no
    [details]; and whenever success = true is reported, the action is
    [deleted] or [terminated]. *)
Theorem cancel_with_id_outcome (aws : Aws) (service_name resource_id region : string)
    (req : Request) :
  truthy resource_id = true ->
  delete_request region service_name resource_id = Some req ->
  new_client aws (req_client req) region = None ->
  let result := fst (cancel_service aws service_name (Some resource_id) region) in
  (forall e, respond aws req = inl e ->
     result =
       [ ("success", VBool false);
         ("message", VStr ("Error canceling " +:+ service_name +:+ ": " +:+ exn_str e));
         ("error_code",
          VStr (match e with ClientError code _ _ => code | _ => "UnknownError" end)) ])
  /\ (dict_get "success" result = Some (VBool true) ->
      (exists resp, respond aws req = inr resp)
      /\ (details_action result = Some (VStr "deleted")
          \/ details_action result = Some (VStr "terminated"))).
Proof.
  intros Hid Hreq Hc. cbv zeta.
  pose proof (handler_with_id aws region service_name resource_id req Hid Hreq) as H.
  rewrite Hc in H. destruct (respond aws req) as [e|resp].
  - rewrite (cancel_service_raised _ _ _ _ _ _ H). split.
    + intros e' [= <-]. reflexivity.
    + intros [=].
  - split; [intros e [=]|].
    destruct H as ([e|details] & E & Hact).
    + rewrite (cancel_service_raised _ _ _ _ _ _ E). intros [=].
    + rewrite (cancel_service_returned _ _ _ _ _ _ E). intros _.
      split; [now exists resp|]. exact (Hact details eq_refl).
Qed.

(** X17, witness: deleting a Lambda function is refused. *)
Lemma cancel_with_id_outcome_witness :
  dict_get "error_code"
    (fst (cancel_service Examples.patchy_aws "AWS Lambda" (Some "resize-images") "us-west-2"))
  = Some (VStr "AccessDeniedException").
Proof.
  rewrite (proj1 (cancel_with_id_outcome Examples.patchy_aws "AWS Lambda" "resize-images"
                    "us-west-2" _ eq_refl eq_refl eq_refl) _ eq_refl).
  reflexivity.
Defined.

(** X18: [_cancel_s3] with a bucket name. A [ClientError] from listing the
    objects stops the handler before anything is deleted, and is reported
    as success = true with action [error]; a bucket without [Contents] is
    deleted at once; otherwise one [delete_objects] request carries every
    listed key, and the bucket is deleted only if that request is answered.
    Every request names the bucket and goes to the region passed in. *)
Theorem cancel_s3_flow (aws : Aws) (bucket region : string) :
  truthy bucket = true ->
  new_client aws "s3" region = None ->
  let result := fst (cancel_service aws "Amazon S3" (Some bucket) region) in
  let log := snd (cancel_service aws "Amazon S3" (Some bucket) region) in
  (forall code message operation,
     respond aws (s3_list region bucket) = inl (ClientError code message operation) ->
     log = [s3_list region bucket]
     /\ dict_get "success" result = Some (VBool true)
     /\ details_action result = Some (VStr "error"))
  /\ (forall objects,
        respond aws (s3_list region bucket) = inr objects ->
        dict_get "Contents" objects = None ->
        log = [s3_list region bucket; s3_delete_bucket region bucket])
  /\ (forall objects contents keys,
        respond aws (s3_list region bucket) = inr objects ->
        dict_get "Contents" objects = Some (VList contents) ->
        fst (object_keys contents []) = inr keys ->
        length keys = length contents
        /\ log = match respond aws (s3_delete_objects region bucket keys) with
                 | inl _ => [s3_list region bucket; s3_delete_objects region bucket keys]
                 | inr _ => [s3_list region bucket; s3_delete_objects region bucket keys;
                             s3_delete_bucket region bucket]
                 end).
Proof.
  intros Hid Hc. cbv zeta. rewrite cancel_service_log.
  change (handler_of "Amazon S3") with cancel_s3.
  assert (Hrun : cancel_s3 aws region (Some bucket) region []
                 = except_client_error
                     (do objects <- call aws region "s3" "list_objects_v2"
                                      [("Bucket", VStr bucket)] ;;
                      do _ <- match dict_get "Contents" objects with
                              | Some (VList contents) =>
                                  do keys <- object_keys contents ;;
                                  do _ <- call aws region "s3" "delete_objects"
                                            [ ("Bucket", VStr bucket);
                                              ("Delete", VDict [("Objects", VList keys)]) ] ;;
                                  ret tt
                              | Some _ => raise (OtherError "TypeError")
                              | None => ret tt
                              end ;;
                      do response <- call aws region "s3" "delete_bucket"
                                       [("Bucket", VStr bucket)] ;;
                      ret [ ("bucket_name", VStr bucket); ("action", VStr "deleted") ])
                     (fun e => ret [ ("bucket_name", VStr bucket);
                                     ("error", VStr (exn_str e));
                                     ("action", VStr "error") ]) []).
  { unfold cancel_s3. cbn [truthy_opt]. rewrite Hid. cbn [negb id_val].
    unfold bind at 1. unfold client. rewrite Hc. reflexivity. }
  split; [|split].
  - intros code message operation Hr.
    assert (E : cancel_s3 aws region (Some bucket) region []
                = (inr [ ("bucket_name", VStr bucket);
                         ("error", VStr (exn_str (ClientError code message operation)));
                         ("action", VStr "error") ], [s3_list region bucket])).
    { rewrite Hrun. unfold except_client_error, bind at 1, call. cbn [app].
      fold (s3_list region bucket). rewrite Hr. reflexivity. }
    rewrite (cancel_service_returned aws "Amazon S3" (Some bucket) region _ _ E).
    rewrite E. repeat split.
  - intros objects Hr Hn. rewrite Hrun.
    unfold except_client_error, bind at 1, call. cbn [app].
    fold (s3_list region bucket). rewrite Hr.
    unfold bind at 1. rewrite Hn. unfold ret at 1. unfold bind, ret.
    fold (s3_delete_bucket region bucket).
    destruct (respond aws (s3_delete_bucket region bucket)) as [[]|]; reflexivity.
  - intros objects contents keys Hr Hcont Hkeys. split.
    + clear - Hkeys. revert keys Hkeys.
      induction contents as [|c contents IH]; intros keys.
      * intros [= <-]. reflexivity.
      * destruct c as [| b | s | l | d]; cbn [object_keys]; try discriminate.
        unfold bind at 1. unfold item.
        destruct (dict_get "Key" d) as [k|]; [|discriminate].
        unfold ret at 1. unfold bind. rewrite object_keys_log.
        destruct (fst (object_keys contents [])) as [e|ks]; [discriminate|].
        intros [= <-]. cbn [length]. f_equal. now apply IH.
    + rewrite Hrun.
      unfold except_client_error, bind at 1, call. cbn [app].
      fold (s3_list region bucket). rewrite Hr.
      unfold bind at 1. rewrite Hcont. unfold bind at 1. unfold bind at 1.
      rewrite object_keys_log, Hkeys. unfold bind at 1. cbn [app].
      fold (s3_delete_objects region bucket keys).
      destruct (respond aws (s3_delete_objects region bucket keys)) as [e|answer].
      * destruct e; reflexivity.
      * unfold ret at 1. unfold bind, ret. cbn [app].
        fold (s3_delete_bucket region bucket).
        destruct (respond aws (s3_delete_bucket region bucket)) as [[]|]; reflexivity.
Qed.

(** X18, witness: a bucket with two objects, every request answered. *)
Lemma cancel_s3_flow_witness :
  snd (cancel_service Examples.bucket_aws "Amazon S3" (Some "reports") "us-east-1")
  = [ s3_list "us-east-1" "reports";
      s3_delete_objects "us-east-1" "reports"
        [ VDict [("Key", VStr "2025/april.csv")]; VDict [("Key", VStr "2025/may.csv")] ];
      s3_delete_bucket "us-east-1" "reports" ].
Proof.
  exact (proj2 (proj2 (proj2 (cancel_s3_flow Examples.bucket_aws "reports" "us-east-1"
                                eq_refl eq_refl))
                  _ _ _ eq_refl eq_refl eq_refl)).
Defined.
End DeletionExtras.

(** ** Ledger and canceler *)

Section CancelerFacts.
Import Py Cancellation Scanner Ledger Canceler.

Lemma record_object (day : string) (outcome : WriteOutcome) (st : State)
    (service_name : string) (cost : float) :
  canceled_services (record_service_cancellation day outcome st service_name cost)
  = <[service_name := mkRecord "Canceled" day cost]> (canceled_services st).
Proof. destruct outcome; reflexivity. Qed.

Lemma record_all_app (a b : list (Moment * string * float)) (st : State) :
  record_all (a ++ b)%list st = record_all b (record_all a st).
Proof. unfold record_all. apply fold_left_app. Qed.

Lemma record_all_other (events : list (Moment * string * float)) (st : State)
    (other : string) :
  (forall m cost, ~ In (m, other, cost) events) ->
  canceled_services (record_all events st) !! other = canceled_services st !! other.
Proof.
  revert st. induction events as [|[[m name] cost] events IH]; intros st Hn; [reflexivity|].
  change (record_all (((m, name, cost)) :: events) st)
    with (record_all events (record_service_cancellation (today m) (write m) st name cost)).
  rewrite IH.
  - rewrite record_object. apply lookup_insert_ne.
    intros ->. apply (Hn m cost). now left.
  - intros m' cost' Hin. apply (Hn m' cost'). now right.
Qed.

Lemma record_all_recorded (events : list (Moment * string * float)) (st : State)
    (m : Moment) (name : string) (cost : float) :
  In (m, name, cost) events ->
  exists r, canceled_services (record_all events st) !! name = Some r
            /\ status r = "Canceled".
Proof.
  induction events as [|[[m' name'] cost'] events IH] using rev_ind; [intros []|].
  intros Hin. rewrite record_all_app.
  change (record_all [(m', name', cost')] (record_all events st))
    with (record_service_cancellation (today m') (write m') (record_all events st)
            name' cost').
  rewrite record_object.
  destruct (String.eqb name' name) eqn:E.
  - apply String.eqb_eq in E. subst name'. rewrite lookup_insert_eq.
    eexists. split; reflexivity.
  - assert (name' <> name) as Hne
        by (intros ->; rewrite String.eqb_refl in E; discriminate E).
    rewrite lookup_insert_ne by exact Hne.
    apply in_app_or in Hin as [Hin|[Hin|[]]]; [now apply IH|].
    injection Hin as _ Hn _. contradiction.
Qed.

Lemma marketplace_spec (aws : Aws) :
  exists log, cancel_marketplace_subscriptions aws [] = (inr tt, log)
              /\ Forall (fun r => destructive r = false /\ req_region r = "us-east-1") log.
Proof.
  unfold cancel_marketplace_subscriptions, try_all, bind at 1, client.
  destruct (new_client aws "marketplace-catalog" "us-east-1").
  - exists []. split; [reflexivity | constructor].
  - unfold bind, call, ret. cbn [app].
    match goal with |- context [respond aws ?r] => destruct (respond aws r) end;
      eexists; (split; [reflexivity|]); repeat constructor.
Qed.
End CancelerFacts.

Section CancelerExtras.
Import Py Cancellation Ledger Canceler.

(** X19: one completed write repairs the file. After the recording loop
    of [check_and_cancel_services], if the write of the last recording
    completes, loading the file gives the object as it stands, whatever the
    earlier writes did: the last service with its date and cost, every
    service recorded before it with status [Canceled], and every entry of
    other services as it was before the loop. *)
Theorem record_all_last_write_repairs (events : list (Moment * string * float))
    (m : Moment) (name : string) (cost : float) (st : State) :
  write m = WriteOk ->
  let st' := record_all (events ++ [(m, name, cost)])%list st in
  load_canceled_services (file st') = canceled_services st'
  /\ load_canceled_services (file st') !! name = Some (mkRecord "Canceled" (today m) cost)
  /\ (forall m' name' cost', In (m', name', cost') events ->
        exists r, load_canceled_services (file st') !! name' = Some r
                  /\ status r = "Canceled")
  /\ (forall other, other <> name -> (forall m' cost', ~ In (m', other, cost') events) ->
        load_canceled_services (file st') !! other = canceled_services st !! other).
Proof.
  intros Hw. cbv zeta.
  assert (Hsync : load_canceled_services
                    (file (record_all (events ++ [(m, name, cost)])%list st))
                  = canceled_services (record_all (events ++ [(m, name, cost)])%list st)).
  { rewrite record_all_app.
    change (record_all [(m, name, cost)] (record_all events st))
      with (record_service_cancellation (today m) (write m) (record_all events st) name cost).
    rewrite Hw. reflexivity. }
  rewrite Hsync. split; [reflexivity|]. split; [|split].
  - rewrite record_all_app.
    change (record_all [(m, name, cost)] (record_all events st))
      with (record_service_cancellation (today m) (write m) (record_all events st) name cost).
    rewrite record_object. apply lookup_insert_eq.
  - intros m' name' cost' Hin.
    apply (record_all_recorded _ st m' name' cost'). apply in_or_app. now left.
  - intros other Hne Hn. apply record_all_other.
    intros m' cost' Hin. apply in_app_or in Hin as [Hin|[Hin|[]]].
    + exact (Hn _ _ Hin).
    + injection Hin as _ Hname _. now apply Hne.
Qed.

(** X19, witness: three services recorded, only the last write completes;
    the file then holds the first one too. *)
Lemma record_all_last_write_repairs_witness :
  exists r,
    load_canceled_services
      (file (record_all Examples.exceeding_services Scenario.one_entry_ledger))
      !! "Amazon OpenSearch Service" = Some r
    /\ status r = "Canceled".
Proof.
  refine (proj1 (proj2 (proj2
            (record_all_last_write_repairs
               [ (Examples.april_15 DumpFails, "Amazon OpenSearch Service", 41.5%float);
                 (Examples.april_15 OpenFails, "Amazon EC2", 17.25%float) ]
               (Examples.april_15 WriteOk) "Amazon RDS" 12.0%float
               Scenario.one_entry_ledger eq_refl)))
            (Examples.april_15 DumpFails) "Amazon OpenSearch Service" 41.5%float _).
  left. reflexivity.
Defined.

(** X20: [cancel_targeted_services] sends no delete or terminate request
    for the marketplace step (at most one [list_entities] to us-east-1), yet
    always leaves AWS Skill Builder Individual recorded as [Canceled] at
    cost 0.0. When the OpenSearch step returns, Amazon OpenSearch Service
    is recorded at cost 0.0 as well, replacing a cost recorded before; when
    it raises, that entry stays as it was. Entries of other services are
    not touched. *)
Theorem targeted_services_records (aws : Aws) (serverless : option Exn)
    (first second : Moment) (st : State) :
  let st' := fst (cancel_targeted_services aws serverless first second st) in
  let log := snd (cancel_targeted_services aws serverless first second st) in
  Forall (fun r => destructive r = false /\ req_region r = "us-east-1") log
  /\ canceled_services st' !! "AWS Skill Builder Individual"
     = Some (mkRecord "Canceled" (today second) 0.0%float)
  /\ canceled_services st' !! "Amazon OpenSearch Service"
     = match serverless with
       | None => Some (mkRecord "Canceled" (today first) 0.0%float)
       | Some _ => canceled_services st !! "Amazon OpenSearch Service"
       end
  /\ (forall other, other <> "Amazon OpenSearch Service" ->
        other <> "AWS Skill Builder Individual" ->
        canceled_services st' !! other = canceled_services st !! other).
Proof.
  cbv zeta. unfold cancel_targeted_services. cbv zeta.
  destruct (marketplace_spec aws) as (log & -> & Hlog). cbn [fst snd].
  split; [exact Hlog|]. rewrite !record_object. split; [apply lookup_insert_eq|].
  split.
  - rewrite lookup_insert_ne by discriminate.
    destruct serverless; [reflexivity|]. rewrite record_object. apply lookup_insert_eq.
  - intros other H1 H2. rewrite lookup_insert_ne by congruence.
    destruct serverless; [reflexivity|]. rewrite record_object.
    apply lookup_insert_ne. congruence.
Qed.

(** X20, witness: after the recording loop wrote 41.5 for Amazon
    OpenSearch Service, the targeted run leaves 0.0 there, and Amazon EC2
    as recorded. *)
Lemma targeted_services_records_witness :
  let recorded := record_all Examples.exceeding_services Scenario.one_entry_ledger in
  let st' := fst (cancel_targeted_services Scenario.answering_aws None
                    (Examples.april_15 WriteOk) (Examples.april_15 WriteOk) recorded) in
  canceled_services recorded !! "Amazon OpenSearch Service"
    = Some (mkRecord "Canceled" "2025-04-15" 41.5%float)
  /\ canceled_services st' !! "Amazon OpenSearch Service"
    = Some (mkRecord "Canceled" "2025-04-15" 0.0%float)
  /\ canceled_services st' !! "Amazon EC2" = canceled_services recorded !! "Amazon EC2".
Proof.
  cbv zeta. split; [|split].
  - unfold Examples.exceeding_services, record_all. cbn [fold_left].
    rewrite record_object, lookup_insert_ne by discriminate.
    rewrite record_object, lookup_insert_ne by discriminate.
    rewrite record_object. apply lookup_insert_eq.
  - exact (proj1 (proj2 (proj2
             (targeted_services_records Scenario.answering_aws None
                (Examples.april_15 WriteOk) (Examples.april_15 WriteOk) _)))).
  - refine (proj2 (proj2 (proj2
              (targeted_services_records Scenario.answering_aws None
                 (Examples.april_15 WriteOk) (Examples.april_15 WriteOk) _)))
              "Amazon EC2" _ _); discriminate.
Defined.
End CancelerExtras.

(** ** Region resolver: further properties *)

Section ResolverMoreFacts.
Import Py Resolver.

Lemma first_known_region_filter (groups : list Group) :
  first_known_region (List.filter analysed groups) = first_known_region groups.
Proof.
  induction groups as [|g groups IH]; [reflexivity|].
  cbn [List.filter first_known_region].
  destruct (analysed g) eqn:Ha; [|exact IH].
  cbn [first_known_region]. rewrite Ha, IH. reflexivity.
Qed.

Lemma serverless_filter (groups : list Group) :
  resolved_serverless (List.filter analysed groups) = resolved_serverless groups.
Proof.
  rewrite !resolved_serverless_spec.
  induction groups as [|g groups IH]; [reflexivity|].
  cbn [List.filter existsb].
  destruct (analysed g) eqn:Ha; cbn [existsb andb orb]; [|exact IH].
  rewrite Ha, IH. reflexivity.
Qed.

Lemma first_known_region_app (groups more : list Group) :
  first_known_region (groups ++ more)%list =
    match first_known_region groups with
    | Some r => Some r
    | None => first_known_region more
    end.
Proof.
  induction groups as [|g groups IH]; cbn [app first_known_region].
  - destruct (first_known_region more); reflexivity.
  - destruct (analysed g); [|exact IH].
    destruct (region_of_usage (usage_type g)); [reflexivity | exact IH].
Qed.

Lemma first_known_region_in_table (groups : list Group) (r : string) :
  first_known_region groups = Some r -> In r (map snd region_map).
Proof.
  induction groups as [|g groups IH]; cbn [first_known_region]; [discriminate|].
  destruct (analysed g); [|exact IH].
  destruct (region_of_usage (usage_type g)) as [r'|] eqn:Hr; [|exact IH].
  intros [= <-]. unfold region_of_usage in Hr.
  destruct (region_code (usage_type g)) as [rc|]; [|discriminate].
  destruct (truthy rc); [|discriminate].
  exact (in_map snd _ _ (dict_get_In _ _ _ Hr)).
Qed.
End ResolverMoreFacts.

Section ResolverExtras.
Import Py Resolver.

(** X21: groups the loop does not analyse (a service name without
    [OpenSearch], or a cost that is not above 0.01) have no influence on
    the link [find_exact_opensearch_billing_source] returns: dropping them
    from the response gives the same result. *)
Theorem link_ignores_unanalysed_groups (find : string -> option string)
    (groups : list Group) :
  find_exact_opensearch_billing_source (mkWorld (inr (List.filter analysed groups)) find)
  = find_exact_opensearch_billing_source (mkWorld (inr groups) find).
Proof.
  unfold find_exact_opensearch_billing_source. cbn [ce_groups]. f_equal.
  unfold link_for. cbn [find_recent_opensearch_domain].
  rewrite serverless_filter, !resolved_region_first_known, first_known_region_filter.
  reflexivity.
Qed.

(** X22: the region of the returned link is always one of the seven
    regions of the code table: usage in any other region is linked to the
    first listed region that is known, or to us-east-1. *)
Theorem link_region_is_a_table_region (w : World) (groups : list Group) :
  In (resolved_region groups) (map snd region_map)
  /\ exists resource_type resource_id,
       dict_get "url" (link_for w groups) =
         Some (generate_direct_console_url (resolved_region groups) resource_type resource_id).
Proof.
  split; [|apply link_url_region].
  rewrite resolved_region_first_known.
  destruct (first_known_region groups) as [r|] eqn:Hr; cbn [default].
  - exact (first_known_region_in_table _ _ Hr).
  - left. reflexivity.
Qed.

(** X23: [generate_direct_console_url] always builds
    [https://console.aws.amazon.com/<type>/home?region=<region>], the
    entries of its path table being what the default gives; [#/<id>] is
    appended exactly when the id is non-empty and not the star. *)
Theorem direct_console_url_shape (region resource_type resource_id : string) :
  generate_direct_console_url region resource_type resource_id
  = "https://console.aws.amazon.com/" +:+ resource_type +:+ "/home?region=" +:+ region
      +:+ (if truthy resource_id && negb (String.eqb resource_id "*")
           then "#/" +:+ resource_id else EmptyString).
Proof.
  unfold generate_direct_console_url. cbv zeta.
  assert (Hbase : match dict_get resource_type resource_paths with
                  | Some p => p
                  | None => resource_type +:+ "/home"
                  end = resource_type +:+ "/home").
  { destruct (dict_get resource_type resource_paths) as [p|] eqn:E; [|reflexivity].
    apply dict_get_In in E. cbn [resource_paths In] in E.
    destruct E as [E|[E|[E|[E|[]]]]]; injection E as <- <-; reflexivity. }
  rewrite Hbase.
  destruct (truthy resource_id && negb (String.eqb resource_id "*")).
  - rewrite !append_assoc. reflexivity.
  - rewrite !append_assoc.
    assert (Hnil : forall s, s +:+ EmptyString = s)
      by (intros s; induction s as [|c s IH]; [reflexivity | rewrite append_cons; now rewrite IH]).
    rewrite Hnil. reflexivity.
Qed.

(** X24: the loop never revises what it has found. Once a prefix of the
    response fixes a region, the groups after it cannot change it, and once
    the serverless flag is set it stays set; the flag does not depend on the
    order of the groups at all. *)
Theorem later_groups_do_not_revise (groups more : list Group) :
  (forall r, first_known_region groups = Some r ->
             resolved_region (groups ++ more)%list = resolved_region groups)
  /\ (resolved_serverless groups = true -> resolved_serverless (groups ++ more)%list = true)
  /\ (forall groups', Permutation groups groups' ->
                      resolved_serverless groups' = resolved_serverless groups).
Proof.
  split; [|split].
  - intros r Hr. rewrite !resolved_region_first_known, first_known_region_app, Hr.
    reflexivity.
  - rewrite !resolved_serverless_spec, existsb_app. intros ->. reflexivity.
  - intros groups' Hp. rewrite !resolved_serverless_spec.
    induction Hp as [|g l l' _ IH|g g' l|l l' l'' _ IH1 _ IH2]; cbn [existsb].
    + reflexivity.
    + now rewrite IH.
    + rewrite !orb_assoc. f_equal. apply orb_comm.
    + now rewrite IH2, IH1.
Qed.

(** X24, witness: the two-region response, with a serverless group of a
    third region added behind it. *)
Lemma later_groups_do_not_revise_witness :
  resolved_region
    (Scenario.two_region_groups
       ++ [Scenario.opensearch_group "USW2-ServerlessSearchOCU" 500%float])%list
  = resolved_region Scenario.two_region_groups.
Proof.
  exact (proj1 (later_groups_do_not_revise Scenario.two_region_groups
                  [Scenario.opensearch_group "USW2-ServerlessSearchOCU" 500%float])
           "us-east-1" eq_refl).
Defined.
End ResolverExtras.
